(** * xcalib: the internal vcgt parser ([read_vcgt_from_profile], xcalib.c)

    A shallow embedding of the parser that xcalib uses when it is built
    without icclib and without the patched LCMS: the tag-directory scan,
    the decoding of the two vcgt encodings and the zero-order resampling of
    a sampled table to the size of the video card's gamma ramp.

    Modelling conventions.
    - A profile is the list of its bytes; [FILE] is that list with a read
      position, [fread] never delivers bytes that are not in the file and
      leaves the rest of the destination buffer as it was.
    - [unsigned int] values are [Z] in the range 0 .. 2^32-1, the wrap-around
      of the C expressions written out with [mod].
    - A heap cell of an [unsigned short] array is [option Z]: [None] is a cell
      that [malloc] returned and nobody wrote.
    - Reading an array outside its bounds and dividing by zero have no defined
      result in C; the model stops there with [Undefined].
    - [error()] ends the process with [exit(-1)]: the model stops with
      [Exited].
    - The value 'vcgt' of the multi-character constant is the one GCC and
      Clang give it (0x76636774).
    - [malloc] is assumed to succeed, [long] to hold every [unsigned int]
      (LP64), and the loop counters [i] and [j] (C [int]) to stay below 2^31,
      which holds for every profile shorter than 24 GiB and every ramp size
      below 2^31.
    - [float] and [double] are IEEE 754 binary32 and binary64, rounded to
      nearest even, every operation carried out in the type of its operands
      (FLT_EVAL_METHOD 0, as on x86-64 and AArch64). The C library's [pow] is
      a parameter of the model; what is assumed of it is said where it is
      used.
    - Converting a [double] whose integral part is not in 0 .. 65535 to
      [u_int16_t] has no defined result in C (C99 6.3.1.4); the model stops
      there with [Undefined] too. *)

From Stdlib Require Import String Strings.Byte.
From Stdlib Require Import ZArith List Lia Bool.
From Stdlib Require Import Floats.SpecFloat.
Import ListNotations.
Open Scope Z_scope.

(** ** Floating point *)

(** C's [float] and [double]: binary32 has 24 digits and binary64 has 53. *)
Definition float : Type := spec_float.
Definition double : Type := spec_float.

(** A value rounded into the format of [prec] digits. *)
Definition to_format (prec emax : Z) (x : spec_float) : spec_float :=
  match x with
  | S754_finite s m e => binary_normalize prec emax (cond_Zopp s (Zpos m)) e s
  | _ => x
  end.

(** [(float) u] for an [unsigned int]. *)
Definition float_of_unsigned (u : Z) : float :=
  binary_normalize 24 128 u 0 false.

(** [(double) n] for an [int] or [unsigned int], and an integer literal used
    as a [double]; both are exact. *)
Definition double_of_int (n : Z) : double := binary_normalize 53 1024 n 0 false.

(** The promotion of a [float] operand and the conversion of an assignment
    to a [float]. *)
Definition double_of_float (x : float) : double := to_format 53 1024 x.
Definition float_of_double (x : double) : float := to_format 24 128 x.

Definition double_mul (x y : double) : double := SFmul 53 1024 x y.
Definition double_div (x y : double) : double := SFdiv 53 1024 x y.

(** [#define SYSTEM_GAMMA 2.222222]: the [double] nearest to the decimal. *)
Definition SYSTEM_GAMMA : double := S754_finite false 5003999085567259 (-51).

(** ** Undefined behaviour and the small error monad of the model *)

Inductive undefined : Type :=
| ReadPastEnd (index : Z) (len : nat)   (* a[index] with index >= number of cells *)
| DivisionByZero
| Unrepresentable (x : double).
    (* (u_int16_t) x with the integral part of x outside 0 .. 65535 *)

Inductive result (A : Type) : Type :=
| Ok (a : A)
| UB (u : undefined).
Arguments Ok {A} a.
Arguments UB {A} u.

Definition bind {A B : Type} (r : result A) (k : A -> result B) : result B :=
  match r with
  | Ok a => k a
  | UB u => UB u
  end.

Notation "'let*' x ':=' r 'in' k" := (bind r (fun x => k))
  (at level 10, x name, r at level 200, k at level 200).

(** ** The part of <stdio.h> the parser uses *)

Module Stdio.

Record FILE : Type := mkFILE { contents : list byte; position : nat }.

(** The file system seen through [fopen(name, "rb")]: [None] when the file
    cannot be opened. *)
Definition filesystem : Type := string -> option (list byte).

Definition fopen (fs : filesystem) (name : string) : option FILE :=
  match fs name with
  | Some bytes => Some (mkFILE bytes 0)
  | None => None
  end.

(** [fseek(fp, offset, SEEK_SET)] with a non-negative offset; seeking past
    the end is allowed and makes the following reads deliver nothing. *)
Definition fseek (fp : FILE) (offset : Z) : FILE :=
  mkFILE (contents fp) (Z.to_nat offset).

(** [fread(buf, 1, count, fp)]: the bytes delivered (at most [count], fewer
    at the end of the file) and the file advanced past them. *)
Definition fread (count : nat) (fp : FILE) : list byte * FILE :=
  let got := firstn count (skipn (position fp) (contents fp)) in
  (got, mkFILE (contents fp) (position fp + length got)).

End Stdio.
Import Stdio.

(** ** The locals of [read_vcgt_from_profile] that the reads thread *)

(** [unsigned char cTmp[4]]. *)
Definition buffer : Type := (byte * byte * byte * byte)%type.

(** What [fread] does to [cTmp]: the delivered bytes overwrite its first
    cells, the others keep their old content. *)
Definition store (got : list byte) (buf : buffer) : buffer :=
  let '(c0, c1, c2, c3) := buf in
  match got with
  | [] => buf
  | [a] => (a, c1, c2, c3)
  | [a; b] => (a, b, c2, c3)
  | [a; b; c] => (a, b, c, c3)
  | a :: b :: c :: d :: _ => (a, b, c, d)
  end.

Definition val (b : byte) : Z := Z.of_N (Byte.to_N b).

(** [cTmp[3]+cTmp[2]*256+cTmp[1]*65536+cTmp[0]*16777216] assigned to an
    [unsigned int]. The sum is formed in [int]; for [cTmp[0]] above 127 the
    model takes the two's-complement result, which the conversion to
    [unsigned int] turns into the big-endian value. *)
Definition u32 (buf : buffer) : Z :=
  let '(c0, c1, c2, c3) := buf in
  (val c3 + val c2 * 256 + val c1 * 65536 + val c0 * 16777216) mod 2 ^ 32.

(** [cTmp[1]+cTmp[0]*256]. *)
Definition u16 (buf : buffer) : Z :=
  let '(c0, c1, _, _) := buf in
  val c1 + val c0 * 256.

(** The multi-character constant ['vcgt']. *)
Definition vcgt : Z := 0x76636774.

Record locals : Type := mkLocals {
  fp : FILE;
  cTmp : buffer;
  bytesRead : Z
}.

(** [bytesRead = fread(cTmp, 1, count, fp);] *)
Definition fread_cTmp (count : nat) (s : locals) : locals :=
  let (got, fp') := fread count (fp s) in
  mkLocals fp' (store got (cTmp s)) (Z.of_nat (length got)).

Definition seek (offset : Z) (s : locals) : locals :=
  mkLocals (fseek (fp s) offset) (cTmp s) (bytesRead s).

(** ** The tag-directory scan (lines 160-169) *)

Inductive scan_result : Type :=
| TagFound (tagOffset tagSize : Z) (s : locals)  (* tagName == 'vcgt' *)
| ShortRead (s : locals)                         (* if(!bytesRead) goto cleanup_fileparser *)
| Exhausted (s : locals)                         (* i reached numTags *)
| ScanOutOfFuel.

(** One turn of [for(i=0; i<numTags; i++)] per unit of fuel. *)
Fixpoint scan_tags (fuel : nat) (i numTags : Z) (s : locals) : scan_result :=
  match fuel with
  | O => ScanOutOfFuel
  | S fuel' =>
      if i <? numTags then
        let s1 := fread_cTmp 4 s in
        let tagName := u32 (cTmp s1) in
        let s2 := fread_cTmp 4 s1 in
        let tagOffset := u32 (cTmp s2) in
        let s3 := fread_cTmp 4 s2 in
        let tagSize := u32 (cTmp s3) in
        if bytesRead s3 =? 0 then ShortRead s3
        else if tagName =? vcgt then TagFound tagOffset tagSize s3
        else scan_tags fuel' (i + 1) numTags s3
      else Exhausted s
  end.

(** Every turn that goes on has read at least one byte, so one more unit of
    fuel than the file has bytes is enough (see [scan_tags_total]). *)
Definition scan_fuel (s : locals) : nat := S (length (contents (fp s))).

(** Lines 155-169: skip the header, read the tag count, scan. *)
Definition locate_vcgt (f : FILE) (cTmp0 : buffer) : scan_result :=
  let s0 := mkLocals (fseek f (0 + 128)) cTmp0 0 in
  let s1 := fread_cTmp 4 s0 in
  let numTags := u32 (cTmp s1) in
  scan_tags (scan_fuel s1) 0 numTags s1.

(** ** Decoding a sampled table (lines 240-283) *)

(** A cell of an [unsigned short] array. *)
Definition cell : Type := option Z.

(** [case 2:] of the switch: two bytes, big-endian. *)
Definition case_2 (sc : locals * cell) : locals * cell :=
  let s' := fread_cTmp 2 (fst sc) in
  (s', Some (u16 (cTmp s'))).

(** [case 1:] of the switch: one byte. The case has no [break]. *)
Definition case_1 (sc : locals * cell) : locals * cell :=
  let s' := fread_cTmp 1 (fst sc) in
  let '(c0, _, _, _) := cTmp s' in
  (s', Some (val c0)).

(** [switch(entrySize) { case 1: ... case 2: ... }]: control entering at
    [case 1] runs on into [case 2]; any other size leaves the cell alone. *)
Definition read_sample (entrySize : Z) (sc : locals * cell) : locals * cell :=
  if entrySize =? 1 then case_2 (case_1 sc)
  else if entrySize =? 2 then case_2 sc
  else sc.

(** [for(j=0; j<numEntries; j++) switch(entrySize) ...] filling a freshly
    allocated array of [count] cells. *)
Fixpoint read_channel (entrySize : Z) (count : nat) (s : locals)
  : locals * list cell :=
  match count with
  | O => (s, [])
  | S count' =>
      let (s1, c) := read_sample entrySize (s, None) in
      let (s2, cs) := read_channel entrySize count' s1 in
      (s2, c :: cs)
  end.

(** ** Fitting the table to the ramp size (lines 286-313) *)

(** [a[k]] for an array of [length a] cells. *)
Definition load (a : list cell) (k : Z) : result cell :=
  match nth_error a (Z.to_nat k) with
  | Some c => Ok c
  | None => UB (ReadPastEnd k (length a))
  end.

Definition tables : Type := (list cell * list cell * list cell)%type.

(** [for(j=...; j<*nEntries; j++) { rRamp[0][j] = redRamp[index j]; ... }],
    [count] turns from [j] on. *)
Fixpoint copy_loop (index : Z -> Z) (red green blue : list cell)
    (j : Z) (count : nat) : result tables :=
  match count with
  | O => Ok ([], [], [])
  | S count' =>
      let* r := load red (index j) in
      let* g := load green (index j) in
      let* b := load blue (index j) in
      let* rest := copy_loop index red green blue (j + 1) count' in
      let '(rs, gs, bs) := rest in
      Ok (r :: rs, g :: gs, b :: bs)
  end.

(** The three-way comparison of [*nEntries] with [numEntries]. *)
Definition evaluate_table (nEntries numEntries : Z)
    (red green blue : list cell) : result tables :=
  if nEntries =? numEntries then
    Ok (red, green, blue)
  else if nEntries <? numEntries then
    if nEntries =? 0 then UB DivisionByZero
    else
      let ratio := numEntries / nEntries in
      copy_loop (fun j => (ratio * j) mod 2 ^ 32) red green blue
                0 (Z.to_nat nEntries)
  else
    if numEntries =? 0 then UB DivisionByZero
    else
      let ratio := nEntries / numEntries in
      copy_loop (fun j => j / ratio) red green blue 0 (Z.to_nat nEntries).

(** ** Evaluating a formula (lines 187-235) *)

(** [gamma = (float)uTmp/65536.0;] the quotient is formed in [double] and
    stored in a [float]. *)
Definition gamma_of (uTmp : Z) : float :=
  float_of_double
    (double_div (double_of_float (float_of_unsigned uTmp))
                (double_of_int 65536)).

(** A [double] assigned to a [u_int16_t] cell: the fraction is discarded;
    there is no defined result when what is left does not fit the cell (nor
    for an infinity or a NaN). *)
Definition to_u_int16_t (x : double) : result Z :=
  match x with
  | S754_zero _ => Ok 0
  | S754_finite s m e =>
      let t := Z.quot (cond_Zopp s (Z.shiftl (Zpos m) (Z.max e 0)))
                      (2 ^ Z.max (- e) 0) in
      if (0 <=? t) && (t <=? 65535) then Ok t else UB (Unrepresentable x)
  | S754_infinity _ | S754_nan => UB (Unrepresentable x)
  end.

Section Formula.

(** [double pow(double x, double y)] of <math.h>. *)
Variable pow : double -> double -> double.

(** [65563 * pow (j / n, gamma * SYSTEM_GAMMA)] assigned to a ramp cell,
    where [j] and [n], the ramp size, are converted to [double], [gamma] is
    promoted to [double] and 65563 is converted for the product. *)
Definition formula_entry (nEntries : Z) (gamma : float) (j : Z) : result Z :=
  to_u_int16_t
    (double_mul (double_of_int 65563)
       (pow (double_div (double_of_int j) (double_of_int nEntries))
            (double_mul (double_of_float gamma) SYSTEM_GAMMA))).

(** [for(j=...; j<*nEntries; j++) { rRamp[0][j] = ...; gRamp[0][j] = ...;
    bRamp[0][j] = ...; }], [count] turns from [j] on. *)
Fixpoint formula_loop (nEntries : Z) (rGamma gGamma bGamma : float)
    (j : Z) (count : nat) : result tables :=
  match count with
  | O => Ok ([], [], [])
  | S count' =>
      let* r := formula_entry nEntries rGamma j in
      let* g := formula_entry nEntries gGamma j in
      let* b := formula_entry nEntries bGamma j in
      let* rest := formula_loop nEntries rGamma gGamma bGamma (j + 1) count' in
      let '(rs, gs, bs) := rest in
      Ok (Some r :: rs, Some g :: gs, Some b :: bs)
  end.

(** Lines 217-236: three fresh arrays of [*nEntries] cells, filled. *)
Definition evaluate_formula (nEntries : Z) (rGamma gGamma bGamma : float)
  : result tables :=
  formula_loop nEntries rGamma gGamma bGamma 0 (Z.to_nat nEntries).

End Formula.

(** ** The whole function *)

(** What [*rRamp], [*gRamp] and [*bRamp] point to once written: the arrays
    of the table branch, or the three arrays that the formula branch
    allocated and filled. *)
Inductive ramps : Type :=
| TableRamps (red green blue : list cell)
| FormulaRamps (red green blue : list cell).

Inductive outcome : Type :=
| Returned (rv : Z) (out : option ramps)  (* [None]: the three pointers were not written *)
| Exited (status : Z) (fmt : string) (arg : Z)
| Undefined (u : undefined)
| OutOfFuel.

(** [error (fmt, arg)]: the message goes to stderr, then [exit (-1)]. *)
Definition error (fmt : string) (arg : Z) : outcome := Exited (-1) fmt arg.

(** Lines 185-236: nine words are read; the three gammas go into the ramps,
    the minima and maxima are printed by [message] and not used again. *)
Definition decode_formula (pow : double -> double -> double)
    (nEntries : Z) (s : locals) : outcome :=
  let s1 := fread_cTmp 4 s in
  let rGamma := gamma_of (u32 (cTmp s1)) in
  let s2 := fread_cTmp 4 s1 in   (* rMin *)
  let s3 := fread_cTmp 4 s2 in   (* rMax *)
  let s4 := fread_cTmp 4 s3 in
  let gGamma := gamma_of (u32 (cTmp s4)) in
  let s5 := fread_cTmp 4 s4 in   (* gMin *)
  let s6 := fread_cTmp 4 s5 in   (* gMax *)
  let s7 := fread_cTmp 4 s6 in
  let bGamma := gamma_of (u32 (cTmp s7)) in
  let s8 := fread_cTmp 4 s7 in   (* bMin *)
  let s9 := fread_cTmp 4 s8 in   (* bMax *)
  match evaluate_formula pow nEntries rGamma gGamma bGamma with
  | Ok (r, g, b) => Returned 0 (Some (FormulaRamps r g b))
  | UB u => Undefined u
  end.

(** Lines 240-313. *)
Definition decode_table (nEntries : Z) (s : locals) : outcome :=
  let s1 := fread_cTmp 2 s in
  let numChannels := u16 (cTmp s1) in
  let s2 := fread_cTmp 2 s1 in
  let numEntries := u16 (cTmp s2) in
  let s3 := fread_cTmp 2 s2 in
  let entrySize := u16 (cTmp s3) in
  if negb (numChannels =? 3) then Returned 0 None
  else
    let (s4, redRamp) := read_channel entrySize (Z.to_nat numEntries) s3 in
    let (s5, greenRamp) := read_channel entrySize (Z.to_nat numEntries) s4 in
    let (s6, blueRamp) := read_channel entrySize (Z.to_nat numEntries) s5 in
    match evaluate_table nEntries numEntries redRamp greenRamp blueRamp with
    | Ok (r, g, b) => Returned 0 (Some (TableRamps r g b))
    | UB u => Undefined u
    end.

(** Lines 171-315, entered when the directory holds a vcgt entry. *)
Definition decode_vcgt (pow : double -> double -> double)
    (tagOffset nEntries : Z) (s : locals) : outcome :=
  let s0 := seek (0 + tagOffset) s in
  let s1 := fread_cTmp 4 s0 in
  let tagName := u32 (cTmp s1) in
  if negb (tagName =? vcgt) then
    error "invalid content of table vcgt, starting with %x"%string tagName
  else
    let s2 := fread_cTmp 4 s1 in
    let s3 := fread_cTmp 4 s2 in
    let gammaType := u32 (cTmp s3) in
    if gammaType =? 1 then decode_formula pow nEntries s3
    else if gammaType =? 0 then decode_table nEntries s3
    else Returned 0 None.

(** [filename] is [None] for a NULL pointer; [nEntries] is the value behind
    the [unsigned int *]; [cTmp0] is whatever the stack held in [cTmp];
    [pow] is the C library's. *)
Definition read_vcgt_from_profile (pow : double -> double -> double)
    (fs : filesystem) (filename : option string)
    (nEntries : Z) (cTmp0 : buffer) : outcome :=
  match filename with
  | None => Returned (-1) None
  | Some name =>
      match fopen fs name with
      | None => Returned (-1) None
      | Some f =>
          match locate_vcgt f cTmp0 with
          | TagFound tagOffset _ s => decode_vcgt pow tagOffset nEntries s
          | ShortRead _ => Returned 0 None
          | Exhausted _ => Returned 0 None
          | ScanOutOfFuel => OutOfFuel
          end
      end
  end.

(** The four bytes of a word in file order. *)
Definition word_bytes (w : buffer) : list byte :=
  let '(c0, c1, c2, c3) := w in [c0; c1; c2; c3].

(** The states and fields that the tests of [decode_vcgt] look at, by name. *)

(** After the signature of the tag has been read again (line 173). *)
Definition after_signature (tagOffset : Z) (s : locals) : locals :=
  fread_cTmp 4 (seek (0 + tagOffset) s).

(** After the reserved word and the gamma type (lines 179-180). *)
Definition after_type (tagOffset : Z) (s : locals) : locals :=
  fread_cTmp 4 (fread_cTmp 4 (after_signature tagOffset s)).

Definition tagName_read (tagOffset : Z) (s : locals) : Z :=
  u32 (cTmp (after_signature tagOffset s)).

Definition gammaType_read (tagOffset : Z) (s : locals) : Z :=
  u32 (cTmp (after_type tagOffset s)).

Definition numChannels_read (tagOffset : Z) (s : locals) : Z :=
  u16 (cTmp (fread_cTmp 2 (after_type tagOffset s))).

(** ** The directory reader as the specification words it (section 4.1)

    Skip the 128-byte header, read the big-endian tag count N, read N entries
    of three big-endian 32-bit fields, stop at the first whose signature is
    "vcgt"; any read the byte source cannot serve is an [IoError]. This
    second definition follows the specification, not the source; it is what
    [locate_vcgt] is compared with. *)

Inductive locate_error : Type := TagNotFound | IoError.

Definition be32 (bytes : list byte) : option (Z * list byte) :=
  match bytes with
  | a :: b :: c :: d :: rest =>
      Some (val a * 16777216 + val b * 65536 + val c * 256 + val d, rest)
  | _ => None
  end.

Fixpoint spec_entries (n : nat) (bytes : list byte) : locate_error + Z * Z :=
  match n with
  | O => inl TagNotFound
  | S n' =>
      match be32 bytes with
      | None => inl IoError
      | Some (signature, bytes1) =>
          match be32 bytes1 with
          | None => inl IoError
          | Some (offset, bytes2) =>
              match be32 bytes2 with
              | None => inl IoError
              | Some (size, bytes3) =>
                  if signature =? vcgt then inr (offset, size)
                  else spec_entries n' bytes3
              end
          end
      end
  end.

Definition locateVcgtTag (bytes : list byte) : locate_error + Z * Z :=
  match be32 (skipn 128 bytes) with
  | None => inl IoError
  | Some (count, entries) => spec_entries (Z.to_nat count) entries
  end.

(** ** Observations on an outcome *)

(** The pointer [fp] after the two tests of lines 148-153: [None] when the
    function has returned -1 there. *)
Definition opened (fs : filesystem) (filename : option string) : option FILE :=
  match filename with
  | None => None
  | Some name => fopen fs name
  end.

(** What a caller can tell a failure by: a return value other than 0, or the
    process ended by [error]. *)
Definition reports_failure (o : outcome) : Prop :=
  match o with
  | Returned rv _ => rv <> 0
  | Exited _ _ _ => True
  | Undefined _ => False
  | OutOfFuel => False
  end.

(** The function came back to its caller. *)
Definition returns (o : outcome) : Prop :=
  match o with
  | Returned _ _ => True
  | _ => False
  end.

(** ** Sample profiles *)

Module Samples.

Definition header : list byte := repeat x00 128.

(** A directory of one entry: "vcgt" at offset [off], size 30. *)
Definition directory (off : byte) : list byte :=
  [x00; x00; x00; x01;
   x76; x63; x67; x74;  x00; x00; x00; off;  x00; x00; x00; x1e].

(** A table tag: signature, reserved, type 0, then the 2-2-2 header. *)
Definition table_tag (channels entries size : byte) (data : list byte)
  : list byte :=
  [x76; x63; x67; x74;  x00; x00; x00; x00;  x00; x00; x00; x00;
   x00; channels;  x00; entries;  x00; size] ++ data.

(** Three channels of two 16-bit samples: 1 2 / 3 4 / 5 6. *)
Definition two_by_16 : list byte :=
  header ++ directory x90 ++
  table_tag x03 x02 x02
    [x00; x01; x00; x02;  x00; x03; x00; x04;  x00; x05; x00; x06].

(** Three channels of two 8-bit samples, eighteen bytes of data. *)
Definition two_by_8 : list byte :=
  header ++ directory x90 ++
  table_tag x03 x02 x01
    [x01; x02; x03; x04; x05; x06; x07; x08; x09;
     x0a; x0b; x0c; x0d; x0e; x0f; x10; x11; x12].

(** A table tag that declares two channels. *)
Definition two_channels : list byte :=
  header ++ directory x90 ++
  table_tag x02 x02 x02 [x00; x01; x00; x02;  x00; x03; x00; x04].

(** The directory entry points one byte past the tag's signature. *)
Definition wrong_offset : list byte :=
  header ++ directory x91 ++
  table_tag x03 x02 x02
    [x00; x01; x00; x02;  x00; x03; x00; x04;  x00; x05; x00; x06].

(** One complete entry that is not vcgt ("desc"). *)
Definition no_vcgt : list byte :=
  header ++
  [x00; x00; x00; x01;
   x64; x65; x73; x63;  x00; x00; x00; x90;  x00; x00; x00; x10].

(** The directory announces five entries and holds one. *)
Definition count_too_large : list byte :=
  header ++
  [x00; x00; x00; x05;
   x64; x65; x73; x63;  x00; x00; x00; x90;  x00; x00; x00; x10].

(** The file ends two bytes into the size field of its vcgt entry. *)
Definition cut_in_size : list byte :=
  header ++
  [x00; x00; x00; x01;
   x76; x63; x67; x74;  x00; x00; x00; x90;  x00; x00].

(** A formula tag: gamma 1.0, minimum 0.0 and maximum 1.0 for each channel. *)
Definition formula_tag : list byte :=
  header ++ directory x90 ++
  [x76; x63; x67; x74;  x00; x00; x00; x00;  x00; x00; x00; x01;
   x00; x01; x00; x00;  x00; x00; x00; x00;  x00; x01; x00; x00;
   x00; x01; x00; x00;  x00; x00; x00; x00;  x00; x01; x00; x00;
   x00; x01; x00; x00;  x00; x00; x00; x00;  x00; x01; x00; x00].

(** The same tag with a red gamma of 0.0. *)
Definition formula_gamma_zero : list byte :=
  header ++ directory x90 ++
  [x76; x63; x67; x74;  x00; x00; x00; x00;  x00; x00; x00; x01;
   x00; x00; x00; x00;  x00; x00; x00; x00;  x00; x01; x00; x00;
   x00; x01; x00; x00;  x00; x00; x00; x00;  x00; x01; x00; x00;
   x00; x01; x00; x00;  x00; x00; x00; x00;  x00; x01; x00; x00].

(** A stand-in for the C library's [pow] in the examples. It has the values
    that C99 F.9.4.4 prescribes for an exponent of zero (1, whatever the
    base) and for the base +0 with a finite exponent above zero (+0); where
    the standard leaves the result to the library it gives NaN, so that no
    example can rest on a value of its own. *)
Definition pow (x y : double) : double :=
  match y, x with
  | S754_zero _, _ => double_of_int 1
  | S754_finite false _ _, S754_zero false => S754_zero false
  | _, _ => S754_nan
  end.

Definition disk (bytes : list byte) : filesystem := fun _ => Some bytes.
Definition no_disk : filesystem := fun _ => None.
Definition stack : buffer := (x00, x00, x00, x00).
Definition name : option string := Some "profile.icc"%string.

(** Samples 0, 1, 2, ... of a table of [n] entries. *)
Definition ramp_of (n : nat) : list cell :=
  map (fun k => Some (Z.of_nat k)) (seq 0 n).

End Samples.

(** * The rest of xcalib.c: definitions *)

(** ** The samples of a channel as the table format lays them out

    Two bytes a sample, big-endian. This reader follows the format, not the
    source; it is what the decoding of a whole profile is compared with. *)
Fixpoint samples16 (payload : list byte) : list cell :=
  match payload with
  | a :: b :: rest => Some (val b + val a * 256) :: samples16 rest
  | _ => []
  end.

(** What fits an [unsigned short]; a cell nobody wrote holds anything. *)
Definition in_16_bits (c : cell) : Prop :=
  match c with
  | Some v => 0 <= v <= 65535
  | None => True
  end.

(** ** The command line ([usage] and lines 363-418 of [main]) *)

Module CommandLine.

Record options : Type := mkOptions {
  verbose : bool;                (* xcalib_state.verbose *)
  displayname : option string;   (* [None]: the pointer was never assigned *)
  screen : Z;
  clear : bool;
  donothing : bool;
  in_name : option string        (* [None]: the buffer was never written *)
}.

Inductive parsed : Type :=
| Parsed (o : options)
| ArgsExit (status : Z) (out : list string)  (* these lines on stdout, then exit(status) *)
| ArgsOverflow (len : nat).                  (* strcpy of len + 1 chars into in_name[256] *)

(** The lines [usage] prints. *)
Definition usage_text : list string :=
  ["usage:  xcalib [-options] ICCPROFILE";
   "Copyright (C) 2004-2005 Stefan Doehla <stefan AT doehla DOT de>";
   "THIS PROGRAM COMES WITH ABSOLUTELY NO WARRANTY!";
   "";
   "where the available options are:";
   "    -display <host:dpy>     or -d";
   "    -screen <screen-#>      or -s";
   "    -clear                  or -c";
   "    -noaction               or -n";
   "    -verbose                or -v";
   "    -help                   or -h";
   "    -version";
   "";
   "last parameter must be an ICC profile containing a vcgt-tag";
   "";
   "Example: ./xcalib -d :0 -s 0 -v gamma_1_0.icc";
   "";
   ""]%string.

(** [usage ()] ends in [exit (1)]. *)
Definition usage : parsed := ArgsExit 1 usage_text.

(** [!strcmp (argv[i], a) || !strcmp (argv[i], b)]. *)
Definition either (arg a b : string) : bool :=
  String.eqb arg a || String.eqb arg b.

Definition initial : options :=
  mkOptions false None (-1) false false None.

Section Parse.

(** [atoi] of the C library. *)
Variable atoi : string -> Z.

(** [for (i = 1; i < argc; ++i)] over the arguments from [argv[i]] on. *)
Fixpoint parse_loop (o : options) (args : list string) : parsed :=
  match args with
  | [] => Parsed o
  | arg :: rest =>
      if either arg "-h" "-help" then usage
      else if either arg "-v" "-verbose" then
        parse_loop (mkOptions true (displayname o) (screen o) (clear o)
                              (donothing o) (in_name o)) rest
      else if String.eqb arg "-version" then ArgsExit 0 ["xcalib 0.3"%string]
      else if either arg "-d" "-display" then
        match rest with
        | [] => usage
        | value :: rest' =>
            parse_loop (mkOptions (verbose o) (Some value) (screen o) (clear o)
                                  (donothing o) (in_name o)) rest'
        end
      else if either arg "-s" "-screen" then
        match rest with
        | [] => usage
        | value :: rest' =>
            parse_loop (mkOptions (verbose o) (displayname o) (atoi value)
                                  (clear o) (donothing o) (in_name o)) rest'
        end
      else if either arg "-c" "-clear" then
        parse_loop (mkOptions (verbose o) (displayname o) (screen o) true
                              (donothing o) (in_name o)) rest
      else if either arg "-n" "-noaction" then
        parse_loop (mkOptions (verbose o) (displayname o) (screen o) (clear o)
                              true (in_name o)) rest
      else if negb (match rest with [] => true | _ => false end)
              && negb (clear o) then usage
      else if negb (clear o) then
        if (String.length arg <? 256)%nat then
          parse_loop (mkOptions (verbose o) (displayname o) (screen o)
                                (clear o) (donothing o) (Some arg)) rest
        else ArgsOverflow (String.length arg)
      else parse_loop o rest
  end.

(** [argv] holds [argv[0]] .. [argv[argc-1]]. *)
Definition parse_args (argv : list string) : parsed :=
  if (length argv <? 2)%nat then usage
  else parse_loop initial (tl argv).

End Parse.

(** The strings the loop takes for options. *)
Definition is_option (arg : string) : bool :=
  either arg "-h" "-help" || either arg "-v" "-verbose"
  || String.eqb arg "-version" || either arg "-d" "-display"
  || either arg "-s" "-screen" || either arg "-c" "-clear"
  || either arg "-n" "-noaction".

(** The options that stand alone and leave [clear] as it is. *)
Definition is_plain_flag (arg : string) : bool :=
  either arg "-v" "-verbose" || either arg "-n" "-noaction".

(** The options that stand alone. *)
Definition is_flag (arg : string) : bool :=
  is_plain_flag arg || either arg "-c" "-clear".

End CommandLine.

(** ** [main] as it is built with the internal parser (neither ICCLIB nor
    PATCHED_LCMS defined): lines 436-467 and 714-742

    The X server is a record of answers. The trace keeps the calls that
    change the display and the lines of [warning], [error] and [usage]; what
    [message] prints in verbose mode is left out. *)

Module Main.

Record xserver : Type := mkXserver {
  XOpenDisplay : string -> bool;                 (* the display opens *)
  DefaultScreen : Z;
  XF86VidModeSetGamma : Z -> bool;               (* by screen *)
  XF86VidModeGetGammaRampSize : Z -> option Z;   (* by screen; [None]: the call fails *)
  XF86VidModeSetGammaRamp : Z -> Z -> bool       (* by screen and size *)
}.

Inductive event : Type :=
| Printed (lines : list string)          (* stdout, by [usage] or -version *)
| SetGamma (screen : Z)                  (* to 1.0, 1.0, 1.0 *)
| SetGammaRamp (screen size : Z) (r : ramps)
| Warning (text : string)
| Error (fmt : string)
| CloseDisplay.

Inductive fault : Type :=
| Uninitialised (object : string)   (* an object is used that was never written *)
| Overflow (len : nat)              (* strcpy beyond in_name[256] *)
| InRamp (size : Z)                 (* r_ramp[i] behind the cells that were allocated *)
| InParser (u : undefined).         (* inside read_vcgt_from_profile *)

Inductive run : Type :=
| Finished (rv : Z) (trace : list event)
| Aborted (status : Z) (trace : list event)
| NoResult (why : fault) (trace : list event)
| NoFuel.

(** The cells each of the three ramp pointers can be read at. *)
Definition holds (r : ramps) (ramp_size : Z) : bool :=
  match r with
  | TableRamps red green blue | FormulaRamps red green blue =>
      (ramp_size <=? Z.of_nat (length red))
      && (ramp_size <=? Z.of_nat (length green))
      && (ramp_size <=? Z.of_nat (length blue))
  end.

(** Lines 714-742, after [read_vcgt_from_profile] has come back. *)
Definition upload (X : xserver) (o : CommandLine.options)
    (screen ramp_size : Z) (out : option ramps) : run :=
  match out with
  | None =>
      (* r_ramp, g_ramp and b_ramp are what the stack held *)
      if 0 <? ramp_size then NoResult (Uninitialised "r_ramp") []
      else if CommandLine.donothing o then Finished 0 [CloseDisplay]
      else NoResult (Uninitialised "r_ramp") []
  | Some r =>
      if negb (holds r ramp_size) then NoResult (InRamp ramp_size) []
      else if CommandLine.donothing o then Finished 0 [CloseDisplay]
      else if XF86VidModeSetGammaRamp X screen ramp_size then
        Finished 0 [SetGammaRamp screen ramp_size r; CloseDisplay]
      else
        Finished 0 [SetGammaRamp screen ramp_size r;
                    Warning "Unable to calibrate display"; CloseDisplay]
  end.

(** Lines 436-742 for the options the command line gave. *)
Definition calibrate (pow : double -> double -> double)
    (fs : filesystem) (X : xserver) (cTmp0 : buffer)
    (o : CommandLine.options) : run :=
  match CommandLine.displayname o with
  | None => NoResult (Uninitialised "displayname") []
  | Some display =>
      if negb (XOpenDisplay X display) then
        Aborted (-1) [Error "Can't open display %s"]
      else
        let screen :=
          if CommandLine.screen o =? -1 then DefaultScreen X
          else CommandLine.screen o in
        if CommandLine.clear o then
          if XF86VidModeSetGamma X screen then
            Finished 0 [SetGamma screen; CloseDisplay]
          else
            Aborted (-1) [SetGamma screen; CloseDisplay;
                          Error "Unable to reset display gamma"]
        else
          match XF86VidModeGetGammaRampSize X screen with
          | None =>
              Aborted (-1) [CloseDisplay;
                            Error "Unable to query gamma ramp size"]
          | Some ramp_size =>
              match CommandLine.in_name o with
              | None => NoResult (Uninitialised "in_name") []
              | Some name =>
                  match read_vcgt_from_profile pow fs (Some name) ramp_size
                          cTmp0 with
                  | Returned _ out => upload X o screen ramp_size out
                  | Exited status fmt _ => Aborted status [Error fmt]
                  | Undefined u => NoResult (InParser u) []
                  | OutOfFuel => NoFuel
                  end
              end
          end
  end.

Definition main (pow : double -> double -> double)
    (atoi : string -> Z) (fs : filesystem) (X : xserver)
    (cTmp0 : buffer) (argv : list string) : run :=
  match CommandLine.parse_args atoi argv with
  | CommandLine.Parsed o => calibrate pow fs X cTmp0 o
  | CommandLine.ArgsExit status out => Aborted status [Printed out]
  | CommandLine.ArgsOverflow len => NoResult (Overflow len) []
  end.

Definition trace_of (r : run) : list event :=
  match r with
  | Finished _ trace | Aborted _ trace | NoResult _ trace => trace
  | NoFuel => []
  end.

(** The calls that change what the display shows. *)
Definition changes_display (e : event) : bool :=
  match e with
  | SetGamma _ | SetGammaRamp _ _ _ => true
  | _ => false
  end.

End Main.

(** Sample surroundings for [main]. *)
Module MainSamples.

(** A server with one screen and a ramp of [size] entries that accepts
    every call. *)
Definition server (size : Z) : Main.xserver :=
  Main.mkXserver (fun _ => true) 0 (fun _ => true) (fun _ => Some size)
                 (fun _ _ => true).

(** The same server refusing the ramp. *)
Definition refusing_server (size : Z) : Main.xserver :=
  Main.mkXserver (fun _ => true) 0 (fun _ => true) (fun _ => Some size)
                 (fun _ _ => false).

(** A stand-in for [atoi]; no sample command line uses -screen. *)
Definition atoi (s : string) : Z := 0.

End MainSamples.

(** ** The parts of [main] that are compiled with ICCLIB and work on plain
    data: the search for the profile's magic number (lines 476-523), the
    decimation of a table (lines 573-631) and the check of the ramps
    (lines 673-689)

    icclib itself is not part of the sources: its file is the list of
    bytes that [fp->read] delivers one by one, its table is the list
    [data] of the [channels * entryCount] entries in the order of the
    tag, and [entryCount] is the 16-bit field of that table. *)

Module Icclib.

(** "acsp" *)
Definition magic : list byte := [x61; x63; x73; x70].

(** [while (found == 0)] over the bytes that are left to read; the result
    is [found] and [offset]. *)
Fixpoint search_loop (fc offset : Z) (input : list byte) : bool * Z :=
  match input with
  | [] => (false, offset)
  | c :: rest =>
      let offset := offset + 1 in
      if fc =? 0 then
        if Byte.eqb c x61 then search_loop (fc + 1) offset rest
        else search_loop 0 offset rest
      else if fc =? 1 then
        if Byte.eqb c x63 then search_loop (fc + 1) offset rest
        else search_loop 0 offset rest
      else if fc =? 2 then
        if Byte.eqb c x73 then search_loop (fc + 1) offset rest
        else search_loop 0 offset rest
      else if fc =? 3 then
        if Byte.eqb c x70 then (true, offset - 40)
        else search_loop 0 offset rest
      else search_loop fc offset rest
  end.

(** [fp->seek (fp, offset)], [fc = 0], then the loop. [main] runs it only
    when [search] is set, and sets [search] to 0 itself. *)
Definition search_magic (bytes : list byte) (offset : Z) : bool * Z :=
  search_loop 0 offset (skipn (Z.to_nat offset) bytes).

(** The entry [v] of [data] read as a [char] and cast to
    [unsigned short]; whether [char] is signed is the compiler's choice. *)
Definition widen_char (char_is_signed : bool) (v : Z) : Z :=
  if char_is_signed && (128 <=? v) then v + 65280 else v.

(** The 16-bit entry [v] of [data] read as a [short] and cast to
    [unsigned short]. *)
Definition widen_short (v : Z) : Z := v.

(** [data[k]] *)
Definition fetch (data : list Z) (k : Z) : result Z :=
  match nth_error data (Z.to_nat k) with
  | Some v => Ok v
  | None => UB (ReadPastEnd k (length data))
  end.

(** [for (; i < ...; i++) ramp[i - ...] = conv data[i * ramp_scaling]],
    [count] turns from [i] on. *)
Fixpoint fill (conv : Z -> Z) (data : list Z) (ramp_scaling i : Z)
    (count : nat) : result (list cell) :=
  match count with
  | O => Ok []
  | S count' =>
      let* v := fetch data ((i * ramp_scaling) mod 2 ^ 32) in
      let* rest := fill conv data ramp_scaling (i + 1) count' in
      Ok (Some (conv v) :: rest)
  end.

Inductive table_outcome : Type :=
| Ramps (r g b : list cell)     (* r_ramp, g_ramp, b_ramp: ramp_size + 1 cells each *)
| TableError (fmt : string)     (* error (): exit (-1) *)
| TableUndefined (u : undefined).

(** The cast of the case that [entrySize] selects. *)
Definition conversion (char_is_signed : bool) (entrySize : Z) : Z -> Z :=
  if entrySize =? 1 then widen_char char_is_signed else widen_short.

(** The three loops of one case of [switch (ob->u.table.entrySize)]. *)
Definition three_loops (conv : Z -> Z) (data : list Z)
    (ramp_scaling ramp_size : Z) : table_outcome :=
  let n := Z.to_nat ramp_size in
  match fill conv data ramp_scaling 0 n with
  | UB u => TableUndefined u
  | Ok r =>
      match fill conv data ramp_scaling ramp_size n with
      | UB u => TableUndefined u
      | Ok g =>
          match fill conv data ramp_scaling (2 * ramp_size) n with
          | UB u => TableUndefined u
          | Ok b => Ramps (r ++ [None]) (g ++ [None]) (b ++ [None])
          end
      end
  end.

(** Lines 573-631. *)
Definition table_ramps (char_is_signed : bool)
    (ramp_size entryCount entrySize : Z) (data : list Z) : table_outcome :=
  if ramp_size =? 0 then TableUndefined DivisionByZero
  else
    let ramp_scaling := entryCount / ramp_size in
    if entryCount <? ramp_size then
      TableError "vcgt-tag does not contain enough data for this Video-LUT"
    else if entrySize =? 1 then
      three_loops (widen_char char_is_signed) data ramp_scaling ramp_size
    else if entrySize =? 2 then
      three_loops widen_short data ramp_scaling ramp_size
    else
      Ramps (repeat None (S (Z.to_nat ramp_size)))
            (repeat None (S (Z.to_nat ramp_size)))
            (repeat None (S (Z.to_nat ramp_size))).

(** One turn of the loop of lines 673-685: the warnings it prints. *)
Definition check_turn (r g b : list Z) (i : Z) : result (list string) :=
  let* r1 := fetch r (i + 1) in
  let* r0 := fetch r i in
  let* g1 := fetch g (i + 1) in
  let* g0 := fetch g i in
  let* b1 := fetch b (i + 1) in
  let* b0 := fetch b i in
  Ok ((if r1 <? r0 then ["nonsense content in red gamma table"%string]
       else [])
      ++ (if g1 <? g0 then ["nonsense content in green gamma table"%string]
          else [])
      ++ (if b1 <? b0 then ["nonsense content in blue gamma table"%string]
          else [])).

(** [for (i = ...; i < ramp_size - 1; i++)], [count] turns from [i] on. *)
Fixpoint check_loop (r g b : list Z) (i : Z) (count : nat)
  : result (list string) :=
  match count with
  | O => Ok []
  | S count' =>
      let* now := check_turn r g b i in
      let* later := check_loop r g b (i + 1) count' in
      Ok (now ++ later)
  end.

(** Lines 673-689 for ramps whose cells were written: the loop, then the
    last entries read for [message]. [ramp_size] is unsigned, so is
    [ramp_size - 1]. *)
Definition check_ramps (ramp_size : Z) (r g b : list Z)
  : result (list string) :=
  let* warnings :=
    check_loop r g b 0 (Z.to_nat ((ramp_size - 1) mod 2 ^ 32)) in
  let* _ := fetch r ((ramp_size - 1) mod 2 ^ 32) in
  let* _ := fetch g ((ramp_size - 1) mod 2 ^ 32) in
  let* _ := fetch b ((ramp_size - 1) mod 2 ^ 32) in
  Ok warnings.

End Icclib.
(** * Properties *)

(** ** Bytes and buffers *)

Lemma val_range (b : byte) : 0 <= val b <= 255.
Proof.
  unfold val. pose proof (Byte.to_N_bounded b). lia.
Qed.

Lemma u32_big_endian (a b c d : byte) :
  u32 (a, b, c, d) = val a * 16777216 + val b * 65536 + val c * 256 + val d.
Proof.
  unfold u32.
  pose proof (val_range a). pose proof (val_range b).
  pose proof (val_range c). pose proof (val_range d).
  rewrite Z.mod_small; lia.
Qed.

Lemma u32_range (buf : buffer) : 0 <= u32 buf < 2 ^ 32.
Proof.
  destruct buf as [[[a b] c] d]. unfold u32. apply Z.mod_pos_bound. lia.
Qed.

Lemma u16_range (buf : buffer) : 0 <= u16 buf <= 65535.
Proof.
  destruct buf as [[[a b] c] d]. unfold u16.
  pose proof (val_range a). pose proof (val_range b). lia.
Qed.

(** ** [fread] stays inside the file *)

Lemma fread_cTmp_contents (n : nat) (s : locals) :
  contents (fp (fread_cTmp n s)) = contents (fp s).
Proof. reflexivity. Qed.

Lemma fread_cTmp_position (n : nat) (s : locals) :
  Z.of_nat (position (fp (fread_cTmp n s)))
  = Z.of_nat (position (fp s)) + bytesRead (fread_cTmp n s).
Proof.
  unfold fread_cTmp, fread. simpl. lia.
Qed.

Lemma fread_cTmp_bytesRead (n : nat) (s : locals) :
  0 <= bytesRead (fread_cTmp n s) <= Z.of_nat n.
Proof.
  unfold fread_cTmp, fread. simpl. rewrite length_firstn. lia.
Qed.

(** A read that delivered something ended inside the file. *)
Lemma fread_cTmp_inside (n : nat) (s : locals) :
  bytesRead (fread_cTmp n s) <> 0 ->
  (position (fp s) < position (fp (fread_cTmp n s))
   <= length (contents (fp s)))%nat.
Proof.
  unfold fread_cTmp, fread. simpl.
  rewrite length_firstn, length_skipn. lia.
Qed.

Lemma fread_cTmp_monotone (n : nat) (s : locals) :
  (position (fp s) <= position (fp (fread_cTmp n s)))%nat.
Proof.
  unfold fread_cTmp, fread. simpl. lia.
Qed.

(** The bytes a read delivers when the file has them. *)
Lemma fread_cTmp_prefix (n : nat) (s : locals) (got rest : list byte) :
  skipn (position (fp s)) (contents (fp s)) = got ++ rest ->
  length got = n ->
  fread_cTmp n s
  = mkLocals (mkFILE (contents (fp s)) (position (fp s) + n))
             (store got (cTmp s)) (Z.of_nat n)
  /\ skipn (position (fp s) + n) (contents (fp s)) = rest.
Proof.
  intros Hskip Hlen. unfold fread_cTmp, fread.
  rewrite Hskip, <- Hlen.
  replace (firstn (length got) (got ++ rest)) with got.
  - split; [reflexivity|].
    rewrite Nat.add_comm, <- skipn_skipn, Hskip.
    rewrite skipn_app, Nat.sub_diag, skipn_all. reflexivity.
  - rewrite firstn_app, Nat.sub_diag, firstn_all, app_nil_r. reflexivity.
Qed.

(** ** The directory scan *)

(** The scan never runs out of fuel: a turn that goes on has consumed at
    least one byte of the file. *)
Lemma scan_tags_total (fuel : nat) : forall (i numTags : Z) (s : locals),
  (length (contents (fp s)) - position (fp s) < fuel)%nat ->
  scan_tags fuel i numTags s <> ScanOutOfFuel.
Proof.
  induction fuel as [|fuel IH]; intros i numTags s Hfuel; [lia|].
  cbn [scan_tags].
  destruct (i <? numTags); [|discriminate].
  set (s1 := fread_cTmp 4 s).
  set (s2 := fread_cTmp 4 s1).
  set (s3 := fread_cTmp 4 s2).
  destruct (bytesRead s3 =? 0) eqn:Hread; [discriminate|].
  destruct (u32 (cTmp s1) =? vcgt); [discriminate|].
  apply IH.
  apply Z.eqb_neq in Hread.
  pose proof (fread_cTmp_inside 4 s2 Hread) as H3.
  pose proof (fread_cTmp_monotone 4 s1) as H2.
  pose proof (fread_cTmp_monotone 4 s) as H1.
  fold s1 in H1. fold s2 in H2. fold s3 in H3.
  change (contents (fp s2)) with (contents (fp s)) in H3.
  change (contents (fp s3)) with (contents (fp s)).
  lia.
Qed.

Lemma locate_vcgt_total (f : FILE) (cTmp0 : buffer) :
  locate_vcgt f cTmp0 <> ScanOutOfFuel.
Proof.
  unfold locate_vcgt, scan_fuel. apply scan_tags_total.
  rewrite fread_cTmp_contents. lia.
Qed.

(** The state a scan ends in still reads the same file. *)
Lemma scan_tags_contents (fuel : nat) : forall (i numTags : Z) (s : locals),
  match scan_tags fuel i numTags s with
  | TagFound _ _ s' | ShortRead s' | Exhausted s' =>
      contents (fp s') = contents (fp s)
  | ScanOutOfFuel => True
  end.
Proof.
  induction fuel as [|fuel IH]; intros i numTags s; [exact I|].
  cbn [scan_tags].
  destruct (i <? numTags); [|reflexivity].
  destruct (bytesRead _ =? 0); [reflexivity|].
  destruct (u32 _ =? vcgt); [reflexivity|].
  specialize (IH (i + 1) numTags (fread_cTmp 4 (fread_cTmp 4 (fread_cTmp 4 s)))).
  destruct (scan_tags fuel _ _ _); auto.
Qed.

Lemma locate_vcgt_contents (f : FILE) (cTmp0 : buffer)
    (tagOffset tagSize : Z) (s : locals) :
  locate_vcgt f cTmp0 = TagFound tagOffset tagSize s ->
  contents (fp s) = contents f.
Proof.
  unfold locate_vcgt. intros H.
  match type of H with scan_tags ?fu ?i ?n ?s0 = _ =>
    pose proof (scan_tags_contents fu i n s0) as Hc end.
  rewrite H in Hc. exact Hc.
Qed.

(** Four bytes that are in the file land in [cTmp] as a whole. *)
Lemma fread_cTmp_word (s : locals) (a b c d : byte) (rest : list byte) :
  skipn (position (fp s)) (contents (fp s)) = a :: b :: c :: d :: rest ->
  fread_cTmp 4 s
  = mkLocals (mkFILE (contents (fp s)) (position (fp s) + 4)) (a, b, c, d) 4
  /\ skipn (position (fp s) + 4) (contents (fp s)) = rest.
Proof.
  intros H.
  destruct (fread_cTmp_prefix 4 s [a; b; c; d] rest H eq_refl) as [E R].
  split; [|exact R]. rewrite E.
  destruct (cTmp s) as [[[c0 c1] c2] c3]. reflexivity.
Qed.

Lemma be32_some (bytes : list byte) (v : Z) (rest : list byte) :
  be32 bytes = Some (v, rest) ->
  exists a b c d, bytes = a :: b :: c :: d :: rest /\ v = u32 (a, b, c, d).
Proof.
  destruct bytes as [|a [|b [|c [|d r]]]]; try discriminate.
  cbn [be32]. intros H. injection H as Hv Hr. subst.
  exists a, b, c, d. split; [reflexivity|].
  rewrite u32_big_endian. reflexivity.
Qed.

(** On a directory that the file holds in full, up to the entry that decides,
    the loop of the source and the reader of the specification agree. *)
Lemma scan_tags_refines (n : nat) :
  forall (fuel : nat) (i numTags : Z) (s : locals),
  Z.to_nat (numTags - i) = n ->
  (length (contents (fp s)) - position (fp s) < fuel)%nat ->
  spec_entries n (skipn (position (fp s)) (contents (fp s))) <> inl IoError ->
  match spec_entries n (skipn (position (fp s)) (contents (fp s))) with
  | inr (offset, size) =>
      exists s', scan_tags fuel i numTags s = TagFound offset size s'
  | inl _ => exists s', scan_tags fuel i numTags s = Exhausted s'
  end.
Proof.
  induction n as [|n IH]; intros fuel i numTags s Hn Hfuel Hspec;
    (destruct fuel as [|fuel]; [lia|]); cbn [scan_tags spec_entries] in *.
  - assert (Hi : (i <? numTags) = false) by (apply Z.ltb_ge; lia).
    rewrite Hi. eauto.
  - assert (Hi : (i <? numTags) = true) by (apply Z.ltb_lt; lia).
    rewrite Hi.
    destruct (be32 (skipn _ _)) as [[sig bytes1]|] eqn:E1; [|congruence].
    destruct (be32 bytes1) as [[off bytes2]|] eqn:E2; [|congruence].
    destruct (be32 bytes2) as [[size bytes3]|] eqn:E3; [|congruence].
    apply be32_some in E1; destruct E1 as (a1 & b1 & c1 & d1 & B1 & V1).
    apply be32_some in E2; destruct E2 as (a2 & b2 & c2 & d2 & B2 & V2).
    apply be32_some in E3; destruct E3 as (a3 & b3 & c3 & d3 & B3 & V3).
    subst bytes1 bytes2.
    assert (Hlen : (position (fp s) + 12 <= length (contents (fp s)))%nat).
    { pose proof (length_skipn (position (fp s)) (contents (fp s))) as L.
      rewrite B1 in L. cbn [length] in L. lia. }
    destruct (fread_cTmp_word s _ _ _ _ _ B1) as [R1 K1]. rewrite R1.
    match goal with |- context [fread_cTmp 4 ?t] =>
      destruct (fread_cTmp_word t a2 b2 c2 d2 _ K1) as [R2 K2]; rewrite R2 end.
    match goal with |- context [fread_cTmp 4 ?t] =>
      destruct (fread_cTmp_word t a3 b3 c3 d3 _ K2) as [R3 K3]; rewrite R3 end.
    cbn [fp cTmp bytesRead contents position] in *.
    rewrite <- V1, <- V2, <- V3.
    change (4 =? 0) with false. cbv iota.
    destruct (sig =? vcgt); [eauto|].
    match goal with |- context [scan_tags fuel (i + 1) numTags ?t] =>
      specialize (IH fuel (i + 1) numTags t) end.
    cbn [fp cTmp bytesRead contents position] in IH.
    rewrite K3 in IH. apply IH; [lia|lia|exact Hspec].
Qed.

Lemma locate_vcgt_refines (bytes : list byte) (cTmp0 : buffer) :
  locateVcgtTag bytes <> inl IoError ->
  match locateVcgtTag bytes with
  | inr (offset, size) =>
      exists s, locate_vcgt (mkFILE bytes 0) cTmp0 = TagFound offset size s
  | inl _ => exists s, locate_vcgt (mkFILE bytes 0) cTmp0 = Exhausted s
  end.
Proof.
  unfold locateVcgtTag, locate_vcgt.
  destruct (be32 (skipn 128 bytes)) as [[count entries]|] eqn:E; [|congruence].
  apply be32_some in E; destruct E as (a & b & c & d & B & V).
  intros Hspec.
  set (s0 := mkLocals (fseek (mkFILE bytes 0) (0 + 128)) cTmp0 0).
  destruct (fread_cTmp_word s0 a b c d entries B) as [R K].
  rewrite R. unfold scan_fuel.
  cbn [fp cTmp contents position] in *.
  rewrite <- V.
  match goal with |- context [scan_tags ?fu 0 count ?t] =>
    pose proof (scan_tags_refines (Z.to_nat count) fu 0 count t) as Href end.
  cbn [fp cTmp contents position] in Href.
  rewrite K in Href.
  apply Href; [f_equal; lia | lia | exact Hspec].
Qed.

(** ** The ways [decode_vcgt] can end *)

Lemma decode_vcgt_unfold
    (pow : double -> double -> double) (tagOffset nEntries : Z) (s : locals) :
  decode_vcgt pow tagOffset nEntries s
  = if negb (tagName_read tagOffset s =? vcgt) then
      error "invalid content of table vcgt, starting with %x"
            (tagName_read tagOffset s)
    else if gammaType_read tagOffset s =? 1 then
      decode_formula pow nEntries (after_type tagOffset s)
    else if gammaType_read tagOffset s =? 0 then
      decode_table nEntries (after_type tagOffset s)
    else Returned 0 None.
Proof. reflexivity. Qed.

Lemma decode_table_outcome (nEntries : Z) (s : locals) :
  match decode_table nEntries s with
  | Returned rv _ => rv = 0
  | Undefined _ => True
  | Exited _ _ _ | OutOfFuel => False
  end.
Proof.
  unfold decode_table.
  destruct (negb _); [reflexivity|].
  repeat match goal with
         | |- context [read_channel ?e ?n ?t] => destruct (read_channel e n t)
         end.
  destruct (evaluate_table _ _ _ _ _) as [[[r g] b]|u]; [reflexivity|exact I].
Qed.

Lemma decode_table_channels (nEntries : Z) (s : locals) :
  u16 (cTmp (fread_cTmp 2 s)) <> 3 ->
  decode_table nEntries s = Returned 0 None.
Proof.
  intros H. unfold decode_table.
  apply Z.eqb_neq in H. rewrite H. reflexivity.
Qed.

Lemma decode_formula_outcome (pow : double -> double -> double)
    (nEntries : Z) (s : locals) :
  match decode_formula pow nEntries s with
  | Returned rv _ => rv = 0
  | Undefined _ => True
  | Exited _ _ _ | OutOfFuel => False
  end.
Proof.
  unfold decode_formula.
  destruct (evaluate_formula _ _ _ _ _) as [[[r g] b]|u]; [reflexivity|exact I].
Qed.

(** Once the signature has passed, the function comes back with 0 or has
    run into undefined behaviour; it has no other end. *)
Lemma decode_vcgt_outcome
    (pow : double -> double -> double) (tagOffset nEntries : Z) (s : locals) :
  tagName_read tagOffset s = vcgt ->
  match decode_vcgt pow tagOffset nEntries s with
  | Returned rv _ => rv = 0
  | Undefined _ => True
  | Exited _ _ _ | OutOfFuel => False
  end.
Proof.
  intros Hsig. rewrite decode_vcgt_unfold, Hsig, Z.eqb_refl. cbn [negb].
  destruct (gammaType_read tagOffset s =? 1);
    [apply decode_formula_outcome|].
  destruct (gammaType_read tagOffset s =? 0); [|reflexivity].
  apply decode_table_outcome.
Qed.

(** The formula branch evaluates the three gammas for the ramp size; the six
    words of minima and maxima are read and have no part in the result. *)
Lemma decode_formula_fields
    (pow : double -> double -> double) (nEntries : Z) (s : locals)
    (rGamma rMin rMax gGamma gMin gMax bGamma bMin bMax : buffer)
    (rest : list byte) :
  skipn (position (fp s)) (contents (fp s))
  = word_bytes rGamma ++ word_bytes rMin ++ word_bytes rMax
    ++ word_bytes gGamma ++ word_bytes gMin ++ word_bytes gMax
    ++ word_bytes bGamma ++ word_bytes bMin ++ word_bytes bMax ++ rest ->
  decode_formula pow nEntries s
  = match evaluate_formula pow nEntries (gamma_of (u32 rGamma))
            (gamma_of (u32 gGamma)) (gamma_of (u32 bGamma)) with
    | Ok (r, g, b) => Returned 0 (Some (FormulaRamps r g b))
    | UB u => Undefined u
    end.
Proof.
  destruct rGamma as [[[r0 r1] r2] r3], rMin as [[[r4 r5] r6] r7],
    rMax as [[[r8 r9] r10] r11], gGamma as [[[g0 g1] g2] g3],
    gMin as [[[g4 g5] g6] g7], gMax as [[[g8 g9] g10] g11],
    bGamma as [[[b0 b1] b2] b3], bMin as [[[b4 b5] b6] b7],
    bMax as [[[b8 b9] b10] b11].
  cbn [word_bytes app]. intros H. unfold decode_formula.
  destruct (fread_cTmp_word s _ _ _ _ _ H) as [R K]. rewrite R. clear R H.
  do 6 (match goal with
        | K : skipn _ _ = ?a :: ?b :: ?c :: ?d :: ?l
          |- context [fread_cTmp 4 ?t] =>
            let R := fresh "R" in let K' := fresh "K" in
            destruct (fread_cTmp_word t a b c d l K) as [R K'];
            rewrite R; clear R K
        end).
  reflexivity.
Qed.

(** A ramp of one entry: the base of every [pow] is 0/1. *)
Example formula_run :
  read_vcgt_from_profile Samples.pow (Samples.disk Samples.formula_tag)
    Samples.name 1 Samples.stack
  = Returned 0 (Some (FormulaRamps [Some 0] [Some 0] [Some 0])).
Proof. vm_compute. reflexivity. Qed.

(** The first fourteen bytes of a table tag, as the reads see them. *)
Lemma table_tag_fields (tagOffset : Z) (s : locals)
    (r0 r1 r2 r3 c0 c1 : byte) (rest : list byte) :
  skipn (Z.to_nat tagOffset) (contents (fp s))
  = [x76; x63; x67; x74;  r0; r1; r2; r3;  x00; x00; x00; x00;  c0; c1]
    ++ rest ->
  tagName_read tagOffset s = vcgt
  /\ gammaType_read tagOffset s = 0
  /\ numChannels_read tagOffset s = val c1 + val c0 * 256.
Proof.
  intros H.
  unfold tagName_read, gammaType_read, numChannels_read,
    after_type, after_signature.
  set (t0 := seek (0 + tagOffset) s).
  assert (H0 : skipn (position (fp t0)) (contents (fp t0))
               = x76 :: x63 :: x67 :: x74 :: r0 :: r1 :: r2 :: r3 ::
                 x00 :: x00 :: x00 :: x00 :: [c0; c1] ++ rest).
  { unfold t0, seek, fseek. cbn [fp contents position].
    rewrite Z.add_0_l. exact H. }
  destruct (fread_cTmp_word t0 _ _ _ _ _ H0) as [R1 K1]. rewrite R1.
  match goal with |- context [fread_cTmp 4 ?t] =>
    destruct (fread_cTmp_word t r0 r1 r2 r3 _ K1) as [R2 K2]; rewrite R2 end.
  match goal with |- context [fread_cTmp 4 ?t] =>
    destruct (fread_cTmp_word t x00 x00 x00 x00 _ K2) as [R3 K3]; rewrite R3 end.
  match goal with |- context [fread_cTmp 2 ?t] =>
    destruct (fread_cTmp_prefix 2 t [c0; c1] rest K3 eq_refl) as [R4 _];
    rewrite R4 end.
  cbn [fp cTmp contents position store u16].
  repeat split; reflexivity.
Qed.

(** ** The whole function, by the way the file was opened and scanned *)

Lemma read_vcgt_not_opened
    (pow : double -> double -> double) (fs : filesystem)
    (filename : option string)
    (nEntries : Z) (cTmp0 : buffer) :
  opened fs filename = None ->
  read_vcgt_from_profile pow fs filename nEntries cTmp0 = Returned (-1) None.
Proof.
  unfold opened, read_vcgt_from_profile.
  destruct filename as [name|]; [|reflexivity].
  destruct (fopen fs name); [discriminate|reflexivity].
Qed.

Lemma read_vcgt_opened
    (pow : double -> double -> double) (fs : filesystem)
    (filename : option string)
    (nEntries : Z) (cTmp0 : buffer) (f : FILE) :
  opened fs filename = Some f ->
  read_vcgt_from_profile pow fs filename nEntries cTmp0
  = match locate_vcgt f cTmp0 with
    | TagFound tagOffset _ s => decode_vcgt pow tagOffset nEntries s
    | ShortRead _ | Exhausted _ => Returned 0 None
    | ScanOutOfFuel => OutOfFuel
    end.
Proof.
  unfold opened, read_vcgt_from_profile.
  destruct filename as [name|]; [|discriminate].
  destruct (fopen fs name); [|discriminate].
  intros H. injection H as ->. reflexivity.
Qed.

Lemma opened_disk (fs : filesystem) (name : string) (bytes : list byte) :
  fs name = Some bytes -> opened fs (Some name) = Some (mkFILE bytes 0).
Proof.
  intros H. unfold opened, fopen. rewrite H. reflexivity.
Qed.

(** The function never returns -1 once the file is open. *)
Lemma read_vcgt_opened_outcome
    (pow : double -> double -> double) (fs : filesystem)
    (filename : option string)
    (nEntries : Z) (cTmp0 : buffer) (f : FILE) :
  opened fs filename = Some f ->
  match read_vcgt_from_profile pow fs filename nEntries cTmp0 with
  | Returned rv _ => rv = 0
  | Exited status _ _ => status = -1
  | Undefined _ => True
  | OutOfFuel => False
  end.
Proof.
  intros H. rewrite (read_vcgt_opened _ _ _ _ _ _ H).
  pose proof (locate_vcgt_total f cTmp0) as Htotal.
  destruct (locate_vcgt f cTmp0) as [tagOffset tagSize s|s|s|];
    [|reflexivity|reflexivity|congruence].
  destruct (Z.eq_dec (tagName_read tagOffset s) vcgt) as [Hsig|Hsig].
  - pose proof (decode_vcgt_outcome pow tagOffset nEntries s Hsig) as Hd.
    destruct (decode_vcgt pow tagOffset nEntries s); tauto.
  - rewrite decode_vcgt_unfold.
    apply Z.eqb_neq in Hsig. rewrite Hsig. reflexivity.
Qed.

(** C6 (amended). The directory scan of [read_vcgt_from_profile] always ends
    and reads no byte outside the file. When the tag count and every
    directory entry up to and including the first one whose signature is
    "vcgt" lie wholly inside the file, the scan selects the offset and size
    of that entry. When the count and all the entries it announces lie inside
    the file and none is "vcgt", the loop runs out and the function returns 0
    with the ramp pointers unwritten: there is no TagNotFound or IoError
    result, and whenever the scan ends without a located tag the function
    returns 0. Nothing more is promised for a file that ends inside its
    directory. *)
Theorem directory_scan
    (pow : double -> double -> double) (fs : filesystem) (name : string)
    (bytes : list byte)
    (nEntries : Z) (cTmp0 : buffer) :
  fs name = Some bytes ->
  locate_vcgt (mkFILE bytes 0) cTmp0 <> ScanOutOfFuel
  /\ (locateVcgtTag bytes <> inl IoError ->
      match locateVcgtTag bytes with
      | inr (offset, size) =>
          exists s,
            locate_vcgt (mkFILE bytes 0) cTmp0 = TagFound offset size s
      | inl _ =>
          (exists s, locate_vcgt (mkFILE bytes 0) cTmp0 = Exhausted s)
          /\ read_vcgt_from_profile pow fs (Some name) nEntries cTmp0
             = Returned 0 None
      end)
  /\ ((forall tagOffset tagSize s,
         locate_vcgt (mkFILE bytes 0) cTmp0 <> TagFound tagOffset tagSize s) ->
      read_vcgt_from_profile pow fs (Some name) nEntries cTmp0
      = Returned 0 None).
Proof.
  intros Hfs. split; [apply locate_vcgt_total|]. split.
  - intros Hspec.
    pose proof (locate_vcgt_refines bytes cTmp0 Hspec) as Href.
    destruct (locateVcgtTag bytes) as [e|[offset size]]; [|exact Href].
    split; [exact Href|].
    rewrite (read_vcgt_opened _ _ _ _ _ _ (opened_disk fs name bytes Hfs)).
    destruct Href as [s ->]. reflexivity.
  - intros Hnone.
    rewrite (read_vcgt_opened _ _ _ _ _ _ (opened_disk fs name bytes Hfs)).
    pose proof (locate_vcgt_total (mkFILE bytes 0) cTmp0) as Htotal.
    destruct (locate_vcgt (mkFILE bytes 0) cTmp0) as [t z s|s|s|];
      [|reflexivity|reflexivity|congruence].
    exfalso. exact (Hnone t z s eq_refl).
Qed.

Lemma directory_scan_witness :
  (locateVcgtTag Samples.two_by_16 = inr (144, 30)
   /\ exists s, locate_vcgt (mkFILE Samples.two_by_16 0) Samples.stack
                = TagFound 144 30 s)
  /\ (locateVcgtTag Samples.no_vcgt = inl TagNotFound
      /\ read_vcgt_from_profile Samples.pow (Samples.disk Samples.no_vcgt)
           (Some "profile.icc"%string) 256 Samples.stack = Returned 0 None).
Proof.
  split.
  - assert (E : locateVcgtTag Samples.two_by_16 = inr (144, 30))
      by (vm_compute; reflexivity).
    split; [exact E|].
    pose proof (directory_scan Samples.pow (Samples.disk Samples.two_by_16)
                  "profile.icc"%string Samples.two_by_16 256 Samples.stack
                  eq_refl) as (_ & H & _).
    rewrite E in H. apply H. discriminate.
  - assert (E : locateVcgtTag Samples.no_vcgt = inl TagNotFound)
      by (vm_compute; reflexivity).
    split; [exact E|].
    pose proof (directory_scan Samples.pow (Samples.disk Samples.no_vcgt)
                  "profile.icc"%string Samples.no_vcgt 256 Samples.stack
                  eq_refl) as (_ & H & _).
    rewrite E in H. apply H. discriminate.
Defined.

(** Where the source leaves the specification's reader: a file cut inside
    the size field of its vcgt entry is an [IoError] for the reader and a
    located tag (its size pieced together from old bytes) for the source;
    a directory without vcgt entry, or one that announces more entries than
    the file holds, makes the function return 0, the value it also returns
    after a complete decode. *)
Lemma directory_scan_counterexample :
  (locateVcgtTag Samples.cut_in_size = inl IoError
   /\ exists s, locate_vcgt (mkFILE Samples.cut_in_size 0) Samples.stack
                = TagFound 144 144 s)
  /\ (locateVcgtTag Samples.no_vcgt = inl TagNotFound
      /\ ~ reports_failure
             (read_vcgt_from_profile Samples.pow (Samples.disk Samples.no_vcgt)
                Samples.name 2 Samples.stack))
  /\ (locateVcgtTag Samples.count_too_large = inl IoError
      /\ ~ reports_failure
             (read_vcgt_from_profile Samples.pow
                (Samples.disk Samples.count_too_large)
                Samples.name 2 Samples.stack))
  /\ read_vcgt_from_profile Samples.pow (Samples.disk Samples.two_by_16)
       Samples.name 2 Samples.stack
     = Returned 0 (Some (TableRamps [Some 1; Some 2] [Some 3; Some 4]
                                    [Some 5; Some 6])).
Proof.
  repeat split; try (vm_compute; reflexivity).
  - eexists. vm_compute. reflexivity.
  - vm_compute. intros H. apply H. reflexivity.
  - vm_compute. intros H. apply H. reflexivity.
Qed.

(** ** The signature read again at the tag's offset *)

(** C2 (amended). When the four bytes read again at [tagOffset] do not make
    the value 'vcgt', the function calls [error]: the message "invalid
    content of table vcgt, starting with ..." goes to stderr and the process
    ends with [exit (-1)]. Decoding does not go on and the function does not
    return. *)
Theorem signature_mismatch_exits
    (pow : double -> double -> double) (fs : filesystem) (name : string)
    (bytes : list byte) (nEntries : Z) (cTmp0 : buffer)
    (tagOffset tagSize : Z) (s : locals) :
  fs name = Some bytes ->
  locate_vcgt (mkFILE bytes 0) cTmp0 = TagFound tagOffset tagSize s ->
  tagName_read tagOffset s <> vcgt ->
  read_vcgt_from_profile pow fs (Some name) nEntries cTmp0
  = Exited (-1) "invalid content of table vcgt, starting with %x"
           (tagName_read tagOffset s).
Proof.
  intros Hfs Hscan Hsig.
  rewrite (read_vcgt_opened _ _ _ _ _ _ (opened_disk fs name bytes Hfs)), Hscan.
  rewrite decode_vcgt_unfold.
  apply Z.eqb_neq in Hsig. rewrite Hsig. reflexivity.
Qed.

Lemma signature_mismatch_witness :
  exists s,
    locate_vcgt (mkFILE Samples.wrong_offset 0) Samples.stack
    = TagFound 145 30 s
    /\ tagName_read 145 s = 0x63677400
    /\ read_vcgt_from_profile Samples.pow (Samples.disk Samples.wrong_offset)
         (Some "profile.icc"%string) 2 Samples.stack
       = Exited (-1) "invalid content of table vcgt, starting with %x"
                0x63677400.
Proof.
  eexists. split; [vm_compute; reflexivity|].
  split; [vm_compute; reflexivity|].
  refine (eq_trans
            (signature_mismatch_exits Samples.pow
               (Samples.disk Samples.wrong_offset)
               "profile.icc"%string Samples.wrong_offset 2 Samples.stack
               145 30 _ eq_refl _ _) _).
  - vm_compute. reflexivity.
  - vm_compute. discriminate.
  - vm_compute. reflexivity.
Defined.

(** A profile whose directory entry points one byte past the tag: the
    signature read again is "cgt\0", and the run ends in [exit (-1)] instead
    of going on to decode the table that follows. *)
Lemma signature_mismatch_counterexample :
  (exists s,
     locate_vcgt (mkFILE Samples.wrong_offset 0) Samples.stack
     = TagFound 145 30 s
     /\ tagName_read 145 s <> vcgt)
  /\ read_vcgt_from_profile Samples.pow (Samples.disk Samples.wrong_offset)
       Samples.name 2 Samples.stack
     = Exited (-1) "invalid content of table vcgt, starting with %x"
              0x63677400
  /\ ~ returns (read_vcgt_from_profile Samples.pow
                  (Samples.disk Samples.wrong_offset)
                  Samples.name 2 Samples.stack).
Proof.
  split; [|split].
  - eexists. split; [vm_compute; reflexivity|]. vm_compute. discriminate.
  - vm_compute. reflexivity.
  - vm_compute. intros H. exact H.
Qed.

(** ** A table that does not declare three channels *)

(** C3 (amended). For every table tag whose channel count is not 3,
    [read_vcgt_from_profile] stops decoding, leaves the three ramp pointers
    unwritten and returns 0, the value it returns after a complete decode:
    the caller is given no UnsupportedFormat or other error. *)
Theorem channels_not_three
    (pow : double -> double -> double) (fs : filesystem) (name : string)
    (bytes : list byte) (nEntries : Z) (cTmp0 : buffer)
    (tagOffset tagSize : Z) (s : locals)
    (r0 r1 r2 r3 c0 c1 : byte) (rest : list byte) :
  fs name = Some bytes ->
  locate_vcgt (mkFILE bytes 0) cTmp0 = TagFound tagOffset tagSize s ->
  skipn (Z.to_nat tagOffset) bytes
  = [x76; x63; x67; x74;  r0; r1; r2; r3;  x00; x00; x00; x00;  c0; c1]
    ++ rest ->
  val c1 + val c0 * 256 <> 3 ->
  read_vcgt_from_profile pow fs (Some name) nEntries cTmp0 = Returned 0 None.
Proof.
  intros Hfs Hscan Htag Hchannels.
  rewrite (read_vcgt_opened _ _ _ _ _ _ (opened_disk fs name bytes Hfs)), Hscan.
  pose proof (locate_vcgt_contents _ _ _ _ _ Hscan) as Hc.
  cbn [contents] in Hc. rewrite <- Hc in Htag.
  destruct (table_tag_fields tagOffset s _ _ _ _ _ _ _ Htag)
    as (Hsig & Htype & Hnum).
  rewrite decode_vcgt_unfold, Hsig, Htype.
  change (negb (vcgt =? vcgt)) with false. change (0 =? 1) with false.
  change (0 =? 0) with true. cbv iota.
  apply decode_table_channels.
  fold (numChannels_read tagOffset s). rewrite Hnum. exact Hchannels.
Qed.

Lemma channels_not_three_witness :
  read_vcgt_from_profile Samples.pow (Samples.disk Samples.two_channels)
    (Some "profile.icc"%string) 2 Samples.stack = Returned 0 None.
Proof.
  refine (channels_not_three Samples.pow (Samples.disk Samples.two_channels)
            "profile.icc"%string Samples.two_channels 2 Samples.stack
            144 30 _ x00 x00 x00 x00 x00 x02 _ eq_refl _ _ _).
  - vm_compute. reflexivity.
  - vm_compute. reflexivity.
  - vm_compute. discriminate.
Defined.

(** A table tag of two channels: the function returns 0 and reports no
    failure, although it wrote no ramp. *)
Lemma channels_not_three_counterexample :
  (exists s,
     locate_vcgt (mkFILE Samples.two_channels 0) Samples.stack
     = TagFound 144 30 s
     /\ tagName_read 144 s = vcgt
     /\ gammaType_read 144 s = 0
     /\ numChannels_read 144 s = 2)
  /\ read_vcgt_from_profile Samples.pow (Samples.disk Samples.two_channels)
       Samples.name 2 Samples.stack = Returned 0 None
  /\ ~ reports_failure
         (read_vcgt_from_profile Samples.pow (Samples.disk Samples.two_channels)
            Samples.name 2 Samples.stack).
Proof.
  split; [|split].
  - eexists. split; [vm_compute; reflexivity|].
    repeat split; vm_compute; reflexivity.
  - vm_compute. reflexivity.
  - vm_compute. intros H. apply H. reflexivity.
Qed.

(** ** The return value *)

(** C10 (amended). [read_vcgt_from_profile] returns -1 exactly when the
    filename is NULL or the file cannot be opened. Once the file is open it
    returns 0 whenever it returns -- when the directory holds no vcgt entry
    or the scan stops at an empty read, and when decoding stops because the
    channel count is not 3, each time with the ramp pointers unwritten, so a
    return value of 0 does not tell that they were written -- or it does not
    return: a signature that does not read 'vcgt' at the tag's offset ends
    the process in [error] with [exit (-1)]. (Reads outside the sample
    arrays are left aside here.) *)
Theorem return_value
    (pow : double -> double -> double) (fs : filesystem)
    (filename : option string)
    (nEntries : Z) (cTmp0 : buffer) :
  let o := read_vcgt_from_profile pow fs filename nEntries cTmp0 in
  ((exists out, o = Returned (-1) out) <-> opened fs filename = None)
  /\ match opened fs filename with
     | None => o = Returned (-1) None
     | Some f =>
         match locate_vcgt f cTmp0 with
         | Exhausted _ | ShortRead _ => o = Returned 0 None
         | TagFound tagOffset _ s =>
             if tagName_read tagOffset s =? vcgt then
               match o with
               | Returned rv _ => rv = 0
               | Undefined _ => True
               | Exited _ _ _ | OutOfFuel => False
               end
               /\ (gammaType_read tagOffset s = 0 ->
                   numChannels_read tagOffset s <> 3 ->
                   o = Returned 0 None)
             else
               o = Exited (-1)
                     "invalid content of table vcgt, starting with %x"
                     (tagName_read tagOffset s)
         | ScanOutOfFuel => False
         end
     end.
Proof.
  intros o. subst o. split.
  - split.
    + intros [out Hout].
      destruct (opened fs filename) as [f|] eqn:Hopen; [|reflexivity].
      pose proof (read_vcgt_opened_outcome pow fs filename nEntries cTmp0
                    f Hopen) as H.
      rewrite Hout in H. discriminate H.
    + intros Hopen. exists None. apply read_vcgt_not_opened. exact Hopen.
  - destruct (opened fs filename) as [f|] eqn:Hopen;
      [|apply read_vcgt_not_opened; exact Hopen].
    rewrite (read_vcgt_opened _ _ _ _ _ _ Hopen).
    pose proof (locate_vcgt_total f cTmp0) as Htotal.
    destruct (locate_vcgt f cTmp0) as [tagOffset tagSize s|s|s|];
      [|reflexivity|reflexivity|congruence].
    destruct (tagName_read tagOffset s =? vcgt) eqn:Hsig.
    + apply Z.eqb_eq in Hsig. split.
      * apply decode_vcgt_outcome. exact Hsig.
      * intros Htype Hnum.
        rewrite decode_vcgt_unfold, Hsig, Htype.
        change (negb (vcgt =? vcgt)) with false. change (0 =? 1) with false.
        change (0 =? 0) with true. cbv iota.
        apply decode_table_channels. exact Hnum.
    + rewrite decode_vcgt_unfold, Hsig. reflexivity.
Qed.

Lemma return_value_witness :
  (exists out,
     read_vcgt_from_profile Samples.pow Samples.no_disk Samples.name 256
       Samples.stack
     = Returned (-1) out)
  /\ (exists out,
        read_vcgt_from_profile Samples.pow (Samples.disk Samples.no_vcgt)
          None 256 Samples.stack = Returned (-1) out)
  /\ read_vcgt_from_profile Samples.pow (Samples.disk Samples.count_too_large)
       Samples.name 256 Samples.stack = Returned 0 None.
Proof.
  split; [|split].
  - apply (proj2 (proj1 (return_value Samples.pow Samples.no_disk
                           Samples.name 256 Samples.stack))).
    reflexivity.
  - apply (proj2 (proj1 (return_value Samples.pow
                           (Samples.disk Samples.no_vcgt) None 256
                           Samples.stack))).
    reflexivity.
  - exact (proj2 (return_value Samples.pow
                    (Samples.disk Samples.count_too_large)
                    Samples.name 256 Samples.stack)).
Defined.

(** The same profile as for C2: the file is open, and the function neither
    returns 0 nor returns at all. *)
Lemma return_value_counterexample :
  opened (Samples.disk Samples.wrong_offset) Samples.name
  = Some (mkFILE Samples.wrong_offset 0)
  /\ ~ returns (read_vcgt_from_profile Samples.pow
                  (Samples.disk Samples.wrong_offset)
                  Samples.name 256 Samples.stack).
Proof.
  split; [reflexivity|].
  vm_compute. intros H. exact H.
Qed.

(** ** Reading the samples *)

(** Each of the three arrays has [numEntries] cells, whatever the file
    holds. *)
Lemma read_channel_length (entrySize : Z) (count : nat) :
  forall (s : locals), length (snd (read_channel entrySize count s)) = count.
Proof.
  induction count as [|count IH]; intros s; [reflexivity|].
  cbn [read_channel].
  destruct (read_sample entrySize (s, None)) as [s1 c].
  specialize (IH s1).
  destruct (read_channel entrySize count s1) as [s2 cs].
  cbn [snd length] in *. congruence.
Qed.

(** Entered at [case 2], the switch takes two bytes for a sample. *)
Lemma read_sample_16 (s : locals) (old : option Z) (a b : byte)
    (rest : list byte) :
  skipn (position (fp s)) (contents (fp s)) = a :: b :: rest ->
  exists s',
    read_sample 2 (s, old) = (s', Some (val b + val a * 256))
    /\ position (fp s') = (position (fp s) + 2)%nat
    /\ contents (fp s') = contents (fp s).
Proof.
  intros H. unfold read_sample, case_2. cbn [Z.eqb Pos.eqb fst].
  destruct (fread_cTmp_prefix 2 s [a; b] rest H eq_refl) as [R _].
  rewrite R. destruct (cTmp s) as [[[c0 c1] c2] c3].
  eexists. split; [reflexivity|]. split; reflexivity.
Qed.

(** A table of 16-bit samples is read two bytes a sample. *)
Lemma read_channel_16_position (count : nat) : forall (s : locals),
  (position (fp s) + 2 * count <= length (contents (fp s)))%nat ->
  position (fp (fst (read_channel 2 count s)))
  = (position (fp s) + 2 * count)%nat
  /\ contents (fp (fst (read_channel 2 count s))) = contents (fp s)
  /\ length (snd (read_channel 2 count s)) = count.
Proof.
  induction count as [|count IH]; intros s Hlen.
  - cbn [read_channel fst snd length]. repeat split. lia.
  - cbn [read_channel].
    destruct (skipn (position (fp s)) (contents (fp s)))
      as [|a [|b rest]] eqn:E;
      try (pose proof (length_skipn (position (fp s)) (contents (fp s))) as L;
           rewrite E in L; cbn [length] in L; lia).
    destruct (read_sample_16 s None a b rest E) as (s' & R & P & C).
    rewrite R.
    specialize (IH s'). rewrite P, C in IH.
    destruct (read_channel 2 count s') as [s2 cs].
    cbn [fst snd length] in *.
    destruct IH as (IP & IC & IL); [lia|].
    repeat split; [lia|exact IC|lia].
Qed.

(** Entered at [case 1], the switch runs through both cases: one byte, then
    two more, and the cell keeps what [case 2] made of these two. *)
Lemma read_sample_8 (s : locals) (old : option Z) (a b c : byte)
    (rest : list byte) :
  skipn (position (fp s)) (contents (fp s)) = a :: b :: c :: rest ->
  exists s',
    read_sample 1 (s, old) = (s', Some (val c + val b * 256))
    /\ position (fp s') = (position (fp s) + 3)%nat
    /\ contents (fp s') = contents (fp s).
Proof.
  intros H. unfold read_sample, case_2, case_1. cbn [Z.eqb Pos.eqb fst].
  destruct (fread_cTmp_prefix 1 s [a] (b :: c :: rest) H eq_refl) as [R1 K1].
  rewrite R1. destruct (cTmp s) as [[[c0 c1] c2] c3].
  cbn [store fst cTmp].
  match goal with |- context [fread_cTmp 2 ?t] =>
    destruct (fread_cTmp_prefix 2 t [b; c] rest K1 eq_refl) as [R2 _];
    rewrite R2 end.
  eexists. split; [reflexivity|]. split; [|reflexivity].
  cbn [fp position]. lia.
Qed.

(** C4 (the source departs from the claim). With [entrySize] 1 the switch
    is entered at [case 1], which has no [break]: control runs on into
    [case 2]. Reading a channel of [count] samples that are in the file
    therefore moves the read position by three bytes a sample, not one, and
    sample [k] is the 16-bit number made of the second and third byte of the
    [k]-th group of three; the 8-bit value stored by [case 1] is overwritten
    and never scaled. *)
Theorem channel_8bit_takes_three_bytes_a_sample (count : nat) :
  forall (s : locals),
  (position (fp s) + 3 * count <= length (contents (fp s)))%nat ->
  position (fp (fst (read_channel 1 count s)))
  = (position (fp s) + 3 * count)%nat
  /\ contents (fp (fst (read_channel 1 count s))) = contents (fp s)
  /\ length (snd (read_channel 1 count s)) = count
  /\ forall k, (k < count)%nat ->
       nth_error (snd (read_channel 1 count s)) k
       = Some (Some
           (val (nth (position (fp s) + 3 * k + 2) (contents (fp s)) x00)
            + val (nth (position (fp s) + 3 * k + 1) (contents (fp s)) x00)
              * 256)).
Proof.
  induction count as [|count IH]; intros s Hlen.
  - cbn [read_channel fst snd length]. repeat split; lia.
  - cbn [read_channel].
    destruct (skipn (position (fp s)) (contents (fp s)))
      as [|a [|b [|c rest]]] eqn:E;
      try (pose proof (length_skipn (position (fp s)) (contents (fp s))) as L;
           rewrite E in L; cbn [length] in L; lia).
    destruct (read_sample_8 s None a b c rest E) as (s' & R & P & C).
    rewrite R.
    specialize (IH s'). rewrite P, C in IH.
    destruct (read_channel 1 count s') as [s2 cs].
    cbn [fst snd length] in *.
    destruct IH as (IP & IC & IL & IV); [lia|].
    repeat split; [lia|exact IC|lia|].
    intros [|k] Hk; cbn [nth_error].
    + rewrite <- !Nat.add_assoc, <- !nth_skipn, E. reflexivity.
    + rewrite IV by lia.
      replace (position (fp s) + 3 + 3 * k + 2)%nat
        with (position (fp s) + 3 * S k + 2)%nat by lia.
      replace (position (fp s) + 3 + 3 * k + 1)%nat
        with (position (fp s) + 3 * S k + 1)%nat by lia.
      reflexivity.
Qed.

Lemma channel_8bit_witness :
  position
    (fp (fst (read_channel 1 2
                (mkLocals (mkFILE Samples.two_by_8 162) Samples.stack 2))))
  = 168%nat
  /\ nth_error
       (snd (read_channel 1 2
               (mkLocals (mkFILE Samples.two_by_8 162) Samples.stack 2))) 0
     = Some (Some 0x0203)
  /\ nth_error
       (snd (read_channel 1 2
               (mkLocals (mkFILE Samples.two_by_8 162) Samples.stack 2))) 1
     = Some (Some 0x0506).
Proof.
  destruct (channel_8bit_takes_three_bytes_a_sample 2
              (mkLocals (mkFILE Samples.two_by_8 162) Samples.stack 2))
    as (P & _ & _ & V).
  - vm_compute. lia.
  - split; [exact P|]. split; [exact (V 0%nat ltac:(lia))|].
    exact (V 1%nat ltac:(lia)).
Defined.

(** The whole run on that profile: six 8-bit samples are announced, eighteen
    bytes are read, and the ramp holds 0x0203, 0x0506, ... *)
Example two_by_8_run :
  read_vcgt_from_profile Samples.pow (Samples.disk Samples.two_by_8)
    Samples.name 2 Samples.stack
  = Returned 0 (Some (TableRamps [Some 0x0203; Some 0x0506]
                                 [Some 0x0809; Some 0x0b0c]
                                 [Some 0x0e0f; Some 0x1112])).
Proof. vm_compute. reflexivity. Qed.

(** ** Fitting the table to the ramp *)

Lemma load_inside (a : list cell) (k : Z) :
  0 <= k < Z.of_nat (length a) ->
  exists c, load a k = Ok c /\ nth_error a (Z.to_nat k) = Some c.
Proof.
  intros H. unfold load.
  destruct (nth_error a (Z.to_nat k)) as [c|] eqn:E; [eauto|].
  apply nth_error_None in E. lia.
Qed.

Lemma load_outside (a : list cell) (k : Z) :
  Z.of_nat (length a) <= k ->
  load a k = UB (ReadPastEnd k (length a)).
Proof.
  intros H. unfold load.
  destruct (nth_error a (Z.to_nat k)) as [c|] eqn:E; [|reflexivity].
  assert (nth_error a (Z.to_nat k) <> None) as N by congruence.
  apply nth_error_Some in N. lia.
Qed.

(** A loop whose indices all fall inside the arrays fills the ramp with the
    cells it names. *)
Lemma copy_loop_inside (index : Z -> Z) (red green blue : list cell)
    (count : nat) : forall (j : Z),
  length green = length red ->
  length blue = length red ->
  (forall k, j <= k < j + Z.of_nat count ->
             0 <= index k < Z.of_nat (length red)) ->
  exists r g b,
    copy_loop index red green blue j count = Ok (r, g, b)
    /\ length r = count /\ length g = count /\ length b = count
    /\ forall k, (k < count)%nat ->
         nth_error r k = nth_error red (Z.to_nat (index (j + Z.of_nat k)))
         /\ nth_error g k
            = nth_error green (Z.to_nat (index (j + Z.of_nat k)))
         /\ nth_error b k
            = nth_error blue (Z.to_nat (index (j + Z.of_nat k))).
Proof.
  induction count as [|count IH]; intros j Hg Hb Hin.
  - exists [], [], []. cbn [copy_loop length]. repeat split; lia.
  - cbn [copy_loop].
    assert (Hj : 0 <= index j < Z.of_nat (length red)) by (apply Hin; lia).
    destruct (load_inside red (index j) Hj) as (cr & Lr & Nr).
    destruct (load_inside green (index j)) as (cg & Lg & Ng); [lia|].
    destruct (load_inside blue (index j)) as (cb & Lb & Nb); [lia|].
    rewrite Lr, Lg, Lb. cbn [bind].
    destruct (IH (j + 1) Hg Hb) as (r & g & b & E & Hlr & Hlg & Hlb & Hnth).
    { intros k Hk. apply Hin. lia. }
    rewrite E. cbn [bind].
    exists (cr :: r), (cg :: g), (cb :: b).
    split; [reflexivity|]. cbn [length].
    repeat split; try lia;
      (destruct k as [|k];
       [ cbn [nth_error]; rewrite Z.add_0_r; congruence
       | cbn [nth_error];
         replace (j + Z.of_nat (S k)) with (j + 1 + Z.of_nat k) by lia;
         apply Hnth; lia ]).
Qed.

(** A loop stops at the first index that falls behind the last cell. *)
Lemma copy_loop_outside (index : Z -> Z) (red green blue : list cell)
    (count : nat) : forall (j j0 : Z),
  length green = length red ->
  length blue = length red ->
  (forall k, j <= k < j0 -> 0 <= index k < Z.of_nat (length red)) ->
  j <= j0 < j + Z.of_nat count ->
  Z.of_nat (length red) <= index j0 ->
  copy_loop index red green blue j count
  = UB (ReadPastEnd (index j0) (length red)).
Proof.
  induction count as [|count IH]; intros j j0 Hg Hb Hin Hj0 Hout; [lia|].
  cbn [copy_loop].
  destruct (Z.eq_dec j j0) as [->|Hne].
  - rewrite (load_outside red (index j0) Hout). reflexivity.
  - assert (Hj : 0 <= index j < Z.of_nat (length red)) by (apply Hin; lia).
    destruct (load_inside red (index j) Hj) as (cr & Lr & _).
    destruct (load_inside green (index j)) as (cg & Lg & _); [lia|].
    destruct (load_inside blue (index j)) as (cb & Lb & _); [lia|].
    rewrite Lr, Lg, Lb. cbn [bind].
    rewrite (IH (j + 1) j0 Hg Hb); [reflexivity| |lia|exact Hout].
    intros k Hk. apply Hin. lia.
Qed.

(** The branch taken for each order of the two sizes. *)
Lemma evaluate_table_down (nEntries numEntries : Z)
    (red green blue : list cell) :
  0 < nEntries < numEntries ->
  evaluate_table nEntries numEntries red green blue
  = copy_loop (fun j => (numEntries / nEntries * j) mod 2 ^ 32)
              red green blue 0 (Z.to_nat nEntries).
Proof.
  intros H. unfold evaluate_table.
  replace (nEntries =? numEntries) with false
    by (symmetry; apply Z.eqb_neq; lia).
  replace (nEntries <? numEntries) with true
    by (symmetry; apply Z.ltb_lt; lia).
  replace (nEntries =? 0) with false by (symmetry; apply Z.eqb_neq; lia).
  reflexivity.
Qed.

Lemma evaluate_table_up (nEntries numEntries : Z)
    (red green blue : list cell) :
  0 < numEntries < nEntries ->
  evaluate_table nEntries numEntries red green blue
  = copy_loop (fun j => j / (nEntries / numEntries))
              red green blue 0 (Z.to_nat nEntries).
Proof.
  intros H. unfold evaluate_table.
  replace (nEntries =? numEntries) with false
    by (symmetry; apply Z.eqb_neq; lia).
  replace (nEntries <? numEntries) with false
    by (symmetry; apply Z.ltb_ge; lia).
  replace (numEntries =? 0) with false by (symmetry; apply Z.eqb_neq; lia).
  reflexivity.
Qed.

(** The indices of the down-sampling loop: no wrap-around, none behind the
    table. *)
Lemma ratio_down_inside (nEntries numEntries k : Z) :
  0 < nEntries < numEntries ->
  numEntries < 2 ^ 32 ->
  0 <= k < nEntries ->
  (numEntries / nEntries * k) mod 2 ^ 32 = numEntries / nEntries * k
  /\ 0 <= numEntries / nEntries * k < numEntries.
Proof.
  intros Hsize Hmax Hk.
  set (ratio := numEntries / nEntries).
  assert (Hratio : 1 <= ratio).
  { unfold ratio. apply Z.div_le_lower_bound; lia. }
  assert (Hfit : ratio * nEntries <= numEntries).
  { unfold ratio. rewrite Z.mul_comm. apply Z.mul_div_le. lia. }
  assert (Hin : 0 <= ratio * k < numEntries).
  { split; [apply Z.mul_nonneg_nonneg; lia|nia]. }
  split; [apply Z.mod_small; lia|exact Hin].
Qed.

(** The indices of the up-sampling loop when the division is exact. *)
Lemma ratio_up_inside (nEntries numEntries k : Z) :
  0 < numEntries < nEntries ->
  nEntries mod numEntries = 0 ->
  0 <= k < nEntries ->
  0 <= k / (nEntries / numEntries) < numEntries.
Proof.
  intros Hsize Hmod Hk.
  set (ratio := nEntries / numEntries).
  assert (Hexact : nEntries = numEntries * ratio).
  { unfold ratio. apply Z.div_exact; lia. }
  assert (Hratio : 1 <= ratio).
  { unfold ratio. apply Z.div_le_lower_bound; lia. }
  split; [apply Z.div_pos; lia|].
  apply Z.div_lt_upper_bound; lia.
Qed.

(** The indices of the up-sampling loop when the division leaves a
    remainder: turn [numEntries * ratio] is the first to ask for the cell
    behind the table. *)
Lemma ratio_up_outside (nEntries numEntries : Z) :
  0 < numEntries < nEntries ->
  nEntries mod numEntries <> 0 ->
  let ratio := nEntries / numEntries in
  0 <= numEntries * ratio < nEntries
  /\ numEntries * ratio / ratio = numEntries
  /\ forall k, 0 <= k < numEntries * ratio -> 0 <= k / ratio < numEntries.
Proof.
  intros Hsize Hmod ratio.
  assert (Hdiv : nEntries = numEntries * ratio + nEntries mod numEntries).
  { unfold ratio. apply Z.div_mod. lia. }
  pose proof (Z.mod_pos_bound nEntries numEntries) as Hrem.
  assert (Hratio : 1 <= ratio).
  { unfold ratio. apply Z.div_le_lower_bound; lia. }
  split; [split; [nia|lia]|]. split.
  - apply Z.div_mul. lia.
  - intros k Hk. split; [apply Z.div_pos; lia|].
    apply Z.div_lt_upper_bound; lia.
Qed.

(** C9. When the table has as many entries as the ramp, the three ramp
    pointers are set to the arrays the samples were read into: for every
    channel and every index, the ramp entry is the decoded sample at that
    index. *)
Theorem same_size_is_identity (nEntries : Z) (red green blue : list cell) :
  evaluate_table nEntries nEntries red green blue = Ok (red, green, blue)
  /\ forall r g b,
       evaluate_table nEntries nEntries red green blue = Ok (r, g, b) ->
       forall j : nat,
         nth_error r j = nth_error red j
         /\ nth_error g j = nth_error green j
         /\ nth_error b j = nth_error blue j.
Proof.
  unfold evaluate_table. rewrite Z.eqb_refl.
  split; [reflexivity|].
  intros r g b H j. injection H as <- <- <-. repeat split.
Qed.

(** C7. When the table has more entries than the ramp, the ramp is filled
    with every [ratio]-th sample, [ratio] being the integer quotient of the
    two sizes: entry [j] is sample [ratio * j], no sample in between is
    looked at, and every such index lies inside the table. *)
Theorem downsample_takes_every_ratio_th (nEntries numEntries : Z)
    (red green blue : list cell) :
  0 < nEntries < numEntries ->
  numEntries < 2 ^ 32 ->
  Z.of_nat (length red) = numEntries ->
  Z.of_nat (length green) = numEntries ->
  Z.of_nat (length blue) = numEntries ->
  exists r g b,
    evaluate_table nEntries numEntries red green blue = Ok (r, g, b)
    /\ Z.of_nat (length r) = nEntries
    /\ Z.of_nat (length g) = nEntries
    /\ Z.of_nat (length b) = nEntries
    /\ forall j, 0 <= j < nEntries ->
         0 <= numEntries / nEntries * j < numEntries
         /\ nth_error r (Z.to_nat j)
            = nth_error red (Z.to_nat (numEntries / nEntries * j))
         /\ nth_error g (Z.to_nat j)
            = nth_error green (Z.to_nat (numEntries / nEntries * j))
         /\ nth_error b (Z.to_nat j)
            = nth_error blue (Z.to_nat (numEntries / nEntries * j)).
Proof.
  intros Hsize Hmax Hr Hg Hb.
  rewrite evaluate_table_down by exact Hsize.
  destruct (copy_loop_inside
              (fun j => (numEntries / nEntries * j) mod 2 ^ 32)
              red green blue (Z.to_nat nEntries) 0)
    as (r & g & b & E & Hlr & Hlg & Hlb & Hnth); [lia|lia| |].
  { intros k Hk. cbv beta.
    destruct (ratio_down_inside nEntries numEntries k Hsize Hmax) as [-> ?];
      lia. }
  exists r, g, b. split; [exact E|].
  split; [lia|]. split; [lia|]. split; [lia|].
  intros j Hj.
  destruct (ratio_down_inside nEntries numEntries j Hsize Hmax Hj)
    as [Hsmall Hin].
  split; [exact Hin|].
  specialize (Hnth (Z.to_nat j)). cbv beta in Hnth.
  rewrite Z.add_0_l, Z2Nat.id, Hsmall in Hnth by lia.
  apply Hnth. lia.
Qed.

(** The example of the specification: 1024 samples for a ramp of 256. *)
Lemma downsample_witness :
  exists r g b,
    evaluate_table 256 1024 (Samples.ramp_of 1024) (Samples.ramp_of 1024)
      (Samples.ramp_of 1024) = Ok (r, g, b)
    /\ nth_error r (Z.to_nat 10)
       = nth_error (Samples.ramp_of 1024) (Z.to_nat 40).
Proof.
  destruct (downsample_takes_every_ratio_th 256 1024
              (Samples.ramp_of 1024) (Samples.ramp_of 1024)
              (Samples.ramp_of 1024))
    as (r & g & b & E & _ & _ & _ & H).
  - lia.
  - reflexivity.
  - vm_compute. reflexivity.
  - vm_compute. reflexivity.
  - vm_compute. reflexivity.
  - exists r, g, b. split; [exact E|].
    destruct (H 10) as (_ & Hr & _); [lia|]. exact Hr.
Defined.

Example downsample_1024_256 :
  exists r g b,
    evaluate_table 256 1024 (Samples.ramp_of 1024) (Samples.ramp_of 1024)
      (Samples.ramp_of 1024) = Ok (r, g, b)
    /\ nth_error r 10 = Some (Some 40).
Proof.
  do 3 eexists. split; vm_compute; reflexivity.
Qed.

(** The non-integer ratio named by the specification: 100 samples for a ramp
    of 30 are read at 0, 3, ..., 87. *)
Example downsample_100_30 :
  exists r g b,
    evaluate_table 30 100 (Samples.ramp_of 100) (Samples.ramp_of 100)
      (Samples.ramp_of 100) = Ok (r, g, b)
    /\ nth_error r 29 = Some (Some 87).
Proof.
  do 3 eexists. split; vm_compute; reflexivity.
Qed.

(** When the ramp size is a multiple of the table size, the ramp repeats
    every sample [ratio] times. *)
Lemma upsample_multiple (nEntries numEntries : Z)
    (red green blue : list cell) :
  0 < numEntries < nEntries ->
  nEntries mod numEntries = 0 ->
  Z.of_nat (length red) = numEntries ->
  Z.of_nat (length green) = numEntries ->
  Z.of_nat (length blue) = numEntries ->
  exists r g b,
    evaluate_table nEntries numEntries red green blue = Ok (r, g, b)
    /\ forall j, 0 <= j < nEntries ->
         0 <= j / (nEntries / numEntries) < numEntries
         /\ nth_error r (Z.to_nat j)
            = nth_error red (Z.to_nat (j / (nEntries / numEntries)))
         /\ nth_error g (Z.to_nat j)
            = nth_error green (Z.to_nat (j / (nEntries / numEntries)))
         /\ nth_error b (Z.to_nat j)
            = nth_error blue (Z.to_nat (j / (nEntries / numEntries))).
Proof.
  intros Hsize Hmod Hr Hg Hb.
  rewrite evaluate_table_up by exact Hsize.
  destruct (copy_loop_inside (fun j => j / (nEntries / numEntries))
              red green blue (Z.to_nat nEntries) 0)
    as (r & g & b & E & _ & _ & _ & Hnth); [lia|lia| |].
  { intros k Hk. cbv beta. rewrite Hr.
    apply ratio_up_inside; [exact Hsize|exact Hmod|lia]. }
  exists r, g, b. split; [exact E|].
  intros j Hj.
  split; [apply ratio_up_inside; assumption|].
  specialize (Hnth (Z.to_nat j)). cbv beta in Hnth.
  rewrite Z.add_0_l, Z2Nat.id in Hnth by lia.
  apply Hnth. lia.
Qed.

(** The example of the specification: 256 samples for a ramp of 1024. *)
Example upsample_256_1024 :
  exists r g b,
    evaluate_table 1024 256 (Samples.ramp_of 256) (Samples.ramp_of 256)
      (Samples.ramp_of 256) = Ok (r, g, b)
    /\ nth_error r 400 = Some (Some 100).
Proof.
  do 3 eexists. split; vm_compute; reflexivity.
Qed.

(** C8 (the source departs from the claim). When the table has fewer entries
    than the ramp and the ramp size is not a multiple of the table size,
    the loop [rRamp[0][j] = redRamp[j/ratio]] reaches, at
    [j = numEntries * ratio], the index [numEntries]: it reads the cell
    behind the last sample, and no ramp of samples comes out. *)
Theorem upsample_reads_behind_table (nEntries numEntries : Z)
    (red green blue : list cell) :
  0 < numEntries < nEntries ->
  nEntries mod numEntries <> 0 ->
  Z.of_nat (length red) = numEntries ->
  Z.of_nat (length green) = numEntries ->
  Z.of_nat (length blue) = numEntries ->
  evaluate_table nEntries numEntries red green blue
  = UB (ReadPastEnd numEntries (length red)).
Proof.
  intros Hsize Hmod Hr Hg Hb.
  rewrite evaluate_table_up by exact Hsize.
  destruct (ratio_up_outside nEntries numEntries Hsize Hmod)
    as (Hj0 & Hidx & Hbefore).
  rewrite (copy_loop_outside (fun j => j / (nEntries / numEntries))
             red green blue (Z.to_nat nEntries) 0
             (numEntries * (nEntries / numEntries))); cbv beta.
  - rewrite Hidx. reflexivity.
  - lia.
  - lia.
  - intros k Hk. rewrite Hr. apply Hbefore. exact Hk.
  - rewrite Z2Nat.id by lia. lia.
  - rewrite Hidx. lia.
Qed.

Lemma upsample_witness :
  evaluate_table 5 3 (Samples.ramp_of 3) (Samples.ramp_of 3)
    (Samples.ramp_of 3)
  = UB (ReadPastEnd 3 3).
Proof.
  refine (upsample_reads_behind_table 5 3 (Samples.ramp_of 3)
            (Samples.ramp_of 3) (Samples.ramp_of 3) _ _ _ _ _).
  - lia.
  - vm_compute. discriminate.
  - reflexivity.
  - reflexivity.
  - reflexivity.
Defined.

(** An empty table for a ramp that is not: [ratio] would be the quotient by
    zero. *)
Lemma upsample_empty_table (nEntries : Z) (red green blue : list cell) :
  0 < nEntries ->
  evaluate_table nEntries 0 red green blue = UB DivisionByZero.
Proof.
  intros H. unfold evaluate_table.
  replace (nEntries =? 0) with false by (symmetry; apply Z.eqb_neq; lia).
  replace (nEntries <? 0) with false by (symmetry; apply Z.ltb_ge; lia).
  reflexivity.
Qed.

(** C1 (the source departs from the claim). The resampling loops index the
    sample arrays with [ratio*j] and [j/ratio] as they are, without a clamp.
    The reads stay inside the table, and a ramp comes out, exactly when the
    ramp is not larger than the table or its size is a multiple of the
    table's; for every other pair of sizes the up-sampling loop reads behind
    the last sample. *)
Theorem resampling_inside_iff (nEntries numEntries : Z)
    (red green blue : list cell) :
  0 < nEntries ->
  0 < numEntries < 2 ^ 32 ->
  Z.of_nat (length red) = numEntries ->
  Z.of_nat (length green) = numEntries ->
  Z.of_nat (length blue) = numEntries ->
  (exists r g b,
     evaluate_table nEntries numEntries red green blue = Ok (r, g, b))
  <-> (nEntries <= numEntries \/ nEntries mod numEntries = 0).
Proof.
  intros Hn He Hr Hg Hb. split.
  - intros (r & g & b & E).
    destruct (Z_le_gt_dec nEntries numEntries) as [Hle|Hgt]; [left; exact Hle|].
    destruct (Z.eq_dec (nEntries mod numEntries) 0) as [Hmod|Hmod];
      [right; exact Hmod|].
    exfalso.
    rewrite evaluate_table_up in E by lia.
    destruct (ratio_up_outside nEntries numEntries) as (Hj0 & Hidx & Hbefore);
      [lia|exact Hmod|].
    rewrite (copy_loop_outside (fun j => j / (nEntries / numEntries))
               red green blue (Z.to_nat nEntries) 0
               (numEntries * (nEntries / numEntries))) in E;
      [discriminate E|lia|lia| | |]; cbv beta.
    + intros k Hk. rewrite Hr. apply Hbefore. exact Hk.
    + rewrite Z2Nat.id by lia. lia.
    + rewrite Hidx. lia.
  - intros Hcase.
    destruct (Z.lt_total nEntries numEntries) as [Hlt|[Heq|Hgt]].
    + rewrite evaluate_table_down by lia.
      destruct (copy_loop_inside
                  (fun j => (numEntries / nEntries * j) mod 2 ^ 32)
                  red green blue (Z.to_nat nEntries) 0)
        as (r & g & b & E & _); [lia|lia| |eauto].
      intros k Hk. cbv beta.
      destruct (ratio_down_inside nEntries numEntries k) as [-> ?]; lia.
    + rewrite <- Heq. unfold evaluate_table. rewrite Z.eqb_refl. eauto.
    + destruct Hcase as [Hle|Hmod]; [lia|].
      rewrite evaluate_table_up by lia.
      destruct (copy_loop_inside (fun j => j / (nEntries / numEntries))
                  red green blue (Z.to_nat nEntries) 0)
        as (r & g & b & E & _); [lia|lia| |eauto].
      intros k Hk. cbv beta. rewrite Hr.
      apply ratio_up_inside; [lia|exact Hmod|lia].
Qed.

Lemma resampling_witness :
  ((exists r g b,
      evaluate_table 3 2 (Samples.ramp_of 2) (Samples.ramp_of 2)
        (Samples.ramp_of 2) = Ok (r, g, b))
   <-> (3 <= 2 \/ 3 mod 2 = 0))
  /\ evaluate_table 3 2 (Samples.ramp_of 2) (Samples.ramp_of 2)
       (Samples.ramp_of 2) = UB (ReadPastEnd 2 2).
Proof.
  split.
  - apply (resampling_inside_iff 3 2 (Samples.ramp_of 2) (Samples.ramp_of 2)
             (Samples.ramp_of 2)).
    + lia.
    + lia.
    + reflexivity.
    + reflexivity.
    + reflexivity.
  - vm_compute. reflexivity.
Defined.

(** The whole run on a table of two entries: it fits ramps of one, two and
    four entries, and reads [redRamp[2]] for a ramp of three. *)
Example two_by_16_runs :
  read_vcgt_from_profile Samples.pow (Samples.disk Samples.two_by_16)
    Samples.name 3 Samples.stack
  = Undefined (ReadPastEnd 2 2)
  /\ read_vcgt_from_profile Samples.pow (Samples.disk Samples.two_by_16)
       Samples.name 4 Samples.stack
     = Returned 0 (Some (TableRamps [Some 1; Some 1; Some 2; Some 2]
                                    [Some 3; Some 3; Some 4; Some 4]
                                    [Some 5; Some 5; Some 6; Some 6]))
  /\ read_vcgt_from_profile Samples.pow (Samples.disk Samples.two_by_16)
       Samples.name 1 Samples.stack
     = Returned 0 (Some (TableRamps [Some 1] [Some 3] [Some 5])).
Proof.
  repeat split; vm_compute; reflexivity.
Qed.

(** ** The formula branch (lines 184-237) *)

(** The signature, the reserved word and the type word of a tag that the
    file holds, as the reads see them, and where they leave the file. *)
Lemma tag_type_fields (tagOffset : Z) (s : locals)
    (r0 r1 r2 r3 t0 t1 t2 t3 : byte) (rest : list byte) :
  skipn (Z.to_nat tagOffset) (contents (fp s))
  = [x76; x63; x67; x74;  r0; r1; r2; r3;  t0; t1; t2; t3] ++ rest ->
  tagName_read tagOffset s = vcgt
  /\ gammaType_read tagOffset s = u32 (t0, t1, t2, t3)
  /\ contents (fp (after_type tagOffset s)) = contents (fp s)
  /\ skipn (position (fp (after_type tagOffset s))) (contents (fp s)) = rest.
Proof.
  intros H.
  unfold tagName_read, gammaType_read, after_type, after_signature.
  set (t := seek (0 + tagOffset) s).
  assert (H0 : skipn (position (fp t)) (contents (fp t))
               = x76 :: x63 :: x67 :: x74 :: r0 :: r1 :: r2 :: r3 ::
                 t0 :: t1 :: t2 :: t3 :: rest).
  { unfold t, seek, fseek. cbn [fp contents position].
    rewrite Z.add_0_l. exact H. }
  destruct (fread_cTmp_word t _ _ _ _ _ H0) as [R1 K1]. rewrite R1.
  match goal with |- context [fread_cTmp 4 ?u] =>
    destruct (fread_cTmp_word u r0 r1 r2 r3 _ K1) as [R2 K2]; rewrite R2 end.
  match goal with |- context [fread_cTmp 4 ?u] =>
    destruct (fread_cTmp_word u t0 t1 t2 t3 _ K2) as [R3 K3]; rewrite R3 end.
  cbn [fp cTmp contents position] in *.
  split; [reflexivity|]. split; [reflexivity|].
  split; [reflexivity|exact K3].
Qed.

(** The constant is the quotient 2222222 / 1000000, correctly rounded. *)
Example SYSTEM_GAMMA_nearest :
  double_div (double_of_int 2222222) (double_of_int 1000000) = SYSTEM_GAMMA.
Proof. vm_compute. reflexivity. Qed.

(** The gamma words 0x00010000 and 0x00008000 are 1.0 and 0.5. *)
Example gamma_of_words :
  gamma_of 65536 = S754_finite false 8388608 (-23)
  /\ gamma_of 32768 = S754_finite false 8388608 (-24)
  /\ gamma_of 0 = S754_zero false.
Proof. repeat split; vm_compute; reflexivity. Qed.

(** The conversion cuts the fraction off: 32781.5 gives 32781, 65535.5 gives
    65535, -0.5 gives 0; 65536.0 and 65563.0 have no place in the cell. *)
Example to_u_int16_t_values :
  to_u_int16_t (double_div (double_of_int 65563) (double_of_int 2))
  = Ok 32781
  /\ to_u_int16_t (double_div (double_of_int 131071) (double_of_int 2))
     = Ok 65535
  /\ to_u_int16_t (double_div (double_of_int (-1)) (double_of_int 2)) = Ok 0
  /\ to_u_int16_t (double_of_int 65536)
     = UB (Unrepresentable (double_of_int 65536))
  /\ to_u_int16_t (double_of_int 65563)
     = UB (Unrepresentable (double_of_int 65563)).
Proof. repeat split; vm_compute; reflexivity. Qed.

Lemma pow_sample_zero (x : double) :
  Samples.pow x (S754_zero false) = double_of_int 1.
Proof. reflexivity. Qed.

(** A gamma word of 0 is the gamma +0.0, and so is its product with
    [SYSTEM_GAMMA]: the entry is [65563 * pow(x, 0)], which is 65563.0 for a
    [pow] that gives 1 for every exponent of zero. It has no place in a cell
    of 16 bits. *)
Lemma formula_entry_gamma_zero (pow : double -> double -> double)
    (nEntries j : Z) :
  (forall x : double, pow x (S754_zero false) = double_of_int 1) ->
  formula_entry pow nEntries (gamma_of 0) j
  = UB (Unrepresentable (double_of_int 65563)).
Proof.
  intros Hpow. unfold formula_entry.
  change (double_mul (double_of_float (gamma_of 0)) SYSTEM_GAMMA)
    with (S754_zero false).
  rewrite Hpow. reflexivity.
Qed.

(** The conversion is the only thing in an entry that can be undefined. *)
Lemma formula_entry_undefined (pow : double -> double -> double)
    (nEntries : Z) (gamma : float) (j : Z) (u : undefined) :
  formula_entry pow nEntries gamma j = UB u ->
  exists x : double, u = Unrepresentable x.
Proof.
  unfold formula_entry, to_u_int16_t.
  destruct (double_mul _ _) as [s|s| |s m e]; try discriminate;
    try (intros H; injection H as <-; eexists; reflexivity).
  destruct (_ && _); [discriminate|].
  intros H. injection H as <-. eexists; reflexivity.
Qed.

(** The first turn of the loop ends it when one of the gammas is 0.0. *)
Lemma formula_loop_gamma_zero (pow : double -> double -> double)
    (nEntries : Z) (rGamma gGamma bGamma : float) (j : Z) (count : nat) :
  (forall x : double, pow x (S754_zero false) = double_of_int 1) ->
  rGamma = gamma_of 0 \/ gGamma = gamma_of 0 \/ bGamma = gamma_of 0 ->
  exists x : double,
    formula_loop pow nEntries rGamma gGamma bGamma j (S count)
    = UB (Unrepresentable x).
Proof.
  intros Hpow Hzero. cbn [formula_loop].
  destruct (formula_entry pow nEntries rGamma j) as [r|u] eqn:Er.
  2: { destruct (formula_entry_undefined _ _ _ _ _ Er) as [x ->].
       exists x. reflexivity. }
  destruct (formula_entry pow nEntries gGamma j) as [g|u] eqn:Eg.
  2: { destruct (formula_entry_undefined _ _ _ _ _ Eg) as [x ->].
       exists x. reflexivity. }
  destruct (formula_entry pow nEntries bGamma j) as [b|u] eqn:Eb.
  2: { destruct (formula_entry_undefined _ _ _ _ _ Eb) as [x ->].
       exists x. reflexivity. }
  destruct Hzero as [-> | [-> | ->]];
    [rewrite (formula_entry_gamma_zero pow nEntries j Hpow) in Er
    |rewrite (formula_entry_gamma_zero pow nEntries j Hpow) in Eg
    |rewrite (formula_entry_gamma_zero pow nEntries j Hpow) in Eb];
    discriminate.
Qed.

Lemma formula_loop_red_gamma_zero (pow : double -> double -> double)
    (nEntries : Z) (gGamma bGamma : float) (j : Z) (count : nat) :
  (forall x : double, pow x (S754_zero false) = double_of_int 1) ->
  formula_loop pow nEntries (gamma_of 0) gGamma bGamma j (S count)
  = UB (Unrepresentable (double_of_int 65563)).
Proof.
  intros Hpow. cbn [formula_loop].
  rewrite (formula_entry_gamma_zero pow nEntries j Hpow). reflexivity.
Qed.

(** A formula tag that the file holds whole, as [decode_vcgt] sees it. *)
Lemma decode_vcgt_formula (pow : double -> double -> double)
    (tagOffset nEntries : Z) (s : locals) (r0 r1 r2 r3 : byte)
    (rGamma rMin rMax gGamma gMin gMax bGamma bMin bMax : buffer)
    (rest : list byte) :
  skipn (Z.to_nat tagOffset) (contents (fp s))
  = [x76; x63; x67; x74;  r0; r1; r2; r3;  x00; x00; x00; x01]
    ++ word_bytes rGamma ++ word_bytes rMin ++ word_bytes rMax
    ++ word_bytes gGamma ++ word_bytes gMin ++ word_bytes gMax
    ++ word_bytes bGamma ++ word_bytes bMin ++ word_bytes bMax ++ rest ->
  decode_vcgt pow tagOffset nEntries s
  = match evaluate_formula pow nEntries (gamma_of (u32 rGamma))
            (gamma_of (u32 gGamma)) (gamma_of (u32 bGamma)) with
    | Ok (r, g, b) => Returned 0 (Some (FormulaRamps r g b))
    | UB u => Undefined u
    end.
Proof.
  intros Htag.
  destruct (tag_type_fields tagOffset s _ _ _ _ _ _ _ _ _ Htag)
    as (Hsig & Htype & Hct & Hrest).
  rewrite decode_vcgt_unfold, Hsig, Htype.
  change (negb (vcgt =? vcgt)) with false.
  change (u32 (x00, x00, x00, x01) =? 1) with true. cbv iota.
  rewrite <- Hct in Hrest.
  exact (decode_formula_fields pow nEntries (after_type tagOffset s)
           _ _ _ _ _ _ _ _ _ _ Hrest).
Qed.

(** C5 (the source departs from the claim). The entries of a formula ramp
    are [65563 * pow(j / n, gamma * SYSTEM_GAMMA)] with the fraction cut off,
    65563 and not 65535 being the scale. For a [pow] that gives 1 for every
    exponent of zero, as the C library's does, and a ramp that is not empty:
    when one of the three gamma words of a formula tag that the file holds
    whole is 0, the function has no defined result, because an entry does not
    fit its 16-bit cell; when it is the red one, the entry is the very first,
    [rRamp[0][0]], and its value is 65563.0, where the claim has 65535 for the
    last entries and 0 for the first. *)
Theorem formula_gamma_zero_does_not_fit
    (pow : double -> double -> double) (fs : filesystem) (name : string)
    (bytes : list byte) (nEntries : Z) (cTmp0 : buffer)
    (tagOffset tagSize : Z) (r0 r1 r2 r3 : byte)
    (rGamma rMin rMax gGamma gMin gMax bGamma bMin bMax : buffer)
    (rest : list byte) :
  (forall x : double, pow x (S754_zero false) = double_of_int 1) ->
  fs name = Some bytes ->
  locateVcgtTag bytes = inr (tagOffset, tagSize) ->
  skipn (Z.to_nat tagOffset) bytes
  = [x76; x63; x67; x74;  r0; r1; r2; r3;  x00; x00; x00; x01]
    ++ word_bytes rGamma ++ word_bytes rMin ++ word_bytes rMax
    ++ word_bytes gGamma ++ word_bytes gMin ++ word_bytes gMax
    ++ word_bytes bGamma ++ word_bytes bMin ++ word_bytes bMax ++ rest ->
  u32 rGamma = 0 \/ u32 gGamma = 0 \/ u32 bGamma = 0 ->
  0 < nEntries ->
  (exists x : double,
     read_vcgt_from_profile pow fs (Some name) nEntries cTmp0
     = Undefined (Unrepresentable x))
  /\ (u32 rGamma = 0 ->
      formula_entry pow nEntries (gamma_of (u32 rGamma)) 0
      = UB (Unrepresentable (double_of_int 65563))
      /\ read_vcgt_from_profile pow fs (Some name) nEntries cTmp0
         = Undefined (Unrepresentable (double_of_int 65563))).
Proof.
  intros Hpow Hfs Hdir Htag Hzero Hpos.
  pose proof (locate_vcgt_refines bytes cTmp0) as Hscan.
  rewrite Hdir in Hscan. destruct Hscan as [s Hscan]; [discriminate|].
  rewrite (read_vcgt_opened _ _ _ _ _ _ (opened_disk fs name bytes Hfs)), Hscan.
  pose proof (locate_vcgt_contents _ _ _ _ _ Hscan) as Hc.
  cbn [contents] in Hc. rewrite <- Hc in Htag.
  rewrite (decode_vcgt_formula pow tagOffset nEntries s _ _ _ _
             _ _ _ _ _ _ _ _ _ _ Htag).
  unfold evaluate_formula.
  destruct (Z.to_nat nEntries) as [|count] eqn:Hcount; [lia|].
  split.
  - destruct (formula_loop_gamma_zero pow nEntries (gamma_of (u32 rGamma))
                (gamma_of (u32 gGamma)) (gamma_of (u32 bGamma)) 0 count Hpow)
      as [x Hx].
    + destruct Hzero as [H | [H | H]]; rewrite H; auto.
    + exists x. rewrite Hx. reflexivity.
  - intros Hred. rewrite Hred. split.
    + exact (formula_entry_gamma_zero pow nEntries 0 Hpow).
    + rewrite (formula_loop_red_gamma_zero pow nEntries _ _ 0 count Hpow).
      reflexivity.
Qed.

Lemma formula_gamma_zero_witness :
  read_vcgt_from_profile Samples.pow
    (Samples.disk Samples.formula_gamma_zero) Samples.name 256 Samples.stack
  = Undefined (Unrepresentable (double_of_int 65563)).
Proof.
  refine (proj2 (proj2 (formula_gamma_zero_does_not_fit Samples.pow
            (Samples.disk Samples.formula_gamma_zero)
            "profile.icc"%string Samples.formula_gamma_zero 256 Samples.stack
            144 30 x00 x00 x00 x00
            (x00, x00, x00, x00) (x00, x00, x00, x00) (x00, x01, x00, x00)
            (x00, x01, x00, x00) (x00, x00, x00, x00) (x00, x01, x00, x00)
            (x00, x01, x00, x00) (x00, x00, x00, x00) (x00, x01, x00, x00)
            [] pow_sample_zero eq_refl _ _ _ _) _)).
  - vm_compute. reflexivity.
  - vm_compute. reflexivity.
  - left. vm_compute. reflexivity.
  - lia.
  - vm_compute. reflexivity.
Defined.

(** * The rest of xcalib.c: properties *)

(** ** Whole profiles through [read_vcgt_from_profile] *)

Lemma skipn_after {A : Type} (p : nat) (l front rest : list A) :
  skipn p l = front ++ rest ->
  skipn (p + length front) l = rest.
Proof.
  intros H. rewrite Nat.add_comm, <- skipn_skipn, H.
  rewrite skipn_app, Nat.sub_diag, skipn_all. reflexivity.
Qed.

(** The 2-2-2 header of a table that the file holds, and what is left for
    [decode_table] to do after it. *)
Lemma decode_table_header (nEntries : Z) (t : locals)
    (c0 c1 e0 e1 z0 z1 : byte) (rest : list byte) :
  skipn (position (fp t)) (contents (fp t))
  = [c0; c1; e0; e1; z0; z1] ++ rest ->
  exists t3,
    contents (fp t3) = contents (fp t)
    /\ position (fp t3) = (position (fp t) + 6)%nat
    /\ decode_table nEntries t
       = if negb (val c1 + val c0 * 256 =? 3) then Returned 0 None
         else
           let numEntries := val e1 + val e0 * 256 in
           let entrySize := val z1 + val z0 * 256 in
           let (s4, redRamp) :=
             read_channel entrySize (Z.to_nat numEntries) t3 in
           let (s5, greenRamp) :=
             read_channel entrySize (Z.to_nat numEntries) s4 in
           let (s6, blueRamp) :=
             read_channel entrySize (Z.to_nat numEntries) s5 in
           match evaluate_table nEntries numEntries
                   redRamp greenRamp blueRamp with
           | Ok (r, g, b) => Returned 0 (Some (TableRamps r g b))
           | UB u => Undefined u
           end.
Proof.
  intros H. unfold decode_table.
  destruct (fread_cTmp_prefix 2 t [c0; c1] ([e0; e1; z0; z1] ++ rest) H eq_refl)
    as [R1 K1].
  rewrite R1.
  match goal with |- context [fread_cTmp 2 ?u] =>
    destruct (fread_cTmp_prefix 2 u [e0; e1] ([z0; z1] ++ rest) K1 eq_refl)
      as [R2 K2]; rewrite R2 end.
  match goal with |- context [fread_cTmp 2 ?u] =>
    destruct (fread_cTmp_prefix 2 u [z0; z1] rest K2 eq_refl)
      as [R3 K3]; rewrite R3 end.
  destruct (cTmp t) as [[[b0 b1] b2] b3].
  cbn [fp cTmp contents position store u16].
  eexists. split; [|split; [|reflexivity]]; cbn [fp contents position];
    [reflexivity|lia].
Qed.

(** A channel of 16-bit samples that the file holds is read as the format
    lays it out. *)
Lemma read_channel_16_samples (count : nat) :
  forall (s : locals) (payload rest : list byte),
  skipn (position (fp s)) (contents (fp s)) = payload ++ rest ->
  length payload = (2 * count)%nat ->
  exists s',
    read_channel 2 count s = (s', samples16 payload)
    /\ contents (fp s') = contents (fp s)
    /\ position (fp s') = (position (fp s) + 2 * count)%nat.
Proof.
  induction count as [|count IH]; intros s payload rest H Hlen.
  - destruct payload; [|discriminate].
    exists s. cbn [read_channel samples16]. repeat split. lia.
  - destruct payload as [|a [|b payload]]; try (cbn [length] in Hlen; lia).
    cbn [read_channel samples16].
    destruct (read_sample_16 s None a b (payload ++ rest) H) as (s1 & R & P & C).
    rewrite R.
    destruct (IH s1 payload rest) as (s' & R' & C' & P').
    + rewrite P, C.
      exact (skipn_after (position (fp s)) (contents (fp s)) [a; b] _ H).
    + cbn [length] in Hlen. lia.
    + rewrite R'. exists s'. split; [reflexivity|].
      split; [congruence|lia].
Qed.

(** X1. A profile whose directory is complete and whose vcgt tag is a
    table of three channels of 16-bit samples, all of them in the file,
    is decoded to the big-endian samples in channel-major order, red first;
    what the function does then is what [evaluate_table] does with these
    samples and the ramp size. The size the directory declares for the tag
    plays no part. *)
Theorem table_16bit_profile
    (pow : double -> double -> double) (fs : filesystem) (name : string)
    (bytes : list byte) (nEntries : Z) (cTmp0 : buffer)
    (tagOffset tagSize : Z) (r0 r1 r2 r3 e0 e1 : byte)
    (red green blue rest : list byte) :
  fs name = Some bytes ->
  locateVcgtTag bytes = inr (tagOffset, tagSize) ->
  skipn (Z.to_nat tagOffset) bytes
  = [x76; x63; x67; x74;  r0; r1; r2; r3;  x00; x00; x00; x00]
    ++ [x00; x03; e0; e1; x00; x02] ++ red ++ green ++ blue ++ rest ->
  Z.of_nat (length red) = 2 * (val e1 + val e0 * 256) ->
  Z.of_nat (length green) = 2 * (val e1 + val e0 * 256) ->
  Z.of_nat (length blue) = 2 * (val e1 + val e0 * 256) ->
  read_vcgt_from_profile pow fs (Some name) nEntries cTmp0
  = match evaluate_table nEntries (val e1 + val e0 * 256)
            (samples16 red) (samples16 green) (samples16 blue) with
    | Ok (r, g, b) => Returned 0 (Some (TableRamps r g b))
    | UB u => Undefined u
    end.
Proof.
  intros Hfs Hdir Htag Hr Hg Hb.
  pose proof (locate_vcgt_refines bytes cTmp0) as Hscan.
  rewrite Hdir in Hscan. destruct Hscan as [s Hscan]; [discriminate|].
  rewrite (read_vcgt_opened _ _ _ _ _ _ (opened_disk fs name bytes Hfs)), Hscan.
  pose proof (locate_vcgt_contents _ _ _ _ _ Hscan) as Hc.
  cbn [contents] in Hc. rewrite <- Hc in Htag.
  destruct (tag_type_fields tagOffset s _ _ _ _ _ _ _ _ _ Htag)
    as (Hsig & Htype & Hct & Hrest).
  rewrite decode_vcgt_unfold, Hsig, Htype.
  change (negb (vcgt =? vcgt)) with false.
  change (u32 (x00, x00, x00, x00) =? 1) with false.
  change (u32 (x00, x00, x00, x00) =? 0) with true. cbv iota.
  rewrite <- Hct in Hrest.
  destruct (decode_table_header nEntries (after_type tagOffset s)
              _ _ _ _ _ _ _ Hrest) as (t3 & C3 & P3 & ->).
  change (val x03 + val x00 * 256 =? 3) with true.
  change (val x02 + val x00 * 256) with 2.
  cbv beta iota zeta. cbn [negb].
  set (n := Z.to_nat (val e1 + val e0 * 256)).
  assert (Hn : Z.of_nat n = val e1 + val e0 * 256).
  { unfold n. pose proof (val_range e0). pose proof (val_range e1). lia. }
  assert (K3 : skipn (position (fp t3)) (contents (fp t3))
               = red ++ green ++ blue ++ rest).
  { rewrite P3, C3.
    exact (skipn_after _ _ [x00; x03; e0; e1; x00; x02] _ Hrest). }
  destruct (read_channel_16_samples n t3 red _ K3) as (s4 & R4 & C4 & P4);
    [lia|].
  rewrite R4.
  assert (K4 : skipn (position (fp s4)) (contents (fp s4))
               = green ++ blue ++ rest).
  { rewrite P4, C4. replace (2 * n)%nat with (length red) by lia.
    exact (skipn_after _ _ red _ K3). }
  destruct (read_channel_16_samples n s4 green _ K4) as (s5 & R5 & C5 & P5);
    [lia|].
  rewrite R5.
  assert (K5 : skipn (position (fp s5)) (contents (fp s5)) = blue ++ rest).
  { rewrite P5, C5. replace (2 * n)%nat with (length green) by lia.
    exact (skipn_after _ _ green _ K4). }
  destruct (read_channel_16_samples n s5 blue _ K5) as (s6 & R6 & _ & _);
    [lia|].
  rewrite R6. reflexivity.
Qed.

Lemma table_16bit_profile_witness :
  read_vcgt_from_profile Samples.pow (Samples.disk Samples.two_by_16)
    (Some "profile.icc"%string) 2 Samples.stack
  = Returned 0 (Some (TableRamps [Some 1; Some 2] [Some 3; Some 4]
                                 [Some 5; Some 6])).
Proof.
  refine (eq_trans
            (table_16bit_profile Samples.pow (Samples.disk Samples.two_by_16)
               "profile.icc"%string Samples.two_by_16 2 Samples.stack
               144 30 x00 x00 x00 x00 x00 x02
               [x00; x01; x00; x02] [x00; x03; x00; x04]
               [x00; x05; x00; x06] [] eq_refl _ _ _ _ _) _).
  - vm_compute. reflexivity.
  - vm_compute. reflexivity.
  - vm_compute. reflexivity.
  - vm_compute. reflexivity.
  - vm_compute. reflexivity.
  - vm_compute. reflexivity.
Defined.

(** X2. A vcgt tag whose type word is neither 0 nor 1 is passed over in
    silence: the function returns 0 and leaves the ramp pointers
    unwritten. *)
Theorem unknown_gamma_type
    (pow : double -> double -> double) (fs : filesystem) (name : string)
    (bytes : list byte) (nEntries : Z) (cTmp0 : buffer)
    (tagOffset tagSize : Z) (r0 r1 r2 r3 t0 t1 t2 t3 : byte)
    (rest : list byte) :
  fs name = Some bytes ->
  locateVcgtTag bytes = inr (tagOffset, tagSize) ->
  skipn (Z.to_nat tagOffset) bytes
  = [x76; x63; x67; x74;  r0; r1; r2; r3;  t0; t1; t2; t3] ++ rest ->
  u32 (t0, t1, t2, t3) <> 0 ->
  u32 (t0, t1, t2, t3) <> 1 ->
  read_vcgt_from_profile pow fs (Some name) nEntries cTmp0 = Returned 0 None.
Proof.
  intros Hfs Hdir Htag H0 H1.
  pose proof (locate_vcgt_refines bytes cTmp0) as Hscan.
  rewrite Hdir in Hscan. destruct Hscan as [s Hscan]; [discriminate|].
  rewrite (read_vcgt_opened _ _ _ _ _ _ (opened_disk fs name bytes Hfs)), Hscan.
  pose proof (locate_vcgt_contents _ _ _ _ _ Hscan) as Hc.
  cbn [contents] in Hc. rewrite <- Hc in Htag.
  destruct (tag_type_fields tagOffset s _ _ _ _ _ _ _ _ _ Htag)
    as (Hsig & Htype & _).
  rewrite decode_vcgt_unfold, Hsig, Htype.
  change (negb (vcgt =? vcgt)) with false. cbv iota.
  apply Z.eqb_neq in H0. apply Z.eqb_neq in H1. rewrite H0, H1. reflexivity.
Qed.

Lemma unknown_gamma_type_witness :
  read_vcgt_from_profile Samples.pow
    (Samples.disk
       (Samples.header ++ Samples.directory x90
        ++ [x76; x63; x67; x74;  x00; x00; x00; x00;  x00; x00; x00; x02]))
    (Some "profile.icc"%string) 256 Samples.stack
  = Returned 0 None.
Proof.
  refine (unknown_gamma_type Samples.pow _ "profile.icc"%string _ 256
            Samples.stack
            144 30 x00 x00 x00 x00 x00 x00 x00 x02 [] eq_refl _ _ _ _).
  - vm_compute. reflexivity.
  - vm_compute. reflexivity.
  - vm_compute. discriminate.
  - vm_compute. discriminate.
Defined.

(** An entry size other than 1 and 2 matches no case of the switch: the
    loops read nothing and write nothing. *)
Lemma read_channel_other_size (entrySize : Z) (count : nat) (s : locals) :
  entrySize <> 1 -> entrySize <> 2 ->
  read_channel entrySize count s = (s, repeat None count).
Proof.
  intros H1 H2. induction count as [|count IH]; [reflexivity|].
  cbn [read_channel repeat]. unfold read_sample.
  apply Z.eqb_neq in H1. apply Z.eqb_neq in H2. rewrite H1, H2.
  fold (read_sample entrySize). rewrite IH. reflexivity.
Qed.

(** X3. A table of three channels whose entry size is neither 1 nor 2 is
    not refused: no sample byte is read, and for a ramp of the table's
    size the function returns 0 with the ramp pointers set to three arrays
    that nobody wrote. *)
Theorem other_entry_size_gives_unwritten_ramp
    (pow : double -> double -> double) (fs : filesystem)
    (name : string) (bytes : list byte) (cTmp0 : buffer)
    (tagOffset tagSize : Z) (r0 r1 r2 r3 e0 e1 z0 z1 : byte)
    (rest : list byte) :
  fs name = Some bytes ->
  locateVcgtTag bytes = inr (tagOffset, tagSize) ->
  skipn (Z.to_nat tagOffset) bytes
  = [x76; x63; x67; x74;  r0; r1; r2; r3;  x00; x00; x00; x00]
    ++ [x00; x03; e0; e1; z0; z1] ++ rest ->
  val z1 + val z0 * 256 <> 1 ->
  val z1 + val z0 * 256 <> 2 ->
  let numEntries := val e1 + val e0 * 256 in
  read_vcgt_from_profile pow fs (Some name) numEntries cTmp0
  = Returned 0 (Some (TableRamps (repeat None (Z.to_nat numEntries))
                                 (repeat None (Z.to_nat numEntries))
                                 (repeat None (Z.to_nat numEntries)))).
Proof.
  intros Hfs Hdir Htag H1 H2 numEntries.
  pose proof (locate_vcgt_refines bytes cTmp0) as Hscan.
  rewrite Hdir in Hscan. destruct Hscan as [s Hscan]; [discriminate|].
  rewrite (read_vcgt_opened _ _ _ _ _ _ (opened_disk fs name bytes Hfs)), Hscan.
  pose proof (locate_vcgt_contents _ _ _ _ _ Hscan) as Hc.
  cbn [contents] in Hc. rewrite <- Hc in Htag.
  destruct (tag_type_fields tagOffset s _ _ _ _ _ _ _ _ _ Htag)
    as (Hsig & Htype & Hct & Hrest).
  rewrite decode_vcgt_unfold, Hsig, Htype.
  change (negb (vcgt =? vcgt)) with false.
  change (u32 (x00, x00, x00, x00) =? 1) with false.
  change (u32 (x00, x00, x00, x00) =? 0) with true. cbv iota.
  rewrite <- Hct in Hrest.
  destruct (decode_table_header numEntries (after_type tagOffset s)
              _ _ _ _ _ _ _ Hrest) as (t3 & _ & _ & ->).
  change (val x03 + val x00 * 256 =? 3) with true.
  cbv beta iota zeta. cbn [negb]. fold numEntries.
  rewrite !read_channel_other_size by assumption.
  unfold evaluate_table. rewrite Z.eqb_refl. reflexivity.
Qed.

Lemma other_entry_size_witness :
  read_vcgt_from_profile Samples.pow
    (Samples.disk
       (Samples.header ++ Samples.directory x90
        ++ Samples.table_tag x03 x02 x04 [x00; x00; x00; x01]))
    (Some "profile.icc"%string) 2 Samples.stack
  = Returned 0 (Some (TableRamps [None; None] [None; None] [None; None])).
Proof.
  refine (other_entry_size_gives_unwritten_ramp Samples.pow _
            "profile.icc"%string _
            Samples.stack 144 30 x00 x00 x00 x00 x00 x02 x00 x04
            [x00; x00; x00; x01] eq_refl _ _ _ _).
  - vm_compute. reflexivity.
  - vm_compute. reflexivity.
  - vm_compute. discriminate.
  - vm_compute. discriminate.
Defined.

(** X4. A profile whose vcgt tag is a formula, all nine words in the file:
    what the function does is what [evaluate_formula] does with the ramp
    size and the three gammas, each the [float] of its word (the first,
    fourth and seventh, big-endian) over 65536. It returns 0 with the three
    ramps when every entry fits its cell, and has no defined result
    otherwise; the six words of minima and maxima and the size the directory
    declares have no part in either. *)
Theorem formula_profile
    (pow : double -> double -> double) (fs : filesystem) (name : string)
    (bytes : list byte) (nEntries : Z) (cTmp0 : buffer)
    (tagOffset tagSize : Z) (r0 r1 r2 r3 : byte)
    (rGamma rMin rMax gGamma gMin gMax bGamma bMin bMax : buffer)
    (rest : list byte) :
  fs name = Some bytes ->
  locateVcgtTag bytes = inr (tagOffset, tagSize) ->
  skipn (Z.to_nat tagOffset) bytes
  = [x76; x63; x67; x74;  r0; r1; r2; r3;  x00; x00; x00; x01]
    ++ word_bytes rGamma ++ word_bytes rMin ++ word_bytes rMax
    ++ word_bytes gGamma ++ word_bytes gMin ++ word_bytes gMax
    ++ word_bytes bGamma ++ word_bytes bMin ++ word_bytes bMax ++ rest ->
  read_vcgt_from_profile pow fs (Some name) nEntries cTmp0
  = match evaluate_formula pow nEntries (gamma_of (u32 rGamma))
            (gamma_of (u32 gGamma)) (gamma_of (u32 bGamma)) with
    | Ok (r, g, b) => Returned 0 (Some (FormulaRamps r g b))
    | UB u => Undefined u
    end.
Proof.
  intros Hfs Hdir Htag.
  pose proof (locate_vcgt_refines bytes cTmp0) as Hscan.
  rewrite Hdir in Hscan. destruct Hscan as [s Hscan]; [discriminate|].
  rewrite (read_vcgt_opened _ _ _ _ _ _ (opened_disk fs name bytes Hfs)), Hscan.
  pose proof (locate_vcgt_contents _ _ _ _ _ Hscan) as Hc.
  cbn [contents] in Hc. rewrite <- Hc in Htag.
  exact (decode_vcgt_formula pow tagOffset nEntries s _ _ _ _
           _ _ _ _ _ _ _ _ _ _ Htag).
Qed.

Lemma formula_profile_witness :
  read_vcgt_from_profile Samples.pow (Samples.disk Samples.formula_tag)
    (Some "profile.icc"%string) 1 Samples.stack
  = Returned 0 (Some (FormulaRamps [Some 0] [Some 0] [Some 0])).
Proof.
  refine (formula_profile Samples.pow (Samples.disk Samples.formula_tag)
            "profile.icc"%string Samples.formula_tag 1 Samples.stack
            144 30 x00 x00 x00 x00
            (x00, x01, x00, x00) (x00, x00, x00, x00) (x00, x01, x00, x00)
            (x00, x01, x00, x00) (x00, x00, x00, x00) (x00, x01, x00, x00)
            (x00, x01, x00, x00) (x00, x00, x00, x00) (x00, x01, x00, x00)
            [] eq_refl _ _).
  - vm_compute. reflexivity.
  - vm_compute. reflexivity.
Defined.

(** ** The size of the ramps *)

Lemma copy_loop_length (index : Z -> Z) (red green blue : list cell)
    (count : nat) : forall (j : Z) (r g b : list cell),
  copy_loop index red green blue j count = Ok (r, g, b) ->
  length r = count /\ length g = count /\ length b = count.
Proof.
  induction count as [|count IH]; intros j r g b H; cbn [copy_loop] in H.
  - injection H as <- <- <-. repeat split.
  - destruct (load red (index j)) as [cr|]; [|discriminate].
    destruct (load green (index j)) as [cg|]; [|discriminate].
    destruct (load blue (index j)) as [cb|]; [|discriminate].
    cbn [bind] in H.
    destruct (copy_loop index red green blue (j + 1) count)
      as [[[rs gs] bs]|] eqn:E; [|discriminate].
    cbn [bind] in H. injection H as <- <- <-.
    destruct (IH _ _ _ _ E) as (Hr & Hg & Hb).
    cbn [length]. repeat split; congruence.
Qed.

Lemma evaluate_table_length (nEntries numEntries : Z)
    (red green blue r g b : list cell) :
  0 <= nEntries ->
  Z.of_nat (length red) = numEntries ->
  Z.of_nat (length green) = numEntries ->
  Z.of_nat (length blue) = numEntries ->
  evaluate_table nEntries numEntries red green blue = Ok (r, g, b) ->
  Z.of_nat (length r) = nEntries
  /\ Z.of_nat (length g) = nEntries
  /\ Z.of_nat (length b) = nEntries.
Proof.
  intros Hn Hr Hg Hb. unfold evaluate_table.
  destruct (nEntries =? numEntries) eqn:E.
  - apply Z.eqb_eq in E. intros H. injection H as <- <- <-. lia.
  - destruct (nEntries <? numEntries).
    + destruct (nEntries =? 0); [discriminate|].
      intros H. apply copy_loop_length in H. lia.
    + destruct (numEntries =? 0); [discriminate|].
      intros H. apply copy_loop_length in H. lia.
Qed.

Lemma formula_loop_length (pow : double -> double -> double)
    (nEntries : Z) (rGamma gGamma bGamma : float) (count : nat) :
  forall (j : Z) (r g b : list cell),
  formula_loop pow nEntries rGamma gGamma bGamma j count = Ok (r, g, b) ->
  length r = count /\ length g = count /\ length b = count.
Proof.
  induction count as [|count IH]; intros j r g b H; cbn [formula_loop] in H.
  - injection H as <- <- <-. repeat split.
  - destruct (formula_entry pow nEntries rGamma j); [|discriminate].
    destruct (formula_entry pow nEntries gGamma j); [|discriminate].
    destruct (formula_entry pow nEntries bGamma j); [|discriminate].
    cbn [bind] in H.
    destruct (formula_loop pow nEntries rGamma gGamma bGamma (j + 1) count)
      as [[[rs gs] bs]|] eqn:E; [|discriminate].
    cbn [bind] in H. injection H as <- <- <-.
    destruct (IH _ _ _ _ E) as (Hr & Hg & Hb).
    cbn [length]. repeat split; congruence.
Qed.

(** The ramps that [decode_vcgt] writes. *)
Lemma decode_vcgt_ramp_size
    (pow : double -> double -> double) (tagOffset nEntries : Z) (s : locals)
    (rv : Z) (out : ramps) :
  0 <= nEntries ->
  decode_vcgt pow tagOffset nEntries s = Returned rv (Some out) ->
  match out with
  | TableRamps r g b | FormulaRamps r g b =>
      Z.of_nat (length r) = nEntries
      /\ Z.of_nat (length g) = nEntries
      /\ Z.of_nat (length b) = nEntries
  end.
Proof.
  intros Hn. rewrite decode_vcgt_unfold.
  destruct (negb _); [discriminate|].
  destruct (gammaType_read tagOffset s =? 1).
  { unfold decode_formula.
    destruct (evaluate_formula _ _ _ _ _) as [[[r g] b]|u] eqn:E;
      [|discriminate].
    intros H. injection H as _ <-.
    apply formula_loop_length in E. lia. }
  destruct (gammaType_read tagOffset s =? 0); [|discriminate].
  unfold decode_table.
  destruct (negb _); [discriminate|].
  set (numEntries :=
         u16 (cTmp (fread_cTmp 2 (fread_cTmp 2 (after_type tagOffset s))))).
  set (count := Z.to_nat numEntries).
  assert (Hcount : Z.of_nat count = numEntries).
  { unfold count. pose proof (u16_range
      (cTmp (fread_cTmp 2 (fread_cTmp 2 (after_type tagOffset s))))) as Hu.
    fold numEntries in Hu. lia. }
  match goal with |- context [read_channel ?e count ?t] =>
    pose proof (read_channel_length e count t) as L1;
    destruct (read_channel e count t) as [s4 redRamp] end.
  match goal with |- context [read_channel ?e count ?t] =>
    pose proof (read_channel_length e count t) as L2;
    destruct (read_channel e count t) as [s5 greenRamp] end.
  match goal with |- context [read_channel ?e count ?t] =>
    pose proof (read_channel_length e count t) as L3;
    destruct (read_channel e count t) as [s6 blueRamp] end.
  cbn [snd] in L1, L2, L3.
  destruct (evaluate_table nEntries numEntries redRamp greenRamp blueRamp)
    as [[[r g] b]|u] eqn:E; [|discriminate].
  intros H. injection H as _ <-.
  apply (evaluate_table_length nEntries numEntries redRamp greenRamp
           blueRamp); try assumption; lia.
Qed.

(** X5. Whenever [read_vcgt_from_profile] writes the ramp pointers, each of
    the three ramps has exactly [*nEntries] entries, whatever the profile
    holds. *)
Theorem written_ramps_have_the_ramp_size
    (pow : double -> double -> double) (fs : filesystem)
    (filename : option string) (nEntries : Z) (cTmp0 : buffer)
    (rv : Z) (out : ramps) :
  0 <= nEntries ->
  read_vcgt_from_profile pow fs filename nEntries cTmp0
  = Returned rv (Some out) ->
  match out with
  | TableRamps r g b | FormulaRamps r g b =>
      Z.of_nat (length r) = nEntries
      /\ Z.of_nat (length g) = nEntries
      /\ Z.of_nat (length b) = nEntries
  end.
Proof.
  intros Hn.
  destruct (opened fs filename) as [f|] eqn:Hopen.
  - rewrite (read_vcgt_opened _ _ _ _ _ _ Hopen).
    destruct (locate_vcgt f cTmp0) as [tagOffset tagSize s|s|s|];
      try discriminate.
    apply decode_vcgt_ramp_size. exact Hn.
  - rewrite (read_vcgt_not_opened _ _ _ _ _ Hopen). discriminate.
Qed.

Lemma written_ramps_witness :
  Z.of_nat (length [Some 1; Some 1; Some 2; Some 2]) = 4
  /\ Z.of_nat (length [Some 3; Some 3; Some 4; Some 4]) = 4
  /\ Z.of_nat (length [Some 5; Some 5; Some 6; Some 6]) = 4.
Proof.
  refine (written_ramps_have_the_ramp_size Samples.pow
            (Samples.disk Samples.two_by_16)
            Samples.name 4 Samples.stack 0
            (TableRamps [Some 1; Some 1; Some 2; Some 2]
                        [Some 3; Some 3; Some 4; Some 4]
                        [Some 5; Some 5; Some 6; Some 6]) _ _).
  - lia.
  - vm_compute. reflexivity.
Defined.

(** ** The command line *)

Section CommandLineFacts.

Import CommandLine.

Variable atoi : string -> Z.

Lemma last_cons_cons {A : Type} (a b : A) (l : list A) (d : A) :
  last (a :: b :: l) d = last (b :: l) d.
Proof. reflexivity. Qed.

(** What the loop knows when it has copied a name. *)
Lemma parse_loop_in_name (n : nat) :
  forall (args : list string) (o o' : options) (name : string),
  (length args <= n)%nat ->
  in_name o = None ->
  parse_loop atoi o args = Parsed o' ->
  in_name o' = Some name ->
  clear o' = false
  /\ last args ""%string = name
  /\ (String.length name < 256)%nat
  /\ is_option name = false.
Proof.
  induction n as [|n IH]; intros args o o' name Hlen Hnone Hparse Hname.
  - destruct args; [|cbn [length] in Hlen; lia].
    cbn [parse_loop] in Hparse. injection Hparse as <-. congruence.
  - destruct args as [|arg rest].
    { cbn [parse_loop] in Hparse. injection Hparse as <-. congruence. }
    cbn [length] in Hlen.
    assert (Hrest : forall o1, in_name o1 = None ->
              parse_loop atoi o1 rest = Parsed o' ->
              clear o' = false /\ last (arg :: rest) ""%string = name
              /\ (String.length name < 256)%nat /\ is_option name = false).
    { intros o1 H1 Hp. destruct rest as [|b rest'].
      - cbn [parse_loop] in Hp. injection Hp as <-. congruence.
      - rewrite last_cons_cons. apply (IH (b :: rest') o1 o' name); auto. lia. }
    assert (Hskip : forall o1, in_name o1 = None ->
              match rest with
              | [] => usage
              | _ :: rest' => parse_loop atoi o1 rest'
              end = Parsed o' ->
              clear o' = false /\ last (arg :: rest) ""%string = name
              /\ (String.length name < 256)%nat /\ is_option name = false).
    { intros o1 H1 Hp. destruct rest as [|b [|c rest']].
      - discriminate Hp.
      - cbn [parse_loop] in Hp. injection Hp as <-. congruence.
      - rewrite !last_cons_cons.
        apply (IH (c :: rest') o1 o' name); auto. cbn [length] in *. lia. }
    cbn [parse_loop] in Hparse. unfold is_option.
    destruct (either arg "-h" "-help") eqn:E1; [discriminate|].
    destruct (either arg "-v" "-verbose") eqn:E2;
      [eapply Hrest; [|exact Hparse]; exact Hnone|].
    destruct (String.eqb arg "-version") eqn:E3; [discriminate|].
    destruct (either arg "-d" "-display") eqn:E4.
    { apply (Hskip (mkOptions (verbose o) (Some
               match rest with [] => arg | v :: _ => v end)
               (screen o) (clear o) (donothing o) (in_name o)) Hnone).
      destruct rest; [exact Hparse|exact Hparse]. }
    destruct (either arg "-s" "-screen") eqn:E5.
    { apply (Hskip (mkOptions (verbose o) (displayname o)
               (atoi match rest with [] => arg | v :: _ => v end)
               (clear o) (donothing o) (in_name o)) Hnone).
      destruct rest; [exact Hparse|exact Hparse]. }
    destruct (either arg "-c" "-clear") eqn:E6;
      [eapply Hrest; [|exact Hparse]; exact Hnone|].
    destruct (either arg "-n" "-noaction") eqn:E7;
      [eapply Hrest; [|exact Hparse]; exact Hnone|].
    destruct (clear o) eqn:Hclear.
    + rewrite andb_false_r in Hparse. cbn [negb] in Hparse.
      eapply Hrest; [|exact Hparse]; exact Hnone.
    + destruct rest as [|b rest']; cbn [negb andb] in Hparse;
        [|discriminate].
      destruct (String.length arg <? 256)%nat eqn:Hfit; [|discriminate].
      cbn [parse_loop] in Hparse. injection Hparse as <-.
      cbn [in_name clear] in *. injection Hname as <-.
      apply Nat.ltb_lt in Hfit.
      rewrite E1, E2, E3, E4, E5, E6, E7. auto.
Qed.

(** X6. When the command line is accepted and a profile name was copied,
    that name is the last argument, it is none of the option strings, it is
    shorter than the 256 bytes of [in_name], and -clear was not given:
    a run never has both a profile name and [clear]. *)
Theorem profile_name_is_last_argument (argv : list string)
    (o : options) (name : string) :
  parse_args atoi argv = Parsed o ->
  in_name o = Some name ->
  clear o = false
  /\ last argv ""%string = name
  /\ (String.length name < 256)%nat
  /\ is_option name = false.
Proof.
  unfold parse_args. intros Hparse Hname.
  destruct (length argv <? 2)%nat eqn:Hargc; [discriminate|].
  apply Nat.ltb_ge in Hargc.
  destruct argv as [|prog [|a rest]]; try (cbn [length] in Hargc; lia).
  cbn [tl] in Hparse. rewrite last_cons_cons.
  exact (parse_loop_in_name (length (a :: rest)) (a :: rest) initial o name
           (Nat.le_refl _) eq_refl Hparse Hname).
Qed.

(** How the loop can end the process. *)
Lemma parse_loop_exit (n : nat) :
  forall (args : list string) (o : options) (status : Z) (out : list string),
  (length args <= n)%nat ->
  parse_loop atoi o args = ArgsExit status out ->
  (status = 1 /\ out = usage_text)
  \/ (status = 0 /\ out = ["xcalib 0.3"%string]
      /\ In "-version"%string args).
Proof.
  induction n as [|n IH]; intros args o status out Hlen Hparse.
  - destruct args; [discriminate|cbn [length] in Hlen; lia].
  - destruct args as [|arg rest]; [discriminate|].
    cbn [length] in Hlen.
    assert (Hrest : forall o1,
              parse_loop atoi o1 rest = ArgsExit status out ->
              (status = 1 /\ out = usage_text)
              \/ (status = 0 /\ out = ["xcalib 0.3"%string]
                  /\ In "-version"%string (arg :: rest))).
    { intros o1 Hp.
      destruct (IH rest o1 status out) as [H|(H1 & H2 & H3)];
        [lia|exact Hp|left; exact H|].
      right. repeat split; auto. right. exact H3. }
    assert (Hskip : forall o1,
              match rest with
              | [] => usage
              | _ :: rest' => parse_loop atoi o1 rest'
              end = ArgsExit status out ->
              (status = 1 /\ out = usage_text)
              \/ (status = 0 /\ out = ["xcalib 0.3"%string]
                  /\ In "-version"%string (arg :: rest))).
    { intros o1 Hp. destruct rest as [|b rest'].
      - injection Hp as <- <-. left. split; reflexivity.
      - destruct (IH rest' o1 status out) as [H|(H1 & H2 & H3)];
          [cbn [length] in Hlen; lia|exact Hp|left; exact H|].
        right. repeat split; auto. right. right. exact H3. }
    cbn [parse_loop] in Hparse.
    destruct (either arg "-h" "-help");
      [injection Hparse as <- <-; left; split; reflexivity|].
    destruct (either arg "-v" "-verbose"); [exact (Hrest _ Hparse)|].
    destruct (String.eqb arg "-version") eqn:E3.
    { injection Hparse as <- <-. right. repeat split.
      left. apply String.eqb_eq in E3. congruence. }
    destruct (either arg "-d" "-display").
    { apply (Hskip (mkOptions (verbose o) (Some
               match rest with [] => arg | v :: _ => v end)
               (screen o) (clear o) (donothing o) (in_name o))).
      destruct rest; exact Hparse. }
    destruct (either arg "-s" "-screen").
    { apply (Hskip (mkOptions (verbose o) (displayname o)
               (atoi match rest with [] => arg | v :: _ => v end)
               (clear o) (donothing o) (in_name o))).
      destruct rest; exact Hparse. }
    destruct (either arg "-c" "-clear"); [exact (Hrest _ Hparse)|].
    destruct (either arg "-n" "-noaction"); [exact (Hrest _ Hparse)|].
    destruct (negb _ && negb (clear o));
      [injection Hparse as <- <-; left; split; reflexivity|].
    destruct (negb (clear o)); [|exact (Hrest _ Hparse)].
    destruct (String.length arg <? 256)%nat; [|discriminate].
    exact (Hrest _ Hparse).
Qed.

(** X7. Whenever the command line makes the program exit, it has printed
    the usage text and exits with status 1, or it was given -version, has
    printed "xcalib 0.3" and exits with status 0. In particular -h and
    -help exit with status 1: the [exit (0)] after [usage ()] is never
    reached. *)
Theorem exit_status_of_the_command_line (argv : list string)
    (status : Z) (out : list string) :
  parse_args atoi argv = ArgsExit status out ->
  (status = 1 /\ out = usage_text)
  \/ (status = 0 /\ out = ["xcalib 0.3"%string]
      /\ In "-version"%string argv).
Proof.
  unfold parse_args. intros Hparse.
  destruct (length argv <? 2)%nat.
  - injection Hparse as <- <-. left. split; reflexivity.
  - destruct (parse_loop_exit (length (tl argv)) (tl argv) initial status out
                (Nat.le_refl _) Hparse) as [H|(H1 & H2 & H3)];
      [left; exact H|].
    right. repeat split; auto.
    destruct argv as [|prog rest]; [destruct H3|right; exact H3].
Qed.

Lemma plain_flag_cases (arg : string) :
  is_plain_flag arg = true ->
  arg = "-v"%string \/ arg = "-verbose"%string
  \/ arg = "-n"%string \/ arg = "-noaction"%string.
Proof.
  unfold is_plain_flag, either. intros H.
  destruct (String.eqb arg "-v") eqn:E1;
    [apply String.eqb_eq in E1; auto|].
  destruct (String.eqb arg "-verbose") eqn:E2;
    [apply String.eqb_eq in E2; auto|].
  destruct (String.eqb arg "-n") eqn:E3;
    [apply String.eqb_eq in E3; auto|].
  destruct (String.eqb arg "-noaction") eqn:E4;
    [apply String.eqb_eq in E4; auto|].
  discriminate H.
Qed.

(** Flags that stand alone set their own field and nothing else. *)
Lemma parse_loop_flags (flags : list string) :
  forall (o : options) (rest : list string),
  Forall (fun a => is_plain_flag a = true) flags ->
  parse_loop atoi o (flags ++ rest)
  = parse_loop atoi
      (mkOptions
         (verbose o || existsb (fun a => either a "-v" "-verbose") flags)
         (displayname o) (screen o) (clear o)
         (donothing o || existsb (fun a => either a "-n" "-noaction") flags)
         (in_name o)) rest.
Proof.
  induction flags as [|flag flags IH]; intros o rest Hflags.
  - cbn [app existsb]. rewrite !orb_false_r. destruct o. reflexivity.
  - inversion Hflags as [|? ? Hflag Hrest]; subst.
    destruct (plain_flag_cases flag Hflag) as [-> | [-> | [-> | ->]]];
      cbn [app]; cbn; rewrite (IH _ rest Hrest); cbn;
      rewrite ?orb_true_r; reflexivity.
Qed.

(** A last argument that is no option and fits [in_name] is copied. *)
Lemma parse_loop_name (o : options) (name : string) :
  is_option name = false ->
  (String.length name < 256)%nat ->
  clear o = false ->
  parse_loop atoi o [name]
  = Parsed (mkOptions (verbose o) (displayname o) (screen o) (clear o)
                      (donothing o) (Some name)).
Proof.
  unfold is_option. intros Hopt Hfit Hclear.
  do 6 (apply orb_false_iff in Hopt; destruct Hopt as [Hopt ?]).
  cbn [parse_loop].
  repeat match goal with H : _ = false |- _ => rewrite H; clear H end.
  cbn [negb andb].
  apply Nat.ltb_lt in Hfit. rewrite Hfit. reflexivity.
Qed.

(** The command line [xcalib -d DISPLAY flags... PROFILE]. *)
Lemma parse_profile_command (prog display name : string)
    (flags : list string) :
  Forall (fun a => is_plain_flag a = true) flags ->
  is_option name = false ->
  (String.length name < 256)%nat ->
  parse_args atoi (prog :: "-d"%string :: display :: flags ++ [name])
  = Parsed (mkOptions
              (existsb (fun a => either a "-v" "-verbose") flags)
              (Some display) (-1) false
              (existsb (fun a => either a "-n" "-noaction") flags)
              (Some name)).
Proof.
  intros Hflags Hopt Hfit.
  unfold parse_args. cbn [length Nat.ltb Nat.leb tl].
  cbn [parse_loop]. change (either "-d" "-h" "-help") with false.
  change (either "-d" "-v" "-verbose") with false.
  change (String.eqb "-d" "-version") with false.
  change (either "-d" "-d" "-display") with true. cbv iota.
  rewrite (parse_loop_flags flags _ [name] Hflags).
  rewrite parse_loop_name by (assumption || reflexivity).
  reflexivity.
Qed.

(** The command line [xcalib -d DISPLAY flags...], without a profile. *)
Lemma parse_flags_command (prog display : string) (flags : list string) :
  Forall (fun a => is_plain_flag a = true) flags ->
  parse_args atoi (prog :: "-d"%string :: display :: flags)
  = Parsed (mkOptions
              (existsb (fun a => either a "-v" "-verbose") flags)
              (Some display) (-1) false
              (existsb (fun a => either a "-n" "-noaction") flags)
              None).
Proof.
  intros Hflags.
  unfold parse_args. cbn [length Nat.ltb Nat.leb tl].
  cbn [parse_loop]. change (either "-d" "-h" "-help") with false.
  change (either "-d" "-v" "-verbose") with false.
  change (String.eqb "-d" "-version") with false.
  change (either "-d" "-d" "-display") with true. cbv iota.
  rewrite <- (app_nil_r flags) at 1.
  rewrite (parse_loop_flags flags _ [] Hflags). reflexivity.
Qed.

End CommandLineFacts.

Lemma profile_name_witness :
  false = false
  /\ last ["xcalib"; "-d"; ":0"; "-v"; "gamma_1_0.icc"]%string ""%string
     = "gamma_1_0.icc"%string
  /\ (String.length "gamma_1_0.icc" < 256)%nat
  /\ CommandLine.is_option "gamma_1_0.icc" = false.
Proof.
  refine (profile_name_is_last_argument MainSamples.atoi
            ["xcalib"; "-d"; ":0"; "-v"; "gamma_1_0.icc"]%string
            (CommandLine.mkOptions true (Some ":0"%string) (-1) false false
               (Some "gamma_1_0.icc"%string))
            "gamma_1_0.icc"%string _ _).
  - vm_compute. reflexivity.
  - reflexivity.
Defined.

Lemma exit_status_witness :
  (1 = 1 /\ CommandLine.usage_text = CommandLine.usage_text)
  \/ (1 = 0 /\ CommandLine.usage_text = ["xcalib 0.3"%string]
      /\ In "-version"%string ["xcalib"; "-v"; "-help"; "p.icc"]%string).
Proof.
  refine (exit_status_of_the_command_line MainSamples.atoi
            ["xcalib"; "-v"; "-help"; "p.icc"]%string 1
            CommandLine.usage_text _).
  vm_compute. reflexivity.
Defined.

(** ** [main] with the internal parser *)

Section MainFacts.

Import CommandLine Main.

Variable pow : double -> double -> double.
Variable atoi : string -> Z.
Variable fs : filesystem.
Variable X : xserver.
Variable cTmp0 : buffer.

(** X8. [main] does not look at what [read_vcgt_from_profile] returns.
    For [xcalib -d DISPLAY [-v|-n ...] PROFILE] on a display with a ramp
    that is not empty: when the parser comes back without having written
    the ramp pointers (the file cannot be opened, there is no vcgt tag, the
    table has not three channels, ...) no error is reported; [main] goes on
    to read [r_ramp[0]] through a pointer that was never set. *)
Theorem unusable_profile_leaves_ramp_pointers_unset
    (prog display name : string) (flags : list string)
    (ramp_size rv : Z) :
  Forall (fun a => is_plain_flag a = true) flags ->
  is_option name = false ->
  (String.length name < 256)%nat ->
  XOpenDisplay X display = true ->
  XF86VidModeGetGammaRampSize X (DefaultScreen X) = Some ramp_size ->
  0 < ramp_size ->
  read_vcgt_from_profile pow fs (Some name) ramp_size cTmp0
  = Returned rv None ->
  main pow atoi fs X cTmp0 (prog :: "-d"%string :: display :: flags ++ [name])
  = NoResult (Uninitialised "r_ramp") [].
Proof.
  intros Hflags Hopt Hfit Hopen Hsize Hpos Hread.
  unfold main. rewrite (parse_profile_command atoi) by assumption.
  unfold calibrate. cbn [displayname screen clear in_name].
  rewrite Hopen. cbn [negb]. change (-1 =? -1) with true. cbv iota.
  rewrite Hsize, Hread. unfold upload.
  apply Z.ltb_lt in Hpos. rewrite Hpos. reflexivity.
Qed.

(** X9. For the same command line, when the parser has written the ramps:
    they are handed to the X server as they are, with the size the server
    announced, on its default screen; [main] returns 0 whether the server
    takes them or not (a refusal is a warning), and with -n or -noaction
    the server is not asked to change anything. [main] never reads behind
    the ramps. *)
Theorem decoded_ramps_reach_the_server
    (prog display name : string) (flags : list string)
    (ramp_size rv : Z) (r : ramps) :
  Forall (fun a => is_plain_flag a = true) flags ->
  is_option name = false ->
  (String.length name < 256)%nat ->
  XOpenDisplay X display = true ->
  XF86VidModeGetGammaRampSize X (DefaultScreen X) = Some ramp_size ->
  0 <= ramp_size ->
  read_vcgt_from_profile pow fs (Some name) ramp_size cTmp0
  = Returned rv (Some r) ->
  main pow atoi fs X cTmp0 (prog :: "-d"%string :: display :: flags ++ [name])
  = Finished 0
      (if existsb (fun a => either a "-n" "-noaction") flags then
         [CloseDisplay]
       else if XF86VidModeSetGammaRamp X (DefaultScreen X) ramp_size then
         [SetGammaRamp (DefaultScreen X) ramp_size r; CloseDisplay]
       else
         [SetGammaRamp (DefaultScreen X) ramp_size r;
          Warning "Unable to calibrate display"; CloseDisplay]).
Proof.
  intros Hflags Hopt Hfit Hopen Hsize Hpos Hread.
  unfold main. rewrite (parse_profile_command atoi) by assumption.
  unfold calibrate. cbn [displayname screen clear in_name].
  rewrite Hopen. cbn [negb]. change (-1 =? -1) with true. cbv iota.
  rewrite Hsize, Hread. unfold upload.
  assert (Hholds : holds r ramp_size = true).
  { assert (Hlen : match r with
                   | TableRamps red green blue
                   | FormulaRamps red green blue =>
                       Z.of_nat (length red) = ramp_size
                       /\ Z.of_nat (length green) = ramp_size
                       /\ Z.of_nat (length blue) = ramp_size
                   end).
    { destruct (opened fs (Some name)) as [f|] eqn:Hf.
      - rewrite (read_vcgt_opened _ _ _ _ _ _ Hf) in Hread.
        destruct (locate_vcgt f cTmp0) as [tagOffset tagSize s|s|s|];
          try discriminate Hread.
        exact (decode_vcgt_ramp_size pow tagOffset ramp_size s rv r Hpos Hread).
      - rewrite (read_vcgt_not_opened _ _ _ _ _ Hf) in Hread.
        discriminate Hread. }
    unfold holds. destruct r as [red green blue|red green blue];
      destruct Hlen as (-> & -> & ->); rewrite Z.leb_refl; reflexivity. }
  rewrite Hholds. cbn [negb donothing].
  destruct (existsb _ flags); [reflexivity|].
  destruct (XF86VidModeSetGammaRamp X (DefaultScreen X) ramp_size);
    reflexivity.
Qed.

(** X10. With -c or -clear accepted, [main] resets the gamma of the
    display to 1.0 and is done: the profile is never opened (the result
    does not depend on the file system), no ramp is uploaded, and -n does
    not keep the reset from happening. *)
Theorem clear_resets_and_reads_no_profile (argv : list string)
    (o : options) (display : string) :
  parse_args atoi argv = Parsed o ->
  clear o = true ->
  displayname o = Some display ->
  XOpenDisplay X display = true ->
  let screen := if screen o =? -1 then DefaultScreen X else screen o in
  in_name o = None
  /\ main pow atoi fs X cTmp0 argv
     = if XF86VidModeSetGamma X screen then
         Finished 0 [SetGamma screen; CloseDisplay]
       else
         Aborted (-1) [SetGamma screen; CloseDisplay;
                       Error "Unable to reset display gamma"].
Proof.
  intros Hparse Hclear Hdisplay Hopen screen. split.
  - destruct (in_name o) as [name|] eqn:Hname; [|reflexivity].
    unfold parse_args in Hparse.
    destruct (length argv <? 2)%nat; [discriminate|].
    destruct (parse_loop_in_name atoi (length (tl argv)) (tl argv) initial
                o name (Nat.le_refl _) eq_refl Hparse Hname) as [Hc _].
    congruence.
  - unfold main. rewrite Hparse. unfold calibrate.
    rewrite Hdisplay, Hopen, Hclear. reflexivity.
Qed.

(** X11. [xcalib -d DISPLAY [-v|-n ...]] without a profile is accepted by
    the command line: no usage text, no exit. On a display that opens and
    answers the ramp size, [main] then calls the parser with the buffer
    [in_name], which nothing has written. *)
Theorem missing_profile_name_is_not_noticed (prog display : string)
    (flags : list string) (ramp_size : Z) :
  Forall (fun a => is_plain_flag a = true) flags ->
  XOpenDisplay X display = true ->
  XF86VidModeGetGammaRampSize X (DefaultScreen X) = Some ramp_size ->
  (exists o, parse_args atoi (prog :: "-d"%string :: display :: flags)
             = Parsed o /\ in_name o = None)
  /\ main pow atoi fs X cTmp0 (prog :: "-d"%string :: display :: flags)
     = NoResult (Uninitialised "in_name") [].
Proof.
  intros Hflags Hopen Hsize.
  pose proof (parse_flags_command atoi prog display flags Hflags) as Hparse.
  split; [eexists; split; [exact Hparse|reflexivity]|].
  unfold main. rewrite Hparse.
  unfold calibrate. cbn [displayname screen clear in_name].
  rewrite Hopen. cbn [negb]. change (-1 =? -1) with true. cbv iota.
  rewrite Hsize. reflexivity.
Qed.

(** The display name is assigned by -d and -display only. *)
Lemma parse_loop_displayname (n : nat) :
  forall (args : list string) (o o' : options),
  (length args <= n)%nat ->
  parse_loop atoi o args = Parsed o' ->
  ~ In "-d"%string args ->
  ~ In "-display"%string args ->
  displayname o' = displayname o.
Proof.
  induction n as [|n IH]; intros args o o' Hlen Hparse Hd Hdisplay.
  - destruct args; [|cbn [length] in Hlen; lia].
    cbn [parse_loop] in Hparse. injection Hparse as <-. reflexivity.
  - destruct args as [|arg rest].
    { cbn [parse_loop] in Hparse. injection Hparse as <-. reflexivity. }
    cbn [length] in Hlen.
    assert (Hrest : forall o1, displayname o1 = displayname o ->
              parse_loop atoi o1 rest = Parsed o' ->
              displayname o' = displayname o).
    { intros o1 H1 Hp. rewrite <- H1.
      apply (IH rest o1 o'); [lia|exact Hp| |];
        intros Hin; [apply Hd|apply Hdisplay]; right; exact Hin. }
    cbn [parse_loop] in Hparse.
    destruct (either arg "-h" "-help"); [discriminate|].
    destruct (either arg "-v" "-verbose");
      [eapply Hrest; [|exact Hparse]; reflexivity|].
    destruct (String.eqb arg "-version"); [discriminate|].
    destruct (either arg "-d" "-display") eqn:E4.
    { exfalso. unfold either in E4. apply orb_true_iff in E4.
      destruct E4 as [E|E]; apply String.eqb_eq in E; subst arg;
        [apply Hd|apply Hdisplay]; left; reflexivity. }
    destruct (either arg "-s" "-screen").
    { destruct rest as [|value rest']; [discriminate|].
      apply (IH rest' _ o') in Hparse;
        [exact Hparse|cbn [length] in Hlen; lia| |];
        intros Hin; [apply Hd|apply Hdisplay]; right; right; exact Hin. }
    destruct (either arg "-c" "-clear");
      [eapply Hrest; [|exact Hparse]; reflexivity|].
    destruct (either arg "-n" "-noaction");
      [eapply Hrest; [|exact Hparse]; reflexivity|].
    destruct (negb _ && negb (clear o)); [discriminate|].
    destruct (negb (clear o));
      [|eapply Hrest; [|exact Hparse]; reflexivity].
    destruct (String.length arg <? 256)%nat; [|discriminate].
    eapply Hrest; [|exact Hparse]; reflexivity.
Qed.

(** X12. [displayname] is declared without a value and assigned by -d and
    -display only. On every accepted command line that holds neither of
    the two, [main] hands [XOpenDisplay] a pointer that was never
    assigned. *)
Theorem display_name_is_set_by_option_only (argv : list string)
    (o : options) :
  parse_args atoi argv = Parsed o ->
  ~ In "-d"%string argv ->
  ~ In "-display"%string argv ->
  displayname o = None
  /\ main pow atoi fs X cTmp0 argv = NoResult (Uninitialised "displayname") [].
Proof.
  intros Hparse Hd Hdisplay.
  assert (Hnone : displayname o = None).
  { unfold parse_args in Hparse.
    destruct (length argv <? 2)%nat; [discriminate|].
    apply (parse_loop_displayname (length (tl argv)) (tl argv) initial o
             (Nat.le_refl _) Hparse);
      intros Hin; [apply Hd|apply Hdisplay];
      (destruct argv; [destruct Hin|right; exact Hin]). }
  split; [exact Hnone|].
  unfold main. rewrite Hparse. unfold calibrate. rewrite Hnone. reflexivity.
Qed.

End MainFacts.

Lemma unusable_profile_witness :
  Main.main Samples.pow MainSamples.atoi Samples.no_disk
    (MainSamples.server 256)
    Samples.stack ["xcalib"; "-d"; ":0"; "-v"; "missing.icc"]%string
  = Main.NoResult (Main.Uninitialised "r_ramp") [].
Proof.
  refine (unusable_profile_leaves_ramp_pointers_unset Samples.pow
            MainSamples.atoi
            Samples.no_disk (MainSamples.server 256) Samples.stack
            "xcalib" ":0" "missing.icc" ["-v"%string] 256 (-1)
            _ _ _ _ _ _ _).
  - repeat constructor.
  - reflexivity.
  - vm_compute. lia.
  - reflexivity.
  - reflexivity.
  - lia.
  - reflexivity.
Defined.

Lemma decoded_ramps_witness :
  Main.main Samples.pow MainSamples.atoi (Samples.disk Samples.two_by_16)
    (MainSamples.refusing_server 2) Samples.stack
    ["xcalib"; "-d"; ":0"; "-v"; "profile.icc"]%string
  = Main.Finished 0
      [Main.SetGammaRamp 0 2
         (TableRamps [Some 1; Some 2] [Some 3; Some 4] [Some 5; Some 6]);
       Main.Warning "Unable to calibrate display"; Main.CloseDisplay].
Proof.
  refine (decoded_ramps_reach_the_server Samples.pow MainSamples.atoi
            (Samples.disk Samples.two_by_16) (MainSamples.refusing_server 2)
            Samples.stack "xcalib" ":0" "profile.icc" ["-v"%string] 2 0
            (TableRamps [Some 1; Some 2] [Some 3; Some 4] [Some 5; Some 6])
            _ _ _ _ _ _ _).
  - repeat constructor.
  - reflexivity.
  - vm_compute. lia.
  - reflexivity.
  - reflexivity.
  - lia.
  - vm_compute. reflexivity.
Defined.

Lemma clear_witness :
  Main.main Samples.pow MainSamples.atoi Samples.no_disk
    (MainSamples.server 256)
    Samples.stack ["xcalib"; "-d"; ":0"; "-n"; "-c"; "ignored.icc"]%string
  = Main.Finished 0 [Main.SetGamma 0; Main.CloseDisplay].
Proof.
  exact (proj2 (clear_resets_and_reads_no_profile Samples.pow MainSamples.atoi
                  Samples.no_disk (MainSamples.server 256) Samples.stack
                  ["xcalib"; "-d"; ":0"; "-n"; "-c"; "ignored.icc"]%string
                  (CommandLine.mkOptions false (Some ":0"%string) (-1) true
                     true None)
                  ":0" eq_refl eq_refl eq_refl eq_refl)).
Defined.

Lemma missing_profile_name_witness :
  Main.main Samples.pow MainSamples.atoi (Samples.disk Samples.two_by_16)
    (MainSamples.server 256) Samples.stack
    ["xcalib"; "-d"; ":0"; "-v"]%string
  = Main.NoResult (Main.Uninitialised "in_name") [].
Proof.
  refine (proj2 (missing_profile_name_is_not_noticed Samples.pow
                   MainSamples.atoi
                   (Samples.disk Samples.two_by_16) (MainSamples.server 256)
                   Samples.stack "xcalib" ":0" ["-v"%string] 256 _ _ _)).
  - repeat constructor.
  - reflexivity.
  - reflexivity.
Defined.

Lemma display_name_witness :
  Main.main Samples.pow MainSamples.atoi (Samples.disk Samples.two_by_16)
    (MainSamples.server 2) Samples.stack ["xcalib"; "profile.icc"]%string
  = Main.NoResult (Main.Uninitialised "displayname") [].
Proof.
  refine (proj2 (display_name_is_set_by_option_only Samples.pow MainSamples.atoi
                   (Samples.disk Samples.two_by_16) (MainSamples.server 2)
                   Samples.stack ["xcalib"; "profile.icc"]%string
                   (CommandLine.mkOptions false None (-1) false false
                      (Some "profile.icc"%string)) _ _ _)).
  - reflexivity.
  - cbn [In]. intros [H|[H|H]]; [discriminate H|discriminate H|exact H].
  - cbn [In]. intros [H|[H|H]]; [discriminate H|discriminate H|exact H].
Defined.

(** ** The search for the magic number *)

Section MagicSearch.

Import Icclib.

Lemma byte_neqb (c x : byte) : c <> x -> Byte.eqb c x = false.
Proof.
  intros H. destruct (Byte.eqb c x) eqn:E; [|reflexivity].
  apply Byte.byte_dec_bl in E. contradiction.
Qed.

(** In state [fc] the last [fc] bytes read were the first [fc] bytes of the
    magic number; a hit is reported one byte behind a full copy of it. *)
Lemma search_loop_sound (input : list byte) :
  forall (fc offset offset' : Z),
  0 <= fc <= 3 ->
  search_loop fc offset input = (true, offset') ->
  exists pre post,
    firstn (Z.to_nat fc) magic ++ input = pre ++ magic ++ post
    /\ offset' = offset - fc + Z.of_nat (length pre) - 36.
Proof.
  induction input as [|c rest IH]; intros fc offset offset' Hfc H;
    [discriminate|].
  cbn [search_loop] in H.
  assert (Hcase : fc = 0 \/ fc = 1 \/ fc = 2 \/ fc = 3) by lia.
  destruct Hcase as [-> | [-> | [-> | ->]]]; cbn [Z.eqb Pos.eqb] in H.
  - destruct (Byte.eqb c x61) eqn:E.
    + apply Byte.byte_dec_bl in E. subst c.
      apply IH in H; [|lia]. destruct H as (pre & post & Hin & ->).
      exists pre, post. split; [exact Hin|lia].
    + apply IH in H; [|lia]. destruct H as (pre & post & Hin & ->).
      exists (c :: pre), post. cbn [firstn Z.to_nat app] in *.
      split; [rewrite Hin; reflexivity|cbn [length]; lia].
  - destruct (Byte.eqb c x63) eqn:E.
    + apply Byte.byte_dec_bl in E. subst c.
      apply IH in H; [|lia]. destruct H as (pre & post & Hin & ->).
      exists pre, post. split; [exact Hin|lia].
    + apply IH in H; [|lia]. destruct H as (pre & post & Hin & ->).
      exists (x61 :: c :: pre), post.
      change (firstn (Z.to_nat 0) magic ++ rest) with rest in Hin.
      split; [rewrite Hin; reflexivity|cbn [length]; lia].
  - destruct (Byte.eqb c x73) eqn:E.
    + apply Byte.byte_dec_bl in E. subst c.
      apply IH in H; [|lia]. destruct H as (pre & post & Hin & ->).
      exists pre, post. split; [exact Hin|lia].
    + apply IH in H; [|lia]. destruct H as (pre & post & Hin & ->).
      exists (x61 :: x63 :: c :: pre), post.
      change (firstn (Z.to_nat 0) magic ++ rest) with rest in Hin.
      split; [rewrite Hin; reflexivity|cbn [length]; lia].
  - destruct (Byte.eqb c x70) eqn:E.
    + apply Byte.byte_dec_bl in E. subst c.
      injection H as <-.
      exists [], rest. split; [reflexivity|cbn [length]; lia].
    + apply IH in H; [|lia]. destruct H as (pre & post & Hin & ->).
      exists (x61 :: x63 :: x73 :: c :: pre), post.
      change (firstn (Z.to_nat 0) magic ++ rest) with rest in Hin.
      split; [rewrite Hin; reflexivity|cbn [length]; lia].
Qed.

(** X13. Whenever the search reports a hit, the four bytes "acsp" stand in
    the file 36 bytes behind the offset it hands back, at or behind the
    place the search started from. *)
Theorem magic_search_is_sound (bytes : list byte) (offset offset' : Z) :
  0 <= offset ->
  search_magic bytes offset = (true, offset') ->
  offset <= offset' + 36
  /\ firstn 4 (skipn (Z.to_nat (offset' + 36)) bytes) = magic.
Proof.
  intros Hoffset H. unfold search_magic in H.
  apply search_loop_sound in H; [|lia].
  destruct H as (pre & post & Hin & ->).
  change (firstn (Z.to_nat 0) magic ++ skipn (Z.to_nat offset) bytes)
    with (skipn (Z.to_nat offset) bytes) in Hin.
  split; [lia|].
  replace (Z.to_nat (offset - 0 + Z.of_nat (length pre) - 36 + 36))
    with (Z.to_nat offset + length pre)%nat by lia.
  rewrite (skipn_after _ _ pre _ Hin). reflexivity.
Qed.

(** While no byte is an 'a' the search stays in its first state. *)
Lemma search_loop_without_a (input : list byte) : forall (offset : Z),
  Forall (fun c => c <> x61) input ->
  search_loop 0 offset input = (false, offset + Z.of_nat (length input)).
Proof.
  induction input as [|c rest IH]; intros offset Hno.
  - cbn [search_loop length]. f_equal. lia.
  - inversion Hno as [|? ? Hc Hrest]; subst.
    cbn [search_loop Z.eqb]. rewrite (byte_neqb c x61 Hc), IH by exact Hrest.
    f_equal. cbn [length]. lia.
Qed.

Lemma search_loop_skips (pre : list byte) :
  forall (offset : Z) (input : list byte),
  Forall (fun c => c <> x61) pre ->
  search_loop 0 offset (pre ++ input)
  = search_loop 0 (offset + Z.of_nat (length pre)) input.
Proof.
  induction pre as [|c pre IH]; intros offset input Hno.
  - cbn [app length]. f_equal. lia.
  - inversion Hno as [|? ? Hc Hrest]; subst.
    cbn [app search_loop Z.eqb]. rewrite (byte_neqb c x61 Hc), IH by exact Hrest.
    f_equal. cbn [length]. lia.
Qed.

(** X14. When no byte 'a' stands between the start of the search and the
    first "acsp", the search finds it, and the offset handed back is the
    place of the magic number less 36. It is negative when the magic
    number lies in the first 36 bytes of the file. *)
Theorem magic_search_finds (bytes pre post : list byte) (offset : Z) :
  0 <= offset ->
  skipn (Z.to_nat offset) bytes = pre ++ magic ++ post ->
  Forall (fun c => c <> x61) pre ->
  search_magic bytes offset
  = (true, offset + Z.of_nat (length pre) - 36).
Proof.
  intros Hoffset Hin Hno. unfold search_magic.
  rewrite Hin, search_loop_skips by exact Hno.
  cbn [magic app search_loop Z.eqb Pos.eqb Z.add Pos.add Pos.succ Byte.eqb].
  cbn. f_equal. lia.
Qed.

Lemma magic_search_finds_witness :
  search_magic (x00 :: x00 :: magic ++ [x00]) 0 = (true, -34).
Proof.
  refine (magic_search_finds (x00 :: x00 :: magic ++ [x00]) [x00; x00] [x00]
            0 _ _ _).
  - lia.
  - reflexivity.
  - repeat constructor; discriminate.
Defined.

Lemma magic_search_sound_witness :
  0 <= -34 + 36
  /\ firstn 4 (skipn (Z.to_nat (-34 + 36)) (x00 :: x00 :: magic ++ [x00]))
     = magic.
Proof.
  refine (magic_search_is_sound (x00 :: x00 :: magic ++ [x00]) 0 (-34) _ _).
  - lia.
  - vm_compute. reflexivity.
Defined.

(** X15. The search does not look again at the byte that broke a partial
    match: a magic number that directly follows a byte 'a' is passed over.
    With no other 'a' around it, the file is read to its end and nothing
    is found. *)
Theorem magic_search_misses_after_a (bytes pre post : list byte)
    (offset : Z) :
  0 <= offset ->
  skipn (Z.to_nat offset) bytes = pre ++ x61 :: magic ++ post ->
  Forall (fun c => c <> x61) pre ->
  Forall (fun c => c <> x61) post ->
  search_magic bytes offset
  = (false, offset + Z.of_nat (length pre) + 5 + Z.of_nat (length post)).
Proof.
  intros Hoffset Hin Hpre Hpost. unfold search_magic.
  rewrite Hin, search_loop_skips by exact Hpre.
  cbn [magic app search_loop].
  cbn [Z.eqb Pos.eqb Z.add Pos.add Byte.eqb]. cbn.
  rewrite search_loop_without_a by exact Hpost.
  f_equal. lia.
Qed.

Lemma magic_search_misses_witness :
  search_magic (x00 :: x61 :: magic ++ [x00]) 0 = (false, 7).
Proof.
  refine (magic_search_misses_after_a (x00 :: x61 :: magic ++ [x00])
            [x00] [x00] 0 _ _ _ _).
  - lia.
  - reflexivity.
  - repeat constructor; discriminate.
  - repeat constructor; discriminate.
Defined.

End MagicSearch.

(** ** The decimation of a table in the ICCLIB build *)

Section TableDecimation.

Import Icclib.

Lemma fetch_inside (data : list Z) (k : Z) :
  0 <= k < Z.of_nat (length data) ->
  fetch data k = Ok (nth (Z.to_nat k) data 0).
Proof.
  intros H. unfold fetch.
  destruct (nth_error data (Z.to_nat k)) as [v|] eqn:E.
  - rewrite (nth_error_nth _ _ 0 E). reflexivity.
  - apply nth_error_None in E. lia.
Qed.

(** A loop whose indices stay inside [data] fills its ramp with the
    entries [i * ramp_scaling], converted. *)
Lemma fill_inside (conv : Z -> Z) (data : list Z) (ramp_scaling : Z)
    (count : nat) : forall (i : Z),
  (forall k, i <= k < i + Z.of_nat count ->
             0 <= k * ramp_scaling < Z.of_nat (length data)
             /\ k * ramp_scaling < 2 ^ 32) ->
  exists cells,
    fill conv data ramp_scaling i count = Ok cells
    /\ length cells = count
    /\ forall k, (k < count)%nat ->
         nth_error cells k
         = Some (Some (conv (nth (Z.to_nat ((i + Z.of_nat k) * ramp_scaling))
                                 data 0))).
Proof.
  induction count as [|count IH]; intros i Hin.
  - exists []. cbn [fill length]. repeat split. intros k Hk. lia.
  - cbn [fill].
    destruct (Hin i) as [Hi Hsmall]; [lia|].
    rewrite Z.mod_small by lia. rewrite (fetch_inside data _ Hi). cbn [bind].
    destruct (IH (i + 1)) as (cells & E & Hlen & Hnth).
    { intros k Hk. apply Hin. lia. }
    rewrite E. cbn [bind]. eexists. split; [reflexivity|].
    split; [cbn [length]; lia|].
    intros [|k] Hk; cbn [nth_error].
    + rewrite Z.add_0_r. reflexivity.
    + rewrite Hnth by lia. do 4 f_equal. lia.
Qed.

(** The three loops on a table that holds three channels of [entryCount]
    entries each: what every ramp entry is read from. *)
Lemma three_loops_inside (conv : Z -> Z) (data : list Z)
    (ramp_size entryCount : Z) :
  0 < ramp_size <= entryCount ->
  entryCount <= 65535 ->
  Z.of_nat (length data) = 3 * entryCount ->
  let ramp_scaling := entryCount / ramp_size in
  exists r g b,
    three_loops conv data ramp_scaling ramp_size = Ramps r g b
    /\ forall k, 0 <= k < ramp_size ->
         nth_error r (Z.to_nat k)
         = Some (Some (conv (nth (Z.to_nat (k * ramp_scaling)) data 0)))
         /\ nth_error g (Z.to_nat k)
            = Some (Some (conv (nth (Z.to_nat ((ramp_size + k) * ramp_scaling))
                                    data 0)))
         /\ nth_error b (Z.to_nat k)
            = Some (Some (conv (nth (Z.to_nat
                                       ((2 * ramp_size + k) * ramp_scaling))
                                    data 0)))
         /\ (2 * ramp_size + k) * ramp_scaling < 3 * entryCount.
Proof.
  intros Hsize Hmax Hdata ramp_scaling.
  assert (Hscale : 1 <= ramp_scaling).
  { unfold ramp_scaling. apply Z.div_le_lower_bound; lia. }
  assert (Hfit : ramp_size * ramp_scaling <= entryCount).
  { unfold ramp_scaling. apply Z.mul_div_le. lia. }
  assert (Hin : forall k, 0 <= k < 3 * ramp_size ->
            0 <= k * ramp_scaling < Z.of_nat (length data)
            /\ k * ramp_scaling < 2 ^ 32).
  { intros k Hk. rewrite Hdata. split; [nia|nia]. }
  unfold three_loops.
  destruct (fill_inside conv data ramp_scaling (Z.to_nat ramp_size) 0)
    as (r & Er & Hlr & Hr); [intros k Hk; apply Hin; lia|].
  destruct (fill_inside conv data ramp_scaling (Z.to_nat ramp_size) ramp_size)
    as (g & Eg & Hlg & Hg); [intros k Hk; apply Hin; lia|].
  destruct (fill_inside conv data ramp_scaling (Z.to_nat ramp_size)
              (2 * ramp_size))
    as (b & Eb & Hlb & Hb); [intros k Hk; apply Hin; lia|].
  rewrite Er, Eg, Eb. do 3 eexists. split; [reflexivity|].
  intros k Hk.
  rewrite !nth_error_app1 by lia.
  rewrite Hr, Hg, Hb by lia. rewrite Z2Nat.id by lia. rewrite Z.add_0_l.
  repeat split. nia.
Qed.

Lemma table_ramps_three_loops (char_is_signed : bool)
    (ramp_size entryCount entrySize : Z) (data : list Z) :
  0 < ramp_size <= entryCount ->
  entrySize = 1 \/ entrySize = 2 ->
  table_ramps char_is_signed ramp_size entryCount entrySize data
  = three_loops (conversion char_is_signed entrySize) data
                (entryCount / ramp_size) ramp_size.
Proof.
  intros Hsize Hentry. unfold table_ramps, conversion.
  replace (ramp_size =? 0) with false by (symmetry; apply Z.eqb_neq; lia).
  replace (entryCount <? ramp_size) with false
    by (symmetry; apply Z.ltb_ge; lia).
  destruct Hentry as [-> | ->]; reflexivity.
Qed.

(** X16. With a table of three channels that has at least as many entries
    as the ramp, the ICCLIB build reads no entry outside the table, and the
    red ramp is the red channel taken at every [ramp_scaling]-th entry,
    [ramp_scaling] being the integer quotient of the two sizes. Entries of
    one byte are not scaled to 16 bits: they are widened as a [char]. *)
Theorem icclib_table_red_ramp (char_is_signed : bool)
    (ramp_size entryCount entrySize : Z) (red green blue : list Z) :
  0 < ramp_size <= entryCount ->
  entryCount <= 65535 ->
  entrySize = 1 \/ entrySize = 2 ->
  Z.of_nat (length red) = entryCount ->
  Z.of_nat (length green) = entryCount ->
  Z.of_nat (length blue) = entryCount ->
  exists r g b,
    table_ramps char_is_signed ramp_size entryCount entrySize
      (red ++ green ++ blue) = Ramps r g b
    /\ forall k, 0 <= k < ramp_size ->
         k * (entryCount / ramp_size) < entryCount
         /\ nth_error r (Z.to_nat k)
            = Some (Some (conversion char_is_signed entrySize
                            (nth (Z.to_nat (k * (entryCount / ramp_size)))
                                 red 0))).
Proof.
  intros Hsize Hmax Hentry Hr Hg Hb.
  rewrite table_ramps_three_loops by assumption.
  destruct (three_loops_inside (conversion char_is_signed entrySize)
              (red ++ green ++ blue) ramp_size entryCount Hsize Hmax)
    as (r & g & b & E & Hnth).
  { rewrite !length_app. lia. }
  exists r, g, b. split; [exact E|].
  intros k Hk. destruct (Hnth k Hk) as (Hrk & _).
  assert (Hfit : ramp_size * (entryCount / ramp_size) <= entryCount)
    by (apply Z.mul_div_le; lia).
  assert (Hscale : 1 <= entryCount / ramp_size)
    by (apply Z.div_le_lower_bound; lia).
  assert (Hin : k * (entryCount / ramp_size) < entryCount) by nia.
  split; [exact Hin|].
  rewrite Hrk, app_nth1 by nia. reflexivity.
Qed.

Lemma icclib_table_red_ramp_witness :
  exists r g b,
    table_ramps true 2 4 1
      ([0; 10; 20; 200] ++ [1; 11; 21; 31] ++ [2; 12; 22; 32]) = Ramps r g b
    /\ nth_error r (Z.to_nat 1) = Some (Some 20).
Proof.
  destruct (icclib_table_red_ramp true 2 4 1
              [0; 10; 20; 200] [1; 11; 21; 31] [2; 12; 22; 32])
    as (r & g & b & E & H).
  - lia.
  - lia.
  - left. reflexivity.
  - reflexivity.
  - reflexivity.
  - reflexivity.
  - exists r, g, b. split; [exact E|].
    destruct (H 1) as [_ H1]; [lia|]. exact H1.
Defined.

(** X17. When the ramp size divides the number of entries, the green and
    the blue ramp are the green and the blue channel taken at every
    [ramp_scaling]-th entry as well. *)
Theorem icclib_table_channels_when_divisible (char_is_signed : bool)
    (ramp_size entryCount entrySize : Z) (red green blue : list Z) :
  0 < ramp_size <= entryCount ->
  entryCount <= 65535 ->
  entryCount mod ramp_size = 0 ->
  entrySize = 1 \/ entrySize = 2 ->
  Z.of_nat (length red) = entryCount ->
  Z.of_nat (length green) = entryCount ->
  Z.of_nat (length blue) = entryCount ->
  exists r g b,
    table_ramps char_is_signed ramp_size entryCount entrySize
      (red ++ green ++ blue) = Ramps r g b
    /\ forall k, 0 <= k < ramp_size ->
         nth_error g (Z.to_nat k)
         = Some (Some (conversion char_is_signed entrySize
                         (nth (Z.to_nat (k * (entryCount / ramp_size)))
                              green 0)))
         /\ nth_error b (Z.to_nat k)
            = Some (Some (conversion char_is_signed entrySize
                            (nth (Z.to_nat (k * (entryCount / ramp_size)))
                                 blue 0))).
Proof.
  intros Hsize Hmax Hmod Hentry Hr Hg Hb.
  rewrite table_ramps_three_loops by assumption.
  destruct (three_loops_inside (conversion char_is_signed entrySize)
              (red ++ green ++ blue) ramp_size entryCount Hsize Hmax)
    as (r & g & b & E & Hnth).
  { rewrite !length_app. lia. }
  exists r, g, b. split; [exact E|].
  intros k Hk. destruct (Hnth k Hk) as (_ & Hgk & Hbk & _).
  assert (Hexact : entryCount = ramp_size * (entryCount / ramp_size))
    by (apply Z.div_exact; lia).
  set (s := entryCount / ramp_size) in *.
  assert (Hscale : 1 <= s) by (apply Z.div_le_lower_bound; lia).
  assert (Hin : 0 <= k * s < entryCount) by nia.
  rewrite Hgk, Hbk.
  replace ((ramp_size + k) * s) with (entryCount + k * s) by nia.
  replace ((2 * ramp_size + k) * s) with (2 * entryCount + k * s) by nia.
  split; do 3 f_equal.
  - rewrite app_nth2 by lia. rewrite app_nth1 by lia. f_equal. lia.
  - rewrite app_nth2 by lia. rewrite app_nth2 by lia. f_equal. lia.
Qed.

Lemma icclib_table_divisible_witness :
  exists r g b,
    table_ramps true 2 4 2
      ([0; 10; 20; 30] ++ [1; 11; 21; 31] ++ [2; 12; 22; 32]) = Ramps r g b
    /\ nth_error g (Z.to_nat 1) = Some (Some 21)
    /\ nth_error b (Z.to_nat 1) = Some (Some 22).
Proof.
  destruct (icclib_table_channels_when_divisible true 2 4 2
              [0; 10; 20; 30] [1; 11; 21; 31] [2; 12; 22; 32])
    as (r & g & b & E & H).
  - lia.
  - lia.
  - reflexivity.
  - right. reflexivity.
  - reflexivity.
  - reflexivity.
  - reflexivity.
  - exists r, g, b. split; [exact E|]. apply (H 1). lia.
Defined.

(** X18. When the ramp size does not divide the number of entries, the
    second loop starts before the green channel does: the first entry of
    the green ramp is a sample of the red channel, the one at index
    [ramp_size * ramp_scaling]. *)
Theorem icclib_table_green_starts_in_red (char_is_signed : bool)
    (ramp_size entryCount entrySize : Z) (red green blue : list Z) :
  0 < ramp_size <= entryCount ->
  entryCount <= 65535 ->
  entryCount mod ramp_size <> 0 ->
  entrySize = 1 \/ entrySize = 2 ->
  Z.of_nat (length red) = entryCount ->
  Z.of_nat (length green) = entryCount ->
  Z.of_nat (length blue) = entryCount ->
  exists r g b,
    table_ramps char_is_signed ramp_size entryCount entrySize
      (red ++ green ++ blue) = Ramps r g b
    /\ ramp_size * (entryCount / ramp_size) < entryCount
    /\ nth_error g 0
       = Some (Some (conversion char_is_signed entrySize
                       (nth (Z.to_nat (ramp_size * (entryCount / ramp_size)))
                            red 0))).
Proof.
  intros Hsize Hmax Hmod Hentry Hr Hg Hb.
  rewrite table_ramps_three_loops by assumption.
  destruct (three_loops_inside (conversion char_is_signed entrySize)
              (red ++ green ++ blue) ramp_size entryCount Hsize Hmax)
    as (r & g & b & E & Hnth).
  { rewrite !length_app. lia. }
  exists r, g, b. split; [exact E|].
  destruct (Hnth 0) as (_ & Hg0 & _); [lia|].
  assert (Hdiv : entryCount
                 = ramp_size * (entryCount / ramp_size)
                   + entryCount mod ramp_size)
    by (apply Z.div_mod; lia).
  pose proof (Z.mod_pos_bound entryCount ramp_size) as Hrem.
  set (s := entryCount / ramp_size) in *.
  assert (Hscale : 1 <= s) by (apply Z.div_le_lower_bound; lia).
  split; [lia|].
  change (Z.to_nat 0) with 0%nat in Hg0. rewrite Hg0, Z.add_0_r.
  rewrite app_nth1 by nia. reflexivity.
Qed.

Lemma icclib_table_green_witness :
  exists r g b,
    table_ramps true 3 4 2
      ([0; 10; 20; 30] ++ [1; 11; 21; 31] ++ [2; 12; 22; 32]) = Ramps r g b
    /\ 3 * (4 / 3) < 4
    /\ nth_error g 0 = Some (Some 30).
Proof.
  destruct (icclib_table_green_starts_in_red true 3 4 2
              [0; 10; 20; 30] [1; 11; 21; 31] [2; 12; 22; 32])
    as (r & g & b & E & H).
  - lia.
  - lia.
  - vm_compute. discriminate.
  - right. reflexivity.
  - reflexivity.
  - reflexivity.
  - reflexivity.
  - exists r, g, b. split; [exact E|]. exact H.
Defined.

End TableDecimation.

(** ** The check of the ramps in the ICCLIB build *)

Section RampCheck.

Import Icclib.

Lemma check_turn_spec (r g b : list Z) (i : Z) :
  0 <= i ->
  i + 1 < Z.of_nat (length r) ->
  i + 1 < Z.of_nat (length g) ->
  i + 1 < Z.of_nat (length b) ->
  exists w,
    check_turn r g b i = Ok w
    /\ (w = [] <->
        nth (Z.to_nat i) r 0 <= nth (Z.to_nat (i + 1)) r 0
        /\ nth (Z.to_nat i) g 0 <= nth (Z.to_nat (i + 1)) g 0
        /\ nth (Z.to_nat i) b 0 <= nth (Z.to_nat (i + 1)) b 0).
Proof.
  intros Hi Hr Hg Hb. unfold check_turn.
  rewrite !fetch_inside by lia. cbn [bind].
  eexists. split; [reflexivity|].
  destruct (Z.ltb_spec (nth (Z.to_nat (i + 1)) r 0) (nth (Z.to_nat i) r 0))
    as [L1|L1];
    destruct (Z.ltb_spec (nth (Z.to_nat (i + 1)) g 0) (nth (Z.to_nat i) g 0))
      as [L2|L2];
    destruct (Z.ltb_spec (nth (Z.to_nat (i + 1)) b 0) (nth (Z.to_nat i) b 0))
      as [L3|L3];
    cbn [app]; split; intros Hw; try discriminate Hw; try reflexivity; lia.
Qed.

Lemma check_loop_spec (r g b : list Z) (count : nat) : forall (i : Z),
  0 <= i ->
  i + Z.of_nat count < Z.of_nat (length r) ->
  i + Z.of_nat count < Z.of_nat (length g) ->
  i + Z.of_nat count < Z.of_nat (length b) ->
  exists w,
    check_loop r g b i count = Ok w
    /\ (w = [] <->
        forall k, i <= k < i + Z.of_nat count ->
          nth (Z.to_nat k) r 0 <= nth (Z.to_nat (k + 1)) r 0
          /\ nth (Z.to_nat k) g 0 <= nth (Z.to_nat (k + 1)) g 0
          /\ nth (Z.to_nat k) b 0 <= nth (Z.to_nat (k + 1)) b 0).
Proof.
  induction count as [|count IH]; intros i Hi Hr Hg Hb.
  - exists []. cbn [check_loop]. split; [reflexivity|].
    split; [intros _ k Hk; lia|reflexivity].
  - cbn [check_loop].
    destruct (check_turn_spec r g b i) as (now & En & Hnow); try lia.
    destruct (IH (i + 1)) as (later & El & Hlater); try lia.
    rewrite En, El. cbn [bind]. eexists. split; [reflexivity|].
    split.
    + intros Hnil. apply app_eq_nil in Hnil. destruct Hnil as [Hn Hl].
      intros k Hk. destruct (Z.eq_dec k i) as [->|Hne].
      * apply Hnow. exact Hn.
      * apply (proj1 Hlater Hl). lia.
    + intros Hall.
      rewrite (proj2 Hnow) by (apply Hall; lia).
      rewrite (proj2 Hlater); [reflexivity|].
      intros k Hk. apply Hall. lia.
Qed.

(** X19. For ramps of at least one entry whose cells were written, the
    check reads no cell behind entry [ramp_size - 1], never stops the
    program, and prints no warning exactly when each of the three ramps
    is nowhere decreasing; equal neighbours are not reported. *)
Theorem ramp_check_warns_of_descents (ramp_size : Z) (r g b : list Z) :
  1 <= ramp_size < 2 ^ 32 ->
  ramp_size <= Z.of_nat (length r) ->
  ramp_size <= Z.of_nat (length g) ->
  ramp_size <= Z.of_nat (length b) ->
  exists warnings,
    check_ramps ramp_size r g b = Ok warnings
    /\ (warnings = [] <->
        forall k, 0 <= k -> k + 1 < ramp_size ->
          nth (Z.to_nat k) r 0 <= nth (Z.to_nat (k + 1)) r 0
          /\ nth (Z.to_nat k) g 0 <= nth (Z.to_nat (k + 1)) g 0
          /\ nth (Z.to_nat k) b 0 <= nth (Z.to_nat (k + 1)) b 0).
Proof.
  intros Hsize Hr Hg Hb. unfold check_ramps.
  rewrite Z.mod_small by lia.
  destruct (check_loop_spec r g b (Z.to_nat (ramp_size - 1)) 0)
    as (w & E & Hw); try lia.
  rewrite E. cbn [bind]. rewrite !fetch_inside by lia. cbn [bind].
  exists w. split; [reflexivity|].
  rewrite Hw. split; intros H k; [intros H0 H1|intros Hk]; apply H; lia.
Qed.

Lemma ramp_check_witness :
  exists warnings,
    check_ramps 3 [0; 5; 5] [0; 7; 9] [1; 1; 2] = Ok warnings
    /\ warnings = [].
Proof.
  destruct (ramp_check_warns_of_descents 3 [0; 5; 5] [0; 7; 9] [1; 1; 2])
    as (w & E & H).
  - lia.
  - vm_compute. discriminate.
  - vm_compute. discriminate.
  - vm_compute. discriminate.
  - exists w. split; [exact E|]. apply H.
    intros k H0 H1.
    assert (Hk : k = 0 \/ k = 1) by lia.
    destruct Hk as [-> | ->]; vm_compute; repeat split; discriminate.
Defined.

End RampCheck.

(** ** A tag that lies behind the end of the file *)

(** When the scan stops at a vcgt entry, [cTmp] still holds the bytes of
    the entry's size field. *)
Lemma scan_tags_found_cTmp (fuel : nat) :
  forall (i numTags : Z) (s s' : locals) (tagOffset tagSize : Z),
  scan_tags fuel i numTags s = TagFound tagOffset tagSize s' ->
  u32 (cTmp s') = tagSize.
Proof.
  induction fuel as [|fuel IH]; intros i numTags s s' tagOffset tagSize H;
    [discriminate|].
  cbn [scan_tags] in H.
  destruct (i <? numTags); [|discriminate].
  destruct (bytesRead _ =? 0); [discriminate|].
  destruct (u32 _ =? vcgt).
  - injection H as _ <- <-. reflexivity.
  - exact (IH _ _ _ _ _ _ H).
Qed.

(** A read at or behind the end of the file delivers nothing and leaves
    [cTmp] as it was. *)
Lemma fread_cTmp_at_end (n : nat) (s : locals) :
  (length (contents (fp s)) <= position (fp s))%nat ->
  fread_cTmp n s = mkLocals (fp s) (cTmp s) 0.
Proof.
  intros H. unfold fread_cTmp, fread.
  rewrite skipn_all2 by exact H. rewrite firstn_nil.
  destruct (cTmp s) as [[[c0 c1] c2] c3]. cbn [store length].
  rewrite Nat.add_0_r. destruct s as [[c p] buf br]. reflexivity.
Qed.

(** X20. When the offset of the vcgt entry lies at or behind the end of the
    file, the signature that is read again is not read at all: the
    comparison is made with the bytes left in [cTmp], those of the entry's
    size field. The function exits through [error] with that size as the
    offending value, unless the size itself spells 'vcgt'; then the type
    is taken from the same stale bytes and the function returns 0 without
    ramps. *)
Theorem tag_behind_the_end_of_the_file
    (pow : double -> double -> double) (fs : filesystem) (name : string)
    (bytes : list byte) (nEntries : Z) (cTmp0 : buffer)
    (tagOffset tagSize : Z) (s : locals) :
  fs name = Some bytes ->
  locate_vcgt (mkFILE bytes 0) cTmp0 = TagFound tagOffset tagSize s ->
  Z.of_nat (length bytes) <= tagOffset ->
  read_vcgt_from_profile pow fs (Some name) nEntries cTmp0
  = if tagSize =? vcgt then Returned 0 None
    else Exited (-1) "invalid content of table vcgt, starting with %x"
                tagSize.
Proof.
  intros Hfs Hscan Hend.
  rewrite (read_vcgt_opened _ _ _ _ _ _ (opened_disk fs name bytes Hfs)), Hscan.
  pose proof (locate_vcgt_contents _ _ _ _ _ Hscan) as Hc.
  cbn [contents] in Hc.
  pose proof (scan_tags_found_cTmp _ _ _ _ _ _ _ Hscan) as Hsize.
  assert (H1 : after_signature tagOffset s
               = mkLocals (mkFILE bytes (Z.to_nat tagOffset)) (cTmp s) 0).
  { unfold after_signature. rewrite fread_cTmp_at_end.
    - unfold seek, fseek. cbn [fp cTmp]. rewrite Hc, Z.add_0_l. reflexivity.
    - unfold seek, fseek. cbn [fp contents position]. rewrite Hc. lia. }
  assert (H3 : after_type tagOffset s
               = mkLocals (mkFILE bytes (Z.to_nat tagOffset)) (cTmp s) 0).
  { unfold after_type. rewrite H1.
    set (t := mkLocals (mkFILE bytes (Z.to_nat tagOffset)) (cTmp s) 0).
    assert (Ht : fread_cTmp 4 t = t).
    { rewrite fread_cTmp_at_end; [reflexivity|].
      unfold t. cbn [fp contents position]. lia. }
    rewrite !Ht. reflexivity. }
  rewrite decode_vcgt_unfold. unfold tagName_read, gammaType_read.
  rewrite H1, H3. cbn [cTmp]. rewrite Hsize.
  destruct (tagSize =? vcgt) eqn:E; cbn [negb]; [|reflexivity].
  apply Z.eqb_eq in E. rewrite E. reflexivity.
Qed.

Lemma tag_behind_the_end_witness :
  read_vcgt_from_profile Samples.pow
    (Samples.disk (Samples.header ++ Samples.directory x90))
    (Some "profile.icc"%string) 256 Samples.stack
  = Exited (-1) "invalid content of table vcgt, starting with %x" 30.
Proof.
  refine (tag_behind_the_end_of_the_file
            Samples.pow (Samples.disk (Samples.header ++ Samples.directory x90))
            "profile.icc"%string (Samples.header ++ Samples.directory x90)
            256 Samples.stack 144 30 _ eq_refl _ _).
  - vm_compute. reflexivity.
  - vm_compute. discriminate.
Defined.

(** ** The range of the samples *)

Lemma read_sample_range (entrySize : Z) (s : locals) (c : option Z) :
  in_16_bits c -> in_16_bits (snd (read_sample entrySize (s, c))).
Proof.
  intros Hc. unfold read_sample, case_2.
  destruct (entrySize =? 1); [cbn [snd in_16_bits]; apply u16_range|].
  destruct (entrySize =? 2); [cbn [snd in_16_bits]; apply u16_range|].
  exact Hc.
Qed.

Lemma read_channel_range (entrySize : Z) (count : nat) :
  forall (s : locals),
  Forall in_16_bits (snd (read_channel entrySize count s)).
Proof.
  induction count as [|count IH]; intros s; [constructor|].
  cbn [read_channel].
  pose proof (read_sample_range entrySize s None I) as Hc.
  destruct (read_sample entrySize (s, None)) as [s1 c].
  specialize (IH s1).
  destruct (read_channel entrySize count s1) as [s2 cs].
  cbn [snd] in *. constructor; assumption.
Qed.

Lemma load_range (P : cell -> Prop) (a : list cell) (k : Z) (c : cell) :
  Forall P a -> load a k = Ok c -> P c.
Proof.
  intros Ha. unfold load.
  destruct (nth_error a (Z.to_nat k)) as [x|] eqn:E; [|discriminate].
  intros H. injection H as <-.
  rewrite Forall_forall in Ha. apply Ha. exact (nth_error_In _ _ E).
Qed.

(** The loops copy cells; they make no value of their own. *)
Lemma copy_loop_range (P : cell -> Prop) (index : Z -> Z)
    (red green blue : list cell) (count : nat) :
  Forall P red -> Forall P green -> Forall P blue ->
  forall (j : Z) (r g b : list cell),
  copy_loop index red green blue j count = Ok (r, g, b) ->
  Forall P r /\ Forall P g /\ Forall P b.
Proof.
  intros Hr Hg Hb.
  induction count as [|count IH]; intros j r g b H; cbn [copy_loop] in H.
  - injection H as <- <- <-. repeat split; constructor.
  - destruct (load red (index j)) as [cr|] eqn:Er; [|discriminate].
    destruct (load green (index j)) as [cg|] eqn:Eg; [|discriminate].
    destruct (load blue (index j)) as [cb|] eqn:Eb; [|discriminate].
    cbn [bind] in H.
    destruct (copy_loop index red green blue (j + 1) count)
      as [[[rs gs] bs]|] eqn:E; [|discriminate].
    cbn [bind] in H. injection H as <- <- <-.
    destruct (IH _ _ _ _ E) as (Ir & Ig & Ib).
    repeat split; constructor; try assumption.
    + exact (load_range P red _ _ Hr Er).
    + exact (load_range P green _ _ Hg Eg).
    + exact (load_range P blue _ _ Hb Eb).
Qed.

Lemma evaluate_table_range (P : cell -> Prop) (nEntries numEntries : Z)
    (red green blue r g b : list cell) :
  Forall P red -> Forall P green -> Forall P blue ->
  evaluate_table nEntries numEntries red green blue = Ok (r, g, b) ->
  Forall P r /\ Forall P g /\ Forall P b.
Proof.
  intros Hr Hg Hb. unfold evaluate_table.
  destruct (nEntries =? numEntries).
  - intros H. injection H as <- <- <-. auto.
  - destruct (nEntries <? numEntries).
    + destruct (nEntries =? 0); [discriminate|].
      apply copy_loop_range; assumption.
    + destruct (numEntries =? 0); [discriminate|].
      apply copy_loop_range; assumption.
Qed.

(** X21. Every entry that [read_vcgt_from_profile] puts into a ramp from a
    table is a value the file holds as one big-endian pair of bytes: it
    lies between 0 and 65535, so storing it in the [unsigned short] arrays
    loses nothing. *)
Theorem table_ramp_entries_fit_16_bits
    (pow : double -> double -> double) (fs : filesystem)
    (filename : option string) (nEntries : Z) (cTmp0 : buffer)
    (rv : Z) (r g b : list cell) :
  read_vcgt_from_profile pow fs filename nEntries cTmp0
  = Returned rv (Some (TableRamps r g b)) ->
  Forall in_16_bits r /\ Forall in_16_bits g /\ Forall in_16_bits b.
Proof.
  destruct (opened fs filename) as [f|] eqn:Hopen.
  - rewrite (read_vcgt_opened _ _ _ _ _ _ Hopen).
    destruct (locate_vcgt f cTmp0) as [tagOffset tagSize s|s|s|];
      try discriminate.
    rewrite decode_vcgt_unfold.
    destruct (negb _); [discriminate|].
    destruct (gammaType_read tagOffset s =? 1).
    { unfold decode_formula.
      destruct (evaluate_formula _ _ _ _ _) as [[[r' g'] b']|u];
        discriminate. }
    destruct (gammaType_read tagOffset s =? 0); [|discriminate].
    unfold decode_table.
    destruct (negb _); [discriminate|].
    match goal with |- context [read_channel ?e ?n ?t] =>
      pose proof (read_channel_range e n t) as R1;
      destruct (read_channel e n t) as [s4 redRamp] end.
    match goal with |- context [read_channel ?e ?n ?t] =>
      pose proof (read_channel_range e n t) as R2;
      destruct (read_channel e n t) as [s5 greenRamp] end.
    match goal with |- context [read_channel ?e ?n ?t] =>
      pose proof (read_channel_range e n t) as R3;
      destruct (read_channel e n t) as [s6 blueRamp] end.
    cbn [snd] in R1, R2, R3.
    destruct (evaluate_table _ _ redRamp greenRamp blueRamp)
      as [[[r' g'] b']|u] eqn:E; [|discriminate].
    intros H. injection H as _ <- <- <-.
    exact (evaluate_table_range in_16_bits _ _ _ _ _ _ _ _ R1 R2 R3 E).
  - rewrite (read_vcgt_not_opened _ _ _ _ _ Hopen). discriminate.
Qed.

Lemma table_ramp_entries_witness :
  Forall in_16_bits [Some 0x0203; Some 0x0506]
  /\ Forall in_16_bits [Some 0x0809; Some 0x0b0c]
  /\ Forall in_16_bits [Some 0x0e0f; Some 0x1112].
Proof.
  refine (table_ramp_entries_fit_16_bits Samples.pow
            (Samples.disk Samples.two_by_8)
            Samples.name 2 Samples.stack 0 _ _ _ _).
  vm_compute. reflexivity.
Defined.


(** ** The cells of a formula ramp *)

Lemma to_u_int16_t_range (x : double) (v : Z) :
  to_u_int16_t x = Ok v -> 0 <= v <= 65535.
Proof.
  unfold to_u_int16_t.
  destruct x as [s|s| |s m e]; try discriminate.
  - intros H. injection H as <-. lia.
  - destruct (_ && _) eqn:E; [|discriminate].
    intros H. injection H as <-.
    apply andb_true_iff in E. destruct E as [E1 E2].
    apply Z.leb_le in E1, E2. lia.
Qed.

Lemma formula_loop_written (pow : double -> double -> double)
    (nEntries : Z) (rGamma gGamma bGamma : float) (count : nat) :
  forall (j : Z) (r g b : list cell),
  formula_loop pow nEntries rGamma gGamma bGamma j count = Ok (r, g, b) ->
  Forall in_16_bits r /\ Forall in_16_bits g /\ Forall in_16_bits b
  /\ ~ In None r /\ ~ In None g /\ ~ In None b.
Proof.
  induction count as [|count IH]; intros j r g b H; cbn [formula_loop] in H.
  - injection H as <- <- <-. repeat split; (constructor || (intros [])).
  - destruct (formula_entry pow nEntries rGamma j) as [vr|] eqn:Er;
      [|discriminate].
    destruct (formula_entry pow nEntries gGamma j) as [vg|] eqn:Eg;
      [|discriminate].
    destruct (formula_entry pow nEntries bGamma j) as [vb|] eqn:Eb;
      [|discriminate].
    cbn [bind] in H.
    destruct (formula_loop pow nEntries rGamma gGamma bGamma (j + 1) count)
      as [[[rs gs] bs]|] eqn:E; [|discriminate].
    cbn [bind] in H. injection H as <- <- <-.
    destruct (IH _ _ _ _ E) as (Ir & Ig & Ib & Wr & Wg & Wb).
    apply to_u_int16_t_range in Er, Eg, Eb.
    repeat split; try (constructor; [exact Er || exact Eg || exact Eb|]);
      try assumption;
      intros [K|K]; try discriminate K; auto.
Qed.

(** X22. Whenever [read_vcgt_from_profile] comes back with ramps made by
    the formula branch, every cell of them has been written, and with a
    value between 0 and 65535: the loop of lines 220-236 either fills all
    the cells or meets an entry that has no defined conversion, and then the
    function does not come back with ramps at all. *)
Theorem formula_ramps_are_written
    (pow : double -> double -> double) (fs : filesystem)
    (filename : option string) (nEntries : Z) (cTmp0 : buffer)
    (rv : Z) (r g b : list cell) :
  read_vcgt_from_profile pow fs filename nEntries cTmp0
  = Returned rv (Some (FormulaRamps r g b)) ->
  Forall in_16_bits r /\ Forall in_16_bits g /\ Forall in_16_bits b
  /\ ~ In None r /\ ~ In None g /\ ~ In None b.
Proof.
  destruct (opened fs filename) as [f|] eqn:Hopen.
  - rewrite (read_vcgt_opened _ _ _ _ _ _ Hopen).
    destruct (locate_vcgt f cTmp0) as [tagOffset tagSize s|s|s|];
      try discriminate.
    rewrite decode_vcgt_unfold.
    destruct (negb _); [discriminate|].
    destruct (gammaType_read tagOffset s =? 1).
    + unfold decode_formula.
      destruct (evaluate_formula _ _ _ _ _) as [[[r' g'] b']|u] eqn:E;
        [|discriminate].
      intros H. injection H as _ <- <- <-.
      exact (formula_loop_written _ _ _ _ _ _ _ _ _ _ E).
    + destruct (gammaType_read tagOffset s =? 0); [|discriminate].
      unfold decode_table.
      destruct (negb _); [discriminate|].
      repeat match goal with
             | |- context [read_channel ?e ?n ?t] =>
                 destruct (read_channel e n t)
             end.
      destruct (evaluate_table _ _ _ _ _) as [[[r' g'] b']|u]; discriminate.
  - rewrite (read_vcgt_not_opened _ _ _ _ _ Hopen). discriminate.
Qed.

Lemma formula_ramps_witness :
  Forall in_16_bits [Some 0] /\ Forall in_16_bits [Some 0]
  /\ Forall in_16_bits [Some 0]
  /\ ~ In None [Some 0] /\ ~ In None [Some 0] /\ ~ In None [Some 0].
Proof.
  refine (formula_ramps_are_written Samples.pow
            (Samples.disk Samples.formula_tag) Samples.name 1 Samples.stack
            0 [Some 0] [Some 0] [Some 0] _).
  vm_compute. reflexivity.
Defined.
